(** * sub2srt: the Sub-to-SRT subtitle converter, embedded and verified

    The development follows [src/sub2srt.py]:
    - Python text ([str]) is a list of Unicode code points;
    - [format_time_str] is a pure function that may raise;
    - [convert_single_sub_to_srt] and [batch_convert_sub_to_srt] run in a
      state-and-exception monad over a world made of a file system and the
      lines printed so far;
    - the file system is a finite map from paths to directories and files
      of bytes; what belongs to the platform (codecs, case mapping, the
      rendering of paths and exceptions, the order of directory listings)
      is a parameter, [Host], with [Posix.host] as the concrete instance
      and two variants of it, [Legacy.host] and [Ordered.host].

    Left out of the model: permissions, links, and a process stopped in
    the middle of a write. *)

From Stdlib Require Import String Ascii NArith Lia List Sorted.
From Stdlib Require Import DecimalFacts DecimalNat.
From stdpp Require Import gmap list sorting.

Import ListNotations.
Local Open Scope N_scope.

(** ** Text *)

(** A Python [str] is a sequence of code points. *)
Abbreviation char := N.
Abbreviation str := (list N).

Module Utf8.

(** Continuation byte [10xxxxxx]: its six payload bits. *)
Definition cont (b : N) : option N :=
  if (128 <=? b) && (b <? 192) then Some (b - 128) else None.

(** Strict UTF-8 decoding: shortest form only, no surrogates, at most
    U+10FFFF. *)
Fixpoint decode (bs : list N) : option str :=
  match bs with
  | [] => Some []
  | b0 :: r0 =>
    if b0 <? 128 then rest ← decode r0; Some (b0 :: rest)
    else if b0 <? 194 then None
    else if b0 <? 224 then
      match r0 with
      | b1 :: r1 =>
        c1 ← cont b1; rest ← decode r1;
        Some ((b0 - 192) * 64 + c1 :: rest)
      | _ => None
      end
    else if b0 <? 240 then
      match r0 with
      | b1 :: b2 :: r2 =>
        c1 ← cont b1; c2 ← cont b2;
        let cp := (b0 - 224) * 4096 + c1 * 64 + c2 in
        if (cp <? 2048) || ((55296 <=? cp) && (cp <? 57344)) then None
        else rest ← decode r2; Some (cp :: rest)
      | _ => None
      end
    else if b0 <? 245 then
      match r0 with
      | b1 :: b2 :: b3 :: r3 =>
        c1 ← cont b1; c2 ← cont b2; c3 ← cont b3;
        let cp := (b0 - 240) * 262144 + c1 * 4096 + c2 * 64 + c3 in
        if (cp <? 65536) || (1114111 <? cp) then None
        else rest ← decode r3; Some (cp :: rest)
      | _ => None
      end
    else None
  end.

(** Where CPython's decoder stops on bytes that are not UTF-8: the
    position of the offending sequence, its length and the reason given,
    with [pos] the position of the head of [bs]. *)
Fixpoint error (pos : nat) (bs : list N) : option (nat * nat * string) :=
  let is_cont b := (128 <=? b) && (b <? 192) in
  match bs with
  | [] => None
  | b0 :: r0 =>
    if b0 <? 128 then error (S pos) r0
    else if b0 <? 194 then Some (pos, 1%nat, "invalid start byte"%string)
    else if b0 <? 224 then
      match r0 with
      | [] => Some (pos, 1%nat, "unexpected end of data"%string)
      | b1 :: r1 =>
        if is_cont b1 then error (S (S pos)) r1
        else Some (pos, 1%nat, "invalid continuation byte"%string)
      end
    else if b0 <? 240 then
      match r0 with
      | [] => Some (pos, 1%nat, "unexpected end of data"%string)
      | b1 :: r1 =>
        if negb (is_cont b1) || (if b1 <? 160 then b0 =? 224 else b0 =? 237)
        then Some (pos, 1%nat, "invalid continuation byte"%string)
        else
          match r1 with
          | [] => Some (pos, 2%nat, "unexpected end of data"%string)
          | b2 :: r2 =>
            if is_cont b2 then error (S (S (S pos))) r2
            else Some (pos, 2%nat, "invalid continuation byte"%string)
          end
      end
    else if b0 <? 245 then
      match r0 with
      | [] => Some (pos, 1%nat, "unexpected end of data"%string)
      | b1 :: r1 =>
        if negb (is_cont b1) || (if b1 <? 144 then b0 =? 240 else b0 =? 244)
        then Some (pos, 1%nat, "invalid continuation byte"%string)
        else
          match r1 with
          | [] => Some (pos, 2%nat, "unexpected end of data"%string)
          | b2 :: r2 =>
            if negb (is_cont b2)
            then Some (pos, 2%nat, "invalid continuation byte"%string)
            else
              match r2 with
              | [] => Some (pos, 3%nat, "unexpected end of data"%string)
              | b3 :: r3 =>
                if is_cont b3 then error (S (S (S (S pos)))) r3
                else Some (pos, 3%nat, "invalid continuation byte"%string)
              end
          end
      end
    else Some (pos, 1%nat, "invalid start byte"%string)
  end.

Definition encode_char (c : char) : list N :=
  if c <? 128 then [c]
  else if c <? 2048 then [192 + c / 64; 128 + c mod 64]
  else if c <? 65536 then
    [224 + c / 4096; 128 + (c / 64) mod 64; 128 + c mod 64]
  else
    [240 + c / 262144; 128 + (c / 4096) mod 64; 128 + (c / 64) mod 64;
     128 + c mod 64].

Definition encode (s : str) : list N := flat_map encode_char s.

End Utf8.

(** The text denoted by a literal of this file (the file is UTF-8). *)
Definition py (s : string) : str :=
  default [] (Utf8.decode (map N_of_ascii (list_ascii_of_string s))).

(** The code point of an ASCII character literal. *)
Definition chr (a : ascii) : char := N_of_ascii a.

Definition nl : char := 10.

(** [Py_UNICODE_ISSPACE]: the characters removed by [str.strip()] and
    matched by [\s] in a [str] pattern. *)
Definition isspace (c : char) : bool :=
  ((9 <=? c) && (c <=? 13)) || ((28 <=? c) && (c <=? 32))
  || (c =? 133) || (c =? 160) || (c =? 5760)
  || ((8192 <=? c) && (c <=? 8202))
  || (c =? 8232) || (c =? 8233) || (c =? 8239) || (c =? 8287) || (c =? 12288).

Fixpoint lstrip (s : str) : str :=
  match s with
  | c :: r => if isspace c then lstrip r else s
  | [] => []
  end.

Definition rstrip (s : str) : str := rev (lstrip (rev s)).

(** [s.strip()] *)
Definition strip (s : str) : str := rstrip (lstrip s).

(** [sep in s] for a one-character [sep]. *)
Definition contains (sep : char) (s : str) : bool := existsb (N.eqb sep) s.

(** [s.split(sep)] for a one-character [sep]: never empty. *)
Fixpoint split (sep : char) (s : str) : list str :=
  match s with
  | [] => [[]]
  | c :: r =>
    if c =? sep then [] :: split sep r
    else match split sep r with
         | p :: ps => (c :: p) :: ps
         | [] => [[c]]
         end
  end.

(** [s.split(sep, 1)]: cut at the first [sep] only. *)
Fixpoint split1 (sep : char) (s : str) : list str :=
  match s with
  | [] => [[]]
  | c :: r =>
    if c =? sep then [[]; r]
    else match split1 sep r with
         | p :: ps => (c :: p) :: ps
         | [] => [[c]]
         end
  end.

(** [s.ljust(width, fill)] *)
Definition ljust (width : nat) (fill : char) (s : str) : str :=
  s ++ repeat fill (width - length s).

(** [sep.join(parts)] *)
Fixpoint join (sep : str) (parts : list str) : str :=
  match parts with
  | [] => []
  | [p] => p
  | p :: ps => p ++ sep ++ join sep ps
  end.

(** [str(n)] for a non-negative integer. *)
Fixpoint digits (d : Decimal.uint) : str :=
  match d with
  | Decimal.Nil => []
  | Decimal.D0 r => 48 :: digits r
  | Decimal.D1 r => 49 :: digits r
  | Decimal.D2 r => 50 :: digits r
  | Decimal.D3 r => 51 :: digits r
  | Decimal.D4 r => 52 :: digits r
  | Decimal.D5 r => 53 :: digits r
  | Decimal.D6 r => 54 :: digits r
  | Decimal.D7 r => 55 :: digits r
  | Decimal.D8 r => 56 :: digits r
  | Decimal.D9 r => 57 :: digits r
  end.

Definition str_of_nat (n : nat) : str := digits (Nat.to_uint n).

(** ** Exceptions *)

Inductive codec := utf_8 | gbk.

Abbreviation path := (list (list N)) (only parsing).

Inductive exn :=
| ValueError_unpack (expected got : nat)
| UnicodeDecodeError (c : codec) (object : list Byte.byte)
    (start stop : nat) (reason : str)
| FileNotFoundError (p : path)
| IsADirectoryError (p : path)
| NotADirectoryError (p : path)
| FileExistsError (p : path).

Inductive outcome (A : Type) :=
| Ok (a : A)
| Raise (e : exn).
Arguments Ok {A} a.
Arguments Raise {A} e.

(** ** Time Formatter *)

Definition format_time_str (time_str : str) : outcome str :=
  let time_str :=
    if negb (contains (chr ".") time_str) then time_str ++ py ".0000000"
    else time_str in
  match split (chr ":") time_str with
  | [hh; mm; ss_ms] =>
    match split (chr ".") ss_ms with
    | [ss; ms] =>
      let ms_3 := ljust 3 (chr "0") (firstn 3 ms) in
      Ok (hh ++ py ":" ++ mm ++ py ":" ++ ss ++ py "," ++ ms_3)
    | parts => Raise (ValueError_unpack 2 (length parts))
    end
  | parts => Raise (ValueError_unpack 3 (length parts))
  end.

(** An ASCII digit. *)
Definition is_digit (c : char) : bool := (48 <=? c) && (c <=? 57).

(** The string the formatter splits: [".0000000"] is appended when the
    input has no [.]. *)
Definition completed (time_str : str) : str :=
  if negb (contains (chr ".") time_str) then time_str ++ py ".0000000"
  else time_str.

Definition no_colon (s : str) : Prop := contains (chr ":") s = false.
Definition no_dot (s : str) : Prop := contains (chr ".") s = false.

(** ** Block splitting: [re.split(r"\n\s*\n", content)] *)

(** [\s*\n] matched at the head of [s], greedy star with backtracking:
    the star first takes a whitespace character and tries the rest; when
    that fails it stops in front of the character, which must then be the
    closing newline. The result is the number of characters matched. *)
Fixpoint ws_star_nl (s : str) : option nat :=
  match s with
  | [] => None
  | c :: r =>
    if isspace c then
      match ws_star_nl r with
      | Some n => Some (S n)
      | None => if c =? nl then Some 1%nat else None
      end
    else None
  end.

(** The scan of [re.split]: [piece] is the text since the last separator,
    [skip] the number of characters of the current separator still to be
    passed. A separator is looked for at every position outside one, from
    left to right. *)
Fixpoint re_split_go (skip : nat) (piece : str) (s : str) : list str :=
  match s with
  | [] => [piece]
  | c :: r =>
    match skip with
    | S k => re_split_go k piece r
    | O =>
      if c =? nl then
        match ws_star_nl r with
        | Some n => piece :: re_split_go n [] r
        | None => re_split_go 0 (piece ++ [c]) r
        end
      else re_split_go 0 (piece ++ [c]) r
    end
  end.

Definition re_split_blank (content : str) : list str :=
  re_split_go 0 [] content.

Definition nonempty (s : str) : bool :=
  match s with [] => false | _ => true end.

(** [[block.strip() for block in re.split(...) if block.strip()]] *)
Definition subtitle_blocks_of (content : str) : list str :=
  map strip (List.filter (fun block => nonempty (strip block))
                         (re_split_blank content)).

(** ** Paths

    A path is modelled by the list of its components ([pathlib] parts
    below the anchor); the empty list is the base directory. A [str]
    argument naming a path is modelled by the path it denotes. *)

(** [path.name] *)
Definition name (p : path) : str := List.last p [].

(** [path.parent] *)
Definition parent (p : path) : path := removelast p.

(** [s.rfind(c)] *)
Fixpoint rfind (c : char) (s : str) : option nat :=
  match s with
  | [] => None
  | x :: r =>
    match rfind c r with
    | Some i => Some (S i)
    | None => if x =? c then Some 0%nat else None
    end
  end.

(** [path.stem] *)
Definition stem (p : path) : str :=
  match rfind (chr ".") (name p) with
  | Some i =>
    if ((0 <? i) && (i <? length (name p) - 1))%nat then firstn i (name p)
    else name p
  | None => name p
  end.

(** [path.suffix] *)
Definition suffix (p : path) : str :=
  match rfind (chr ".") (name p) with
  | Some i =>
    if ((0 <? i) && (i <? length (name p) - 1))%nat then skipn i (name p)
    else []
  | None => []
  end.

Definition str_eqb (a b : str) : bool := bool_decide (a = b).

(** [s.endswith(t)] *)
Definition endswith (t s : str) : bool :=
  str_eqb (skipn (length s - length t) s) t.

(** All prefixes of a path, shortest first, the path itself last. *)
Fixpoint prefixes (p : path) : list path :=
  match p with
  | [] => [[]]
  | x :: r => [] :: map (cons x) (prefixes r)
  end.

(** ** The world: a file system and the operator's output stream *)

Inductive node :=
| Dir
| File (data : list Byte.byte).

Record world := World {
  fs : gmap path node;
  stdout : list str
}.

Definition is_file (m : gmap path node) (p : path) : bool :=
  match m !! p with Some (File _) => true | _ => false end.

Definition is_dir (m : gmap path node) (p : path) : bool :=
  match m !! p with Some Dir => true | _ => false end.

(** What the program takes from its platform: the text layer of [open]
    (decoding with newline translation on reading, and where and why the
    decoder stops when the bytes are not text: start, end and reason;
    UTF-8 encoding on writing), Unicode lower-casing, the rendering of paths and of
    exceptions in messages, and the order in which a directory tree is
    enumerated. *)
Class Host := {
  decode : codec -> list Byte.byte -> option str;
  decode_error : codec -> list Byte.byte -> nat * nat * str;
  encode : str -> list Byte.byte;
  lower : str -> str;
  path_str : path -> str;
  exn_str : exn -> str;
  scan : gmap path node -> path -> list path
}.

(** ** Computations that print, touch files and may raise *)

Definition M (A : Type) : Type := world -> outcome A * world.

Definition ret {A} (a : A) : M A := fun w => (Ok a, w).

Definition raise {A} (e : exn) : M A := fun w => (Raise e, w).

Definition bind {A B} (m : M A) (k : A -> M B) : M B :=
  fun w =>
    match m w with
    | (Ok a, w') => k a w'
    | (Raise e, w') => (Raise e, w')
    end.

Declare Scope py_scope.
Delimit Scope py_scope with py.
Notation "x <- m ;; k" := (bind m (fun x => k))
  (at level 100, m at next level, k at level 200, right associativity)
  : py_scope.
Notation "m ;; k" := (bind m (fun _ => k))
  (at level 100, k at level 200, right associativity) : py_scope.
Local Open Scope py_scope.

(** A pure step that may raise. *)
Definition lift {A} (o : outcome A) : M A := fun w => (o, w).

(** [try: body  except <caught> as e: handler(e)] *)
Definition try_except {A} (body : M A) (caught : exn -> bool)
    (handler : exn -> M A) : M A :=
  fun w =>
    match body w with
    | (Ok a, w') => (Ok a, w')
    | (Raise e, w') => if caught e then handler e w' else (Raise e, w')
    end.

Definition is_UnicodeDecodeError (e : exn) : bool :=
  match e with UnicodeDecodeError _ _ _ _ _ => true | _ => false end.

(** [except Exception]: every exception of the model. *)
Definition is_Exception (e : exn) : bool := true.

Definition print (line : str) : M unit :=
  fun w => (Ok tt, World (fs w) (stdout w ++ [line])).

(** [a, b = parts] *)
Definition unpack2 (parts : list str) : outcome (str * str) :=
  match parts with
  | [a; b] => Ok (a, b)
  | _ => Raise (ValueError_unpack 2 (length parts))
  end.

(** [f"{idx}\n" f"{start_srt} --> {end_srt}\n" f"{text}\n"] *)
Definition srt_block (idx : nat) (start_srt end_srt text : str) : str :=
  str_of_nat idx ++ [nl]
  ++ start_srt ++ py " --> " ++ end_srt ++ [nl]
  ++ text ++ [nl].

Definition warning_msg (idx : nat) (block : str) : str :=
  py "警告：第" ++ str_of_nat idx ++ py "个字幕块格式异常，跳过 → "
  ++ firstn 50 block ++ py "...".

Section Converter.
Context {H : Host}.

(** [os.makedirs(d, exist_ok=True)]: fails when a component of [d] is a
    regular file, otherwise makes every missing directory of the chain.
    When [d] itself is the file, [mkdir d] finds it existing; when the
    file [q] is higher up, the first [mkdir] is that of the component
    below [q], which is not in a directory. *)
Definition makedirs (d : path) : M unit :=
  fun w =>
    match find (is_file (fs w)) (prefixes d) with
    | Some q =>
      (Raise (if bool_decide (q = d) then FileExistsError d
              else NotADirectoryError (firstn (S (length q)) d)), w)
    | None =>
      (Ok tt,
       World (foldr (fun q m => <[q := Dir]> m) (fs w) (prefixes d))
             (stdout w))
    end.

(** The exception of a decoder that stops on [data]. *)
Definition decode_exn (c : codec) (data : list Byte.byte) : exn :=
  let '(start, stop, reason) := decode_error c data in
  UnicodeDecodeError c data start stop reason.

(** [with open(p, "r", encoding=c) as f: f.read()]: a path that is not
    there is missing, unless a regular file lies on the way to it. *)
Definition read_text (c : codec) (p : path) : M str :=
  fun w =>
    match fs w !! p with
    | None =>
      (Raise (if existsb (is_file (fs w)) (prefixes (parent p))
              then NotADirectoryError p else FileNotFoundError p), w)
    | Some Dir => (Raise (IsADirectoryError p), w)
    | Some (File data) =>
      match decode c data with
      | Some text => (Ok text, w)
      | None => (Raise (decode_exn c data), w)
      end
    end.

(** [with open(p, "w", encoding="utf-8") as f: f.write(text)]: the file
    is replaced, never appended to; it must lie in a directory. *)
Definition write_text (p : path) (text : str) : M unit :=
  fun w =>
    match fs w !! p with
    | Some Dir => (Raise (IsADirectoryError p), w)
    | _ =>
      match fs w !! parent p with
      | Some Dir =>
        (Ok tt, World (<[p := File (encode text)]> (fs w)) (stdout w))
      | Some (File _) => (Raise (NotADirectoryError p), w)
      | None =>
        (Raise (if existsb (is_file (fs w)) (prefixes (parent p))
                then NotADirectoryError p else FileNotFoundError p), w)
      end
    end.

(** The loop [for idx, block in enumerate(subtitle_blocks, 1)]:
    [srt_content] is the list built so far. *)
Fixpoint for_blocks (idx : nat) (blocks : list str) (srt_content : list str)
    : M (list str) :=
  match blocks with
  | [] => ret srt_content
  | block :: rest =>
    let lines := split1 nl block in
    if (length lines <? 2)%nat then
      print (warning_msg idx block) ;;
      for_blocks (S idx) rest srt_content
    else
      unpacked <- lift (unpack2 lines) ;;
      let '(time_line, text_lines) := unpacked in
      unpacked <- lift (unpack2 (map strip (split (chr ",") time_line))) ;;
      let '(start_time_str, end_time_str) := unpacked in
      start_srt <- lift (format_time_str start_time_str) ;;
      end_srt <- lift (format_time_str end_time_str) ;;
      for_blocks (S idx) rest
        (srt_content ++ [srt_block idx start_srt end_srt (strip text_lines)])
  end.

Definition success_msg (sub_file_path srt_file_path : path) : str :=
  py "✅ 转换成功：" ++ path_str sub_file_path ++ py " → "
  ++ path_str srt_file_path.

Definition failure_msg (sub_file_path : path) (e : exn) : str :=
  py "❌ 转换失败 " ++ path_str sub_file_path ++ py "：" ++ exn_str e.

(** The output path: [Path(output_dir) / f"{sub_path.stem}.srt"]. *)
Definition srt_path (sub_path output_dir : path) : path :=
  output_dir ++ [stem sub_path ++ py ".srt"].

(** Reading the input: UTF-8 first, GBK when that fails to decode. *)
Definition read_sub (sub_path : path) : M str :=
  try_except (read_text utf_8 sub_path) is_UnicodeDecodeError
    (fun _ => read_text gbk sub_path).

(** The body of the [try] statement of [convert_single_sub_to_srt]. *)
Definition convert_body (sub_path srt_file_path : path) : M unit :=
  content <- read_sub sub_path ;;
  let subtitle_blocks := subtitle_blocks_of content in
  srt_content <- for_blocks 1 subtitle_blocks [] ;;
  write_text srt_file_path (join [nl] srt_content) ;;
  print (success_msg sub_path srt_file_path).

(** The statements before the [try]: an absent or empty [output_dir]
    ([None]) means the directory of the input, any other is created. *)
Definition resolve_output_dir (sub_path : path) (output_dir : option path)
    : M path :=
  match output_dir with
  | None => ret (parent sub_path)
  | Some d => makedirs d ;; ret d
  end.

Definition convert_single_sub_to_srt (sub_file_path : path)
    (output_dir : option path) : M unit :=
  let sub_path := sub_file_path in
  output_dir <- resolve_output_dir sub_path output_dir ;;
  let srt_file_path := srt_path sub_path output_dir in
  try_except (convert_body sub_path srt_file_path) is_Exception
    (fun e => print (failure_msg sub_file_path e)).

(** [for sub_file in sub_files: convert_single_sub_to_srt(...)] *)
Fixpoint for_files (sub_files : list path) (output_dir : option path)
    : M unit :=
  match sub_files with
  | [] => ret tt
  | sub_file :: rest =>
    convert_single_sub_to_srt sub_file output_dir ;;
    for_files rest output_dir
  end.

(** [input_path.glob("**/*.sub")]: the entries of the tree under
    [input_path], in the platform's order, whose name matches. *)
Definition glob_sub (m : gmap path node) (input_path : path) : list path :=
  List.filter (fun p => endswith (py ".sub") (name p)) (scan m input_path).

Definition batch_convert_sub_to_srt (input_path : path)
    (output_dir : option path) : M unit :=
  fun w =>
    if is_file (fs w) input_path
       && str_eqb (lower (suffix input_path)) (py ".sub")
    then convert_single_sub_to_srt input_path output_dir w
    else if is_dir (fs w) input_path then
      let sub_files := glob_sub (fs w) input_path in
      match sub_files with
      | [] => print (py "⚠️ 未找到任何.sub文件：" ++ path_str input_path) w
      | _ =>
        (print (py "📁 找到 " ++ str_of_nat (length sub_files)
                ++ py " 个Sub文件，开始批量转换...") ;;
         for_files sub_files output_dir) w
      end
    else print (py "❌ 输入路径无效：" ++ path_str input_path) w.

End Converter.

(** ** A concrete platform

    A POSIX-like host used to run the converter on concrete file systems:
    UTF-8 with universal newlines on reading, only the ASCII part of GBK,
    ASCII lower-casing, [/]-joined paths, CPython's exception texts, and
    directory trees enumerated in the order of the map. *)
Module Posix.

(** Universal newlines: [\r\n] and [\r] are read as [\n]. *)
Fixpoint universal_newlines (s : str) : str :=
  match s with
  | 13 :: r =>
    match r with
    | 10 :: r' => 10 :: universal_newlines r'
    | _ => 10 :: universal_newlines r
    end
  | c :: r => c :: universal_newlines r
  | [] => []
  end.

Definition decode (c : codec) (data : list Byte.byte) : option str :=
  let bs := map Byte.to_N data in
  match c with
  | utf_8 => universal_newlines <$> Utf8.decode bs
  | gbk =>
    if forallb (fun b => b <? 128) bs then Some (universal_newlines bs)
    else None
  end.

Definition encode (s : str) : list Byte.byte :=
  map (fun b => default Byte.x00 (Byte.of_N b)) (Utf8.encode s).

Definition lower_char (c : char) : char :=
  if (65 <=? c) && (c <=? 90) then c + 32 else c.

Definition lower (s : str) : str := map lower_char s.

Definition path_str (p : path) : str :=
  match p with
  | [] => py "."
  | _ => join (py "/") p
  end.

Definition quoted (p : path) : str := py "'" ++ path_str p ++ py "'".

(** Where the GBK decoder stops, given the double-byte sequences it
    knows: a byte above ASCII wants a second byte and must form a known
    pair with it. *)
Fixpoint gbk_error (known : N -> N -> bool) (pos : nat) (bs : list N)
    : option (nat * nat * string) :=
  match bs with
  | [] => None
  | b0 :: r0 =>
    if b0 <? 128 then gbk_error known (S pos) r0
    else
      match r0 with
      | [] => Some (pos, 1%nat, "incomplete multibyte sequence"%string)
      | b1 :: r1 =>
        if known b0 b1 then gbk_error known (S (S pos)) r1
        else Some (pos, 1%nat, "illegal multibyte sequence"%string)
      end
  end.

(** Start, end and reason of a decoding error, from where the decoder
    stops. *)
Definition error_span (found : option (nat * nat * string))
    : nat * nat * str :=
  match found with
  | Some (start, len, reason) => (start, (start + len)%nat, py reason)
  | None => (0%nat, 0%nat, [])
  end.

Definition decode_error (c : codec) (data : list Byte.byte)
    : nat * nat * str :=
  let bs := map Byte.to_N data in
  error_span match c with
             | utf_8 => Utf8.error 0 bs
             | gbk => gbk_error (fun _ _ => false) 0 bs
             end.

Definition hex_digit (n : N) : char := if n <? 10 then 48 + n else 87 + n.

(** [0x%02x] *)
Definition hex_byte (b : Byte.byte) : str :=
  let n := Byte.to_N b in py "0x" ++ [hex_digit (n / 16); hex_digit (n mod 16)].

Definition codec_name (c : codec) : str :=
  match c with utf_8 => py "utf-8" | gbk => py "gbk" end.

(** [str(e)] of a [UnicodeDecodeError]. *)
Definition decode_error_str (c : codec) (object : list Byte.byte)
    (start stop : nat) (reason : str) : str :=
  match nth_error object start with
  | Some b =>
    if (stop =? S start)%nat then
      py "'" ++ codec_name c ++ py "' codec can't decode byte " ++ hex_byte b
      ++ py " in position " ++ str_of_nat start ++ py ": " ++ reason
    else
      py "'" ++ codec_name c ++ py "' codec can't decode bytes in position "
      ++ str_of_nat start ++ py "-" ++ str_of_nat (stop - 1) ++ py ": "
      ++ reason
  | None =>
    py "'" ++ codec_name c ++ py "' codec can't decode bytes in position "
    ++ str_of_nat start ++ py "-" ++ str_of_nat (stop - 1) ++ py ": "
    ++ reason
  end.

Definition exn_str (e : exn) : str :=
  match e with
  | ValueError_unpack expected got =>
    if (got <? expected)%nat then
      py "not enough values to unpack (expected " ++ str_of_nat expected
      ++ py ", got " ++ str_of_nat got ++ py ")"
    else
      py "too many values to unpack (expected " ++ str_of_nat expected
      ++ py ")"
  | UnicodeDecodeError c object start stop reason =>
    decode_error_str c object start stop reason
  | FileNotFoundError p =>
    py "[Errno 2] No such file or directory: " ++ quoted p
  | IsADirectoryError p => py "[Errno 21] Is a directory: " ++ quoted p
  | NotADirectoryError p => py "[Errno 20] Not a directory: " ++ quoted p
  | FileExistsError p => py "[Errno 17] File exists: " ++ quoted p
  end.

Definition is_below (d p : path) : bool :=
  (length d <? length p)%nat && bool_decide (firstn (length d) p = d).

Definition scan (m : gmap path node) (d : path) : list path :=
  List.filter (is_below d) (map fst (map_to_list m)).

Definition host : Host :=
  Build_Host decode decode_error encode lower path_str exn_str scan.

End Posix.

(** ** The loop body as a function

    What one iteration of the loop does with a block, read off the body of
    [for_blocks]: it skips the block with a warning, appends an entry, or
    raises. *)
Inductive verdict :=
| Skipped
| Entry (srt_block : str)
| Failed (e : exn).

Definition block_verdict (idx : nat) (block : str) : verdict :=
  let lines := split1 nl block in
  if (length lines <? 2)%nat then Skipped
  else
    match unpack2 lines with
    | Raise x => Failed x
    | Ok (time_line, text_lines) =>
      match unpack2 (map strip (split (chr ",") time_line)) with
      | Raise x => Failed x
      | Ok (start_time_str, end_time_str) =>
        match format_time_str start_time_str with
        | Raise x => Failed x
        | Ok start_srt =>
          match format_time_str end_time_str with
          | Raise x => Failed x
          | Ok end_srt =>
            Entry (srt_block idx start_srt end_srt (strip text_lines))
          end
        end
      end
    end.

(** [list(enumerate(blocks, idx))] *)
Definition numbered (idx : nat) (blocks : list str) : list (nat * str) :=
  combine (seq idx (length blocks)) blocks.

Definition entry_of (ib : nat * str) : option str :=
  match block_verdict ib.1 ib.2 with Entry e => Some e | _ => None end.

Definition warning_of (ib : nat * str) : option str :=
  match block_verdict ib.1 ib.2 with
  | Skipped => Some (warning_msg ib.1 ib.2)
  | _ => None
  end.

Definition fails (b : str) : bool :=
  match block_verdict 0 b with Failed _ => true | _ => false end.

(** ** The effect of a conversion on the files

    What a conversion does to the file system, written as a function of
    the file system alone: used to compare two runs of the batch. *)
Section Effects.
Context {H : Host}.

(** The text read from a node: UTF-8 first, then GBK. *)
Definition node_text (n : option node) : option str :=
  match n with
  | Some (File data) =>
    match decode utf_8 data with
    | Some content => Some content
    | None => decode gbk data
    end
  | _ => None
  end.

(** The SRT text of a document, when all its blocks convert. *)
Definition srt_text (content : str) : option str :=
  match fst (for_blocks 1 (subtitle_blocks_of content) [] (World ∅ [])) with
  | Ok srt_content => Some (join [nl] srt_content)
  | Raise _ => None
  end.

(** The write that converting [sub] into the directory [d] performs on
    the file system [m], if it gets that far. *)
Definition planned_write (m : gmap path node) (sub d : path)
    : option (path * list Byte.byte) :=
  match node_text (m !! sub) with
  | Some content =>
    match srt_text content with
    | Some srt =>
      if is_dir m (srt_path sub d) || negb (is_dir m d) then None
      else Some (srt_path sub d, encode srt)
    | None => None
    end
  | None => None
  end.

Definition apply_write (wr : option (path * list Byte.byte))
    (m : gmap path node) : gmap path node :=
  match wr with
  | Some (o, data) => <[o := File data]> m
  | None => m
  end.

(** The directory a file is converted into. *)
Definition out_dir (output_dir : option path) (sub : path) : path :=
  match output_dir with
  | Some d => d
  | None => parent sub
  end.

(** The loop over the files, on the file system. *)
Fixpoint run_files (output_dir : option path) (sub_files : list path)
    (m : gmap path node) : gmap path node :=
  match sub_files with
  | [] => m
  | sub :: rest =>
    run_files output_dir rest
      (apply_write (planned_write m sub (out_dir output_dir sub)) m)
  end.

End Effects.

Fixpoint apply_writes (ws : list (path * list Byte.byte))
    (m : gmap path node) : gmap path node :=
  match ws with
  | [] => m
  | (o, data) :: rest => apply_writes rest (<[o := File data]> m)
  end.

(** The bytes last written to [p] by a list of writes. *)
Fixpoint last_write (p : path) (ws : list (path * list Byte.byte))
    : option (list Byte.byte) :=
  match ws with
  | [] => None
  | (o, data) :: rest =>
    match last_write p rest with
    | Some later => Some later
    | None => if decide (o = p) then Some data else None
    end
  end.

(** The output directory and its ancestors are there. *)
Definition ready (output_dir : option path) (m : gmap path node) : Prop :=
  match output_dir with
  | Some d => Forall (fun q => m !! q = Some Dir) (prefixes d)
  | None => True
  end.

(** Two file systems with the same directories that differ at most in
    files named [*.srt]. *)
Definition same_inputs (m m' : gmap path node) : Prop :=
  (forall p, is_dir m p = is_dir m' p)
  /\ (forall p, endswith (py ".srt") (name p) = false -> m !! p = m' !! p).

(** Two file systems with the same regular files, those named [*.srt]
    apart. *)
Definition same_sources (m m' : gmap path node) : Prop :=
  forall p, endswith (py ".srt") (name p) = false ->
            forall data,
              m' !! p = Some (File data) <-> m !! p = Some (File data).

Section Listing.
Context {H : Host}.

(** A platform lists a tree in a stable way when making directories and
    writing files named [*.srt] changes neither which regular files the
    search for [*.sub] finds nor the order in which it finds them. *)
Definition listing_stable (input_path : path) : Prop :=
  forall m m',
    same_sources m m' ->
    List.filter (is_file m') (glob_sub m' input_path)
    = List.filter (is_file m) (glob_sub m input_path).

End Listing.

(** ** A platform with ordered listings

    [Posix.host] with the entries of a tree listed in a fixed order of
    the paths (that of their codes), whatever else the tree holds. *)
Module Ordered.

Definition before (p q : path) : Prop :=
  (countable.encode p <= countable.encode q)%positive.

#[global] Instance before_dec : RelDecision before :=
  fun p q => decide (countable.encode p <= countable.encode q)%positive.

Definition scan (m : gmap path node) (d : path) : list path :=
  merge_sort before (Posix.scan m d).

Definition host : Host :=
  Build_Host Posix.decode Posix.decode_error Posix.encode Posix.lower
             Posix.path_str Posix.exn_str scan.

End Ordered.

(** ** Concrete documents and worlds *)

(** The text made of the given lines, joined by newlines. *)
Definition text (lines : list string) : str := join [nl] (map py lines).

(** A world whose base directory holds the given entries; nothing has
    been printed. *)
Definition world_of (entries : list (path * node)) : world :=
  World (<[ [] := Dir ]> (list_to_map entries)) [].

Definition scenario_sub : str :=
  text ["00:00:01,00:00:03"; "Hello world"; "";
        "00:00:05,00:00:07.250"; "Second line"]%string.

Definition scenario_srt : str :=
  text ["1"; "00:00:01,000 --> 00:00:03,000"; "Hello world"; "";
        "2"; "00:00:05,000 --> 00:00:07,250"; "Second line"; ""]%string.

Definition scenario_world : world :=
  world_of [([py "a.sub"], File (Posix.encode scenario_sub))].

(** A document whose only block has a time line without a comma. *)
Definition no_comma_sub : str := text ["00:00:01 00:00:03"; "Hello"]%string.

Definition no_comma_world : world :=
  world_of [([py "bad.sub"], File (Posix.encode no_comma_sub))].

(** The world whose base directory holds one text file. *)
Definition sub_world (file_name : string) (content : str) : world :=
  world_of [([py file_name], File (Posix.encode content))].

(** A document whose second block has a start time with two dots. *)
Definition two_dots_sub : str :=
  text ["00:00:01,00:00:03"; "Hello world"; "";
        "1:2:3.4.5,00:00:07"; "Second line"]%string.

(** A block of one line followed by a block whose time line has no
    comma. *)
Definition skipped_then_bad_sub : str :=
  text ["oops"; ""; "00:00:01 00:00:03"; "Hello"]%string.

(** Three blocks, the second of one line only. *)
Definition gap_sub : str :=
  text ["00:00:01,00:00:03"; "One"; ""; "orphan line"; "";
        "00:00:05,00:00:07"; "Three"]%string.

Definition gap_srt : str :=
  text ["1"; "00:00:01,000 --> 00:00:03,000"; "One"; "";
        "3"; "00:00:05,000 --> 00:00:07,000"; "Three"; ""]%string.

(** Whitespace only. *)
Definition blank_sub : str := [32; nl; nl; 9; nl].

Definition one_line_sub : str := text ["just one line"]%string.

(** A directory [in] with two subtitle files, and a regular file named
    [out]. *)
Definition blocked_world : world :=
  world_of [([py "in"], Dir);
            ([py "in"; py "a.sub"], File (Posix.encode scenario_sub));
            ([py "in"; py "b.sub"], File (Posix.encode scenario_sub));
            ([py "out"], File [])].

(** Two subtitle files of the same name in two sub-directories of [in]. *)
Definition twin_world : world :=
  world_of [([py "in"], Dir);
            ([py "in"; py "x"], Dir);
            ([py "in"; py "y"], Dir);
            ([py "in"; py "x"; py "a.sub"], File (Posix.encode scenario_sub));
            ([py "in"; py "y"; py "a.sub"], File (Posix.encode gap_sub))].

(** ** Vocabulary of the further properties *)

(** A line printed for a skipped block. *)
Definition is_warning (line : str) : Prop :=
  exists idx block, line = warning_msg idx block.

(** Every file keeps its bytes unless it is named [*.srt], and nothing
    that is there is removed or changes kind. *)
Definition only_srt_written (m m' : gmap path node) : Prop :=
  forall p,
    (endswith (py ".srt") (name p) = false ->
     forall data, m' !! p = Some (File data) <-> m !! p = Some (File data))
    /\ (is_dir m p = true -> is_dir m' p = true)
    /\ (is_file m p = true -> is_file m' p = true).

Section Reports.
Context {H : Host}.



End Reports.

(** A directory [in] with one good and one broken subtitle file. *)
Definition mixed_world : world :=
  world_of [([py "in"], Dir);
            ([py "in"; py "good.sub"], File (Posix.encode gap_sub));
            ([py "in"; py "bad.sub"], File (Posix.encode no_comma_sub));
            ([py "in"; py "notes.txt"], File (Posix.encode one_line_sub))].

(** ** A platform that reads a little GBK

    [Posix.host] with two double-byte characters of GBK added to the
    ASCII part, enough to read a file that is not UTF-8. *)
Module Legacy.

Fixpoint decode_gbk (bs : list N) : option str :=
  match bs with
  | [] => Some []
  | b0 :: r0 =>
    if b0 <? 128 then rest ← decode_gbk r0; Some (b0 :: rest)
    else
      match r0 with
      | b1 :: r1 =>
        c ← (if (b0 =? 215) && (b1 =? 214) then Some 23383
             else if (b0 =? 196) && (b1 =? 187) then Some 24149
             else None);
        rest ← decode_gbk r1; Some (c :: rest)
      | [] => None
      end
  end.

Definition decode (c : codec) (data : list Byte.byte) : option str :=
  match c with
  | utf_8 => Posix.decode utf_8 data
  | gbk => Posix.universal_newlines <$> decode_gbk (map Byte.to_N data)
  end.

Definition known (b0 b1 : N) : bool :=
  ((b0 =? 215) && (b1 =? 214)) || ((b0 =? 196) && (b1 =? 187)).

Definition decode_error (c : codec) (data : list Byte.byte)
    : nat * nat * str :=
  match c with
  | utf_8 => Posix.decode_error utf_8 data
  | gbk => Posix.error_span (Posix.gbk_error known 0 (map Byte.to_N data))
  end.

Definition host : Host :=
  Build_Host decode decode_error Posix.encode Posix.lower Posix.path_str
             Posix.exn_str Posix.scan.

(** The GBK bytes of a block whose text is the two characters. *)
Definition gbk_bytes : list Byte.byte :=
  list_byte_of_string "00:00:01,00:00:03"
  ++ [Byte.x0a; Byte.xd7; Byte.xd6; Byte.xc4; Byte.xbb; Byte.x0a].

Definition gbk_world : world := world_of [([py "g.sub"], File gbk_bytes)].

End Legacy.


(** ** Vocabulary for the blocks *)

(** The characters of a text that are not whitespace, in order. *)
Definition nonws (s : str) : str :=
  List.filter (fun c => negb (isspace c)) s.

(** Whether the separator pattern [\s*\n] matches at the head of [s]. *)
Definition blank_ahead (s : str) : bool :=
  match ws_star_nl s with Some _ => true | None => false end.

(** No separator [\n\s*\n] starts inside [b] when [t] follows it. *)
Fixpoint scan_safe (b t : str) : bool :=
  match b with
  | [] => true
  | c :: r => negb ((c =? nl) && blank_ahead (r ++ t)) && scan_safe r t
  end.

(** [b] holds no blank line: no two newlines with only whitespace between
    them. *)
Definition no_blank_line (b : str) : bool := scan_safe b [].

(** Whether a text has a character that is not whitespace. *)
Definition has_ink (s : str) : bool :=
  existsb (fun c => negb (isspace c)) s.

Definition starts_with_ink (b : str) : bool :=
  match b with c :: _ => negb (isspace c) | [] => false end.

Definition ends_with_ink (b : str) : bool := starts_with_ink (rev b).

(** A text that starts and ends with a character that is not whitespace
    and holds no blank line. *)
Definition clean (b : str) : bool :=
  starts_with_ink b && ends_with_ink b && no_blank_line b.

(** * Properties *)

(** ** Splitting and joining *)

Lemma contains_app c (a b : str) :
  contains c (a ++ b) = contains c a || contains c b.
Proof. unfold contains. apply existsb_app. Qed.

Lemma contains_cons c x (s : str) :
  contains c (x :: s) = (c =? x) || contains c s.
Proof. reflexivity. Qed.

Lemma split_not_nil sep s : split sep s <> [].
Proof.
  destruct s as [|c r]; simpl; [discriminate|].
  destruct (c =? sep); [discriminate|].
  destruct (split sep r); discriminate.
Qed.

Lemma split_cons_ne sep c r :
  (c =? sep) = false ->
  exists p ps, split sep r = p :: ps /\ split sep (c :: r) = (c :: p) :: ps.
Proof.
  intros Hc. simpl. rewrite Hc.
  destruct (split sep r) as [|p ps] eqn:E.
  - exfalso. eapply split_not_nil; eauto.
  - eauto.
Qed.

(** A string without the separator is a single part. *)
Lemma split_no_sep sep s : contains sep s = false -> split sep s = [s].
Proof.
  induction s as [|c r IH]; [reflexivity|].
  rewrite contains_cons. intros Hc. apply orb_false_iff in Hc as [Hc Hr].
  rewrite N.eqb_sym in Hc.
  destruct (split_cons_ne sep c r Hc) as (p & ps & E & E').
  rewrite E'. rewrite (IH Hr) in E. injection E as <- <-. reflexivity.
Qed.

(** The first separator ends the first part. *)
Lemma split_app_sep sep a b :
  contains sep a = false -> split sep (a ++ sep :: b) = a :: split sep b.
Proof.
  induction a as [|c r IH]; intros Hc.
  - simpl. rewrite N.eqb_refl. reflexivity.
  - rewrite contains_cons in Hc. apply orb_false_iff in Hc as [Hc Hr].
    rewrite N.eqb_sym in Hc. simpl. rewrite Hc, (IH Hr). reflexivity.
Qed.

(** The parts hold no separator, and joining them back gives the string. *)
Lemma split_inv sep s :
  Forall (fun p => contains sep p = false) (split sep s)
  /\ join [sep] (split sep s) = s.
Proof.
  induction s as [|c r [IHf IHj]]; [split; [repeat constructor|reflexivity]|].
  destruct (c =? sep) eqn:Hc.
  - simpl. rewrite Hc. apply N.eqb_eq in Hc as ->. split.
    + constructor; [reflexivity|assumption].
    + destruct (split sep r) eqn:E; [exfalso; eapply split_not_nil; eauto|].
      simpl in *. congruence.
  - destruct (split_cons_ne sep c r Hc) as (p & ps & E & E').
    rewrite E'. rewrite E in IHf, IHj. inversion IHf as [|? ? Hp Hps]; subst. split.
    + constructor; [|assumption].
      rewrite contains_cons, N.eqb_sym, Hc. assumption.
    + destruct ps; simpl in *; congruence.
Qed.

Lemma split_join sep parts :
  parts <> [] -> Forall (fun p => contains sep p = false) parts ->
  split sep (join [sep] parts) = parts.
Proof.
  induction parts as [|p ps IH]; [congruence|]. intros _ Hf.
  inversion Hf as [|? ? Hp Hps]; subst.
  destruct ps as [|q qs].
  - simpl. apply split_no_sep; assumption.
  - change (join [sep] (p :: q :: qs)) with (p ++ sep :: join [sep] (q :: qs)).
    rewrite split_app_sep by assumption. rewrite IH; [reflexivity|discriminate|assumption].
Qed.

(** ** Block splitting on examples *)

Example blocks_several_blank_lines :
  subtitle_blocks_of (text ["a"; ""; ""; ""; "b"; "c"]%string)
  = [py "a"; text ["b"; "c"]%string].
Proof. vm_compute. reflexivity. Qed.

Example blocks_whitespace_line :
  subtitle_blocks_of (text ["a"; "  "; "b"]%string) = [py "a"; py "b"].
Proof. vm_compute. reflexivity. Qed.

Example blocks_single_newline :
  subtitle_blocks_of (text ["a"; "b"]%string) = [text ["a"; "b"]%string].
Proof. vm_compute. reflexivity. Qed.

Example split_trailing_separator :
  re_split_blank (text ["a"; ""; ""]%string) = [py "a"; []].
Proof. vm_compute. reflexivity. Qed.

(** ** Time Formatter *)

(** The formatter on a string of the right shape. *)
Lemma format_time_str_shape hh mm ss ms :
  no_colon hh -> no_colon mm -> no_colon ss -> no_colon ms ->
  no_dot ss -> no_dot ms ->
  format_time_str (hh ++ py ":" ++ mm ++ py ":" ++ ss ++ py "." ++ ms)
  = Ok (hh ++ py ":" ++ mm ++ py ":" ++ ss ++ py ","
        ++ ljust 3 (chr "0") (firstn 3 ms)).
Proof.
  unfold no_colon, no_dot. intros Hh Hm Hs Hf Hsd Hfd.
  unfold format_time_str.
  replace (contains (chr ".") (hh ++ py ":" ++ mm ++ py ":" ++ ss ++ py "." ++ ms))
    with true.
  2:{ symmetry. rewrite !contains_app. change (contains (chr ".") (py "."))
        with true. rewrite !orb_true_r. reflexivity. }
  cbn [negb]. change (py ":") with [chr ":"]. change (py ".") with [chr "."].
  cbn [app]. rewrite split_app_sep by assumption.
  rewrite split_app_sep by assumption.
  rewrite split_no_sep.
  2:{ rewrite contains_app, contains_cons, Hs, Hf. reflexivity. }
  rewrite split_app_sep by assumption. rewrite split_no_sep by assumption.
  reflexivity.
Qed.

Lemma is_digit_no_colon s : forallb is_digit s = true -> no_colon s.
Proof.
  unfold no_colon. induction s as [|c r IH]; [reflexivity|].
  cbn [forallb]. intros Hd. apply andb_true_iff in Hd as [Hc Hr].
  rewrite contains_cons.
  rewrite (IH Hr), orb_false_r. unfold is_digit in Hc.
  apply andb_true_iff in Hc as [H1 H2]. apply N.leb_le in H1, H2.
  apply N.eqb_neq. change (chr ":") with 58. lia.
Qed.

Lemma is_digit_no_dot s : forallb is_digit s = true -> no_dot s.
Proof.
  unfold no_dot. induction s as [|c r IH]; [reflexivity|].
  cbn [forallb]. intros Hd. apply andb_true_iff in Hd as [Hc Hr].
  rewrite contains_cons.
  rewrite (IH Hr), orb_false_r. unfold is_digit in Hc.
  apply andb_true_iff in Hc as [H1 H2]. apply N.leb_le in H1, H2.
  apply N.eqb_neq. change (chr ".") with 46. lia.
Qed.

(** A string of three [:]-separated parts, taken apart. *)
Lemma three_parts_inv s :
  length (split (chr ":") s) = 3%nat ->
  exists hh mm ss,
    s = hh ++ py ":" ++ mm ++ py ":" ++ ss
    /\ no_colon hh /\ no_colon mm /\ no_colon ss.
Proof.
  intros Hlen. destruct (split_inv (chr ":") s) as [Hf Hj].
  destruct (split (chr ":") s) as [|hh [|mm [|ss [|]]]]; try discriminate.
  exists hh, mm, ss. inversion Hf as [|? ? H1 Hf1]; subst.
  inversion Hf1 as [|? ? H2 Hf2]; subst. inversion Hf2 as [|? ? H3 _]; subst.
  repeat split; assumption.
Qed.

(** Without a [.], the formatter works on the string followed by
    [".0000000"]. *)
Lemma format_time_str_no_dot s :
  contains (chr ".") s = false ->
  format_time_str s = format_time_str (s ++ py "." ++ py "0000000").
Proof.
  intros Hdot. unfold format_time_str at 2.
  replace (contains (chr ".") (s ++ py "." ++ py "0000000")) with true
    by (rewrite contains_app, orb_true_r; reflexivity).
  unfold format_time_str. rewrite Hdot. reflexivity.
Qed.

Lemma no_dot_parts (hh mm ss : str) :
  contains (chr ".") (hh ++ py ":" ++ mm ++ py ":" ++ ss) = false ->
  no_dot ss.
Proof.
  rewrite !contains_app. intros Hdot.
  repeat (apply orb_false_iff in Hdot as [_ Hdot]). exact Hdot.
Qed.

(** C2: a timestamp [HH:MM:SS] (three [:]-separated parts) holding no [.]
    is returned with [,000] appended; in particular ["00:00:27"] becomes
    ["00:00:27,000"]. *)
Theorem C2_whole_seconds (time_str : str) :
  length (split (chr ":") time_str) = 3%nat ->
  contains (chr ".") time_str = false ->
  format_time_str time_str = Ok (time_str ++ py ",000").
Proof.
  intros Hlen Hdot.
  destruct (three_parts_inv _ Hlen) as (hh & mm & ss & E & Hh & Hm & Hs).
  rewrite format_time_str_no_dot by assumption. subst time_str.
  apply no_dot_parts in Hdot. rewrite <- !app_assoc.
  rewrite format_time_str_shape; try assumption; reflexivity.
Qed.

Lemma ljust_firstn_3 (F : str) :
  ljust 3 (chr "0") (firstn 3 F) = firstn 3 F ++ repeat (chr "0") (3 - length F).
Proof.
  unfold ljust. f_equal. f_equal. rewrite length_firstn. lia.
Qed.

(** C3: on [HH:MM:SS.F] with [F] one or more digits the formatter keeps
    the first three characters of [F], unrounded, pads a shorter [F] on the
    right with [0], and returns [HH:MM:SS,mmm] with [mmm] of length 3. *)
Theorem C3_fraction_truncated_and_padded (time_str F : str) :
  length (split (chr ":") time_str) = 3%nat ->
  contains (chr ".") time_str = false ->
  F <> [] -> forallb is_digit F = true ->
  let mmm := firstn 3 F ++ repeat (chr "0") (3 - length F) in
  format_time_str (time_str ++ py "." ++ F) = Ok (time_str ++ py "," ++ mmm)
  /\ length mmm = 3%nat.
Proof.
  intros Hlen Hdot _ Hdig mmm. split.
  - destruct (three_parts_inv _ Hlen) as (hh & mm & ss & E & Hh & Hm & Hs).
    subst time_str. apply no_dot_parts in Hdot. rewrite <- !app_assoc.
    rewrite format_time_str_shape;
      auto using is_digit_no_colon, is_digit_no_dot.
    rewrite ljust_firstn_3. reflexivity.
  - unfold mmm. rewrite length_app, length_firstn, repeat_length. lia.
Qed.

Lemma format_time_str_completed s :
  format_time_str s = format_time_str (completed s).
Proof.
  unfold completed. destruct (contains (chr ".") s) eqn:Hdot; [reflexivity|].
  apply format_time_str_no_dot. exact Hdot.
Qed.

Lemma format_time_str_unfold s :
  format_time_str s
  = match split (chr ":") (completed s) with
    | [hh; mm; ss_ms] =>
      match split (chr ".") ss_ms with
      | [ss; ms] =>
        Ok (hh ++ py ":" ++ mm ++ py ":" ++ ss ++ py ","
            ++ ljust 3 (chr "0") (firstn 3 ms))
      | parts => Raise (ValueError_unpack 2 (length parts))
      end
    | parts => Raise (ValueError_unpack 3 (length parts))
    end.
Proof. reflexivity. Qed.

(** The formatter returns exactly on the strings that, completed, read
    [hh:mm:ss.ms]; the three components are then copied as they are. *)
Lemma format_time_str_Ok_iff s r :
  format_time_str s = Ok r
  <-> exists hh mm ss ms,
        no_colon hh /\ no_colon mm /\ no_colon ss /\ no_colon ms
        /\ no_dot ss /\ no_dot ms
        /\ completed s = hh ++ py ":" ++ mm ++ py ":" ++ ss ++ py "." ++ ms
        /\ r = hh ++ py ":" ++ mm ++ py ":" ++ ss ++ py ","
               ++ ljust 3 (chr "0") (firstn 3 ms).
Proof.
  split.
  - rewrite format_time_str_unfold.
    destruct (split_inv (chr ":") (completed s)) as [Hf Hj].
    destruct (split (chr ":") (completed s)) as [|hh [|mm [|ss_ms [|]]]];
      try discriminate.
    destruct (split_inv (chr ".") ss_ms) as [Hf' Hj'].
    destruct (split (chr ".") ss_ms) as [|ss [|ms [|]]]; try discriminate.
    intros Hr. exists hh, mm, ss, ms.
    apply Forall_cons in Hf as [H1 Hf]. apply Forall_cons in Hf as [H2 Hf].
    apply Forall_cons in Hf as [H3 _].
    apply Forall_cons in Hf' as [H4 Hf']. apply Forall_cons in Hf' as [H5 _].
    rewrite <- Hj' in H3. cbn [join] in H3.
    rewrite contains_app, contains_app in H3.
    apply orb_false_iff in H3 as [H3 H6]. apply orb_false_iff in H6 as [_ H6].
    unfold no_colon, no_dot. repeat split; try assumption.
    + rewrite <- Hj, <- Hj'. reflexivity.
    + congruence.
  - intros (hh & mm & ss & ms & Hh & Hm & Hs & Hf & Hsd & Hfd & Hc & ->).
    rewrite format_time_str_completed, Hc.
    apply format_time_str_shape; assumption.
Qed.

Lemma format_time_str_Raise_iff s :
  (exists e, format_time_str s = Raise e)
  <-> length (split (chr ":") (completed s)) <> 3%nat
      \/ exists hh mm ss_ms,
           split (chr ":") (completed s) = [hh; mm; ss_ms]
           /\ length (split (chr ".") ss_ms) <> 2%nat.
Proof.
  rewrite format_time_str_unfold.
  destruct (split (chr ":") (completed s)) as [|hh [|mm [|ss_ms [|]]]] eqn:E.
  1-3, 5: split; [intros _; left; cbn; lia | intros _; eauto].
  destruct (split (chr ".") ss_ms) as [|ss [|ms [|]]] eqn:E'.
  1-2, 4: split; [intros _; right; exists hh, mm, ss_ms; rewrite E';
                  split; [reflexivity | cbn; lia]
                 | intros _; eauto].
  split; [intros [e He]; discriminate|].
  intros [Hlen | (hh' & mm' & ss_ms' & [= <- <- <-] & Hlen)].
  - exfalso. apply Hlen. reflexivity.
  - exfalso. apply Hlen. rewrite E'. reflexivity.
Qed.

(** A time token the formatter rejects fails its block. *)
Lemma bad_time_token_fails block time_line text_lines a b e :
  split1 nl block = [time_line; text_lines] ->
  map strip (split (chr ",") time_line) = [a; b] ->
  format_time_str a = Raise e \/ format_time_str b = Raise e ->
  fails block = true.
Proof.
  intros Hsplit Htokens Hraise. unfold fails, block_verdict.
  rewrite Hsplit. cbn [length Nat.ltb Nat.leb unpack2]. rewrite Htokens.
  cbn [unpack2]. destruct Hraise as [Ha|Hb].
  - rewrite Ha. reflexivity.
  - rewrite Hb. destruct (format_time_str a); reflexivity.
Qed.

(** ** The loop over the blocks *)

Lemma for_blocks_cons idx block rest srt_content w :
  for_blocks idx (block :: rest) srt_content w
  = match block_verdict idx block with
    | Skipped =>
      for_blocks (S idx) rest srt_content
        (World (fs w) (stdout w ++ [warning_msg idx block]))
    | Entry e => for_blocks (S idx) rest (srt_content ++ [e]) w
    | Failed x => (Raise x, w)
    end.
Proof.
  unfold block_verdict. cbn [for_blocks].
  destruct (length (split1 nl block) <? 2)%nat; [reflexivity|].
  unfold bind, lift.
  destruct (unpack2 (split1 nl block)) as [[time_line text_lines]|x];
    [|reflexivity].
  destruct (unpack2 (map strip (split (chr ",") time_line)))
    as [[start_time_str end_time_str]|x]; [|reflexivity].
  destruct (format_time_str start_time_str); [|reflexivity].
  destruct (format_time_str end_time_str); reflexivity.
Qed.

Lemma numbered_cons idx b rest :
  numbered idx (b :: rest) = (idx, b) :: numbered (S idx) rest.
Proof. reflexivity. Qed.

(** Whether a block fails does not depend on its number. *)
Lemma block_verdict_failed i j b :
  match block_verdict i b with
  | Failed x => block_verdict j b = Failed x
  | Skipped => block_verdict j b = Skipped
  | Entry _ => exists e, block_verdict j b = Entry e
  end.
Proof.
  unfold block_verdict.
  destruct (length (split1 nl b) <? 2)%nat; [reflexivity|].
  destruct (unpack2 (split1 nl b)) as [[time_line text_lines]|x];
    [|reflexivity].
  destruct (unpack2 (map strip (split (chr ",") time_line)))
    as [[start_time_str end_time_str]|x]; [|reflexivity].
  destruct (format_time_str start_time_str); [|reflexivity].
  destruct (format_time_str end_time_str); [|reflexivity]. eauto.
Qed.

Lemma fails_false idx b :
  fails b = false -> forall x, block_verdict idx b <> Failed x.
Proof.
  unfold fails. intros Hf x Hx.
  pose proof (block_verdict_failed idx 0 b) as Hv. rewrite Hx in Hv.
  rewrite Hv in Hf. discriminate.
Qed.

Lemma fails_true idx b :
  fails b = true -> exists x, block_verdict idx b = Failed x.
Proof.
  unfold fails. intros Hf.
  pose proof (block_verdict_failed 0 idx b) as Hv.
  destruct (block_verdict 0 b); try discriminate. eauto.
Qed.

(** When no block fails the loop returns the entries of the blocks, in
    order, and prints the warnings of the skipped ones. *)
Lemma for_blocks_ok blocks : forall idx srt_content w,
  Forall (fun b => fails b = false) blocks ->
  for_blocks idx blocks srt_content w
  = (Ok (srt_content ++ omap entry_of (numbered idx blocks)),
     World (fs w) (stdout w ++ omap warning_of (numbered idx blocks))).
Proof.
  induction blocks as [|b rest IH]; intros idx acc w Hf.
  - cbn. rewrite !app_nil_r. destruct w; reflexivity.
  - inversion Hf as [|? ? Hb Hrest]; subst.
    rewrite for_blocks_cons, numbered_cons. cbn [omap list_omap].
    unfold entry_of at 1, warning_of at 1. cbn [fst snd].
    pose proof (fails_false idx b Hb) as Hne.
    destruct (block_verdict idx b) as [|e|x].
    + rewrite IH by auto. cbn [fs stdout]. rewrite <- app_assoc. reflexivity.
    + rewrite IH by auto. rewrite <- app_assoc. reflexivity.
    + exfalso. eapply Hne; reflexivity.
Qed.

(** A failing block makes the loop raise; only warnings were printed. *)
Lemma for_blocks_raise blocks : forall idx srt_content w,
  Exists (fun b => fails b = true) blocks ->
  exists x warnings,
    for_blocks idx blocks srt_content w
    = (Raise x, World (fs w) (stdout w ++ warnings)).
Proof.
  induction blocks as [|b rest IH]; intros idx acc w Hex.
  - inversion Hex.
  - rewrite for_blocks_cons.
    destruct (fails b) eqn:Hb.
    + destruct (fails_true idx b Hb) as [x Hx]. rewrite Hx.
      exists x, []. rewrite app_nil_r. destruct w; reflexivity.
    + assert (Hrest : Exists (fun b => fails b = true) rest).
      { inversion Hex; subst; [congruence|assumption]. }
      pose proof (fails_false idx b Hb) as Hne.
      destruct (block_verdict idx b) as [|e|x].
      * destruct (IH (S idx) acc
                    (World (fs w) (stdout w ++ [warning_msg idx b])) Hrest)
          as (x & ws & E).
        rewrite E. cbn [fs stdout]. exists x, (warning_msg idx b :: ws).
        rewrite <- app_assoc. reflexivity.
      * apply IH; assumption.
      * exfalso. eapply Hne; reflexivity.
Qed.

(** The loop stops at the first block that fails, with the error of that
    block, having printed the warnings of the blocks skipped before it. *)
Lemma for_blocks_first_failure blocks : forall idx srt_content w,
  Exists (fun b => fails b = true) blocks ->
  exists j bad x,
    blocks !! j = Some bad
    /\ block_verdict (idx + j) bad = Failed x
    /\ Forall (fun b => fails b = false) (firstn j blocks)
    /\ for_blocks idx blocks srt_content w
       = (Raise x,
          World (fs w)
                (stdout w
                 ++ omap warning_of (numbered idx (firstn j blocks)))).
Proof.
  induction blocks as [|b rest IH]; intros idx acc w Hex.
  - inversion Hex.
  - rewrite for_blocks_cons.
    destruct (fails b) eqn:Hb.
    + destruct (fails_true idx b Hb) as [x Hx]. rewrite Hx.
      exists 0%nat, b, x. rewrite Nat.add_0_r.
      repeat split; [exact Hx|constructor|].
      cbn. rewrite app_nil_r. destruct w; reflexivity.
    + assert (Hrest : Exists (fun b => fails b = true) rest).
      { inversion Hex; subst; [congruence|assumption]. }
      pose proof (fails_false idx b Hb) as Hne.
      destruct (block_verdict idx b) as [|e|x] eqn:Hv.
      * destruct (IH (S idx) acc
                    (World (fs w) (stdout w ++ [warning_msg idx b])) Hrest)
          as (j & bad & x & Hj & Hx & Hbefore & E).
        exists (S j), bad, x. rewrite Nat.add_succ_r.
        repeat split; [exact Hj|exact Hx|constructor; assumption|].
        rewrite E. cbn [fs stdout firstn]. rewrite numbered_cons.
        cbn [omap list_omap]. unfold warning_of at 2. cbn [fst snd].
        rewrite Hv, <- app_assoc. reflexivity.
      * destruct (IH (S idx) (acc ++ [e]) w Hrest)
          as (j & bad & x & Hj & Hx & Hbefore & E).
        exists (S j), bad, x. rewrite Nat.add_succ_r.
        repeat split; [exact Hj|exact Hx|constructor; assumption|].
        rewrite E. cbn [firstn]. rewrite numbered_cons.
        cbn [omap list_omap]. unfold warning_of at 2. cbn [fst snd].
        rewrite Hv. reflexivity.
      * exfalso. eapply Hne; reflexivity.
Qed.

(** The loop never touches the files, only adds lines to the output, and
    its result does not depend on the world. *)
Lemma for_blocks_world blocks : forall idx srt_content,
  exists r warnings,
    forall w', for_blocks idx blocks srt_content w'
               = (r, World (fs w') (stdout w' ++ warnings)).
Proof.
  induction blocks as [|b rest IH]; intros idx acc.
  - exists (Ok acc), []. intros w'. cbn. rewrite app_nil_r.
    destruct w'; reflexivity.
  - destruct (block_verdict idx b) as [|e|x] eqn:Hv.
    + destruct (IH (S idx) acc) as (r & ws & E).
      exists r, (warning_msg idx b :: ws). intros w'.
      rewrite for_blocks_cons, Hv, E. cbn [fs stdout].
      rewrite <- app_assoc. reflexivity.
    + destruct (IH (S idx) (acc ++ [e])) as (r & ws & E).
      exists r, ws. intros w'. rewrite for_blocks_cons, Hv. apply E.
    + exists (Raise x), []. intros w'. rewrite for_blocks_cons, Hv.
      rewrite app_nil_r. destruct w'; reflexivity.
Qed.

(** ** Blocks without a newline, documents without a block *)

(** [block.split("\n", 1)] has fewer than two parts exactly when the
    block holds no newline. *)
Lemma split1_parts sep s :
  if contains sep s then length (split1 sep s) = 2%nat
  else split1 sep s = [s].
Proof.
  induction s as [|c r IH]; [reflexivity|].
  rewrite contains_cons, N.eqb_sym. cbn [split1].
  destruct (c =? sep); [reflexivity|]. cbn [orb].
  destruct (contains sep r).
  - destruct (split1 sep r) as [|p [|q [|]]]; try discriminate. reflexivity.
  - rewrite IH. reflexivity.
Qed.

Lemma no_newline_skipped idx block :
  contains nl block = false -> block_verdict idx block = Skipped.
Proof.
  intros Hnl. pose proof (split1_parts nl block) as Hs. rewrite Hnl in Hs.
  unfold block_verdict. rewrite Hs. reflexivity.
Qed.

Lemma newline_not_skipped idx block :
  contains nl block = true -> block_verdict idx block <> Skipped.
Proof.
  intros Hnl. pose proof (split1_parts nl block) as Hs. rewrite Hnl in Hs.
  unfold block_verdict. rewrite Hs. cbn [Nat.ltb Nat.leb].
  destruct (unpack2 (split1 nl block)) as [[time_line text_lines]|x];
    [|discriminate].
  destruct (unpack2 (map strip (split (chr ",") time_line)))
    as [[start_time_str end_time_str]|x]; [|discriminate].
  destruct (format_time_str start_time_str); [|discriminate].
  destruct (format_time_str end_time_str); discriminate.
Qed.

Lemma no_newline_not_fails block :
  contains nl block = false -> fails block = false.
Proof.
  intros Hnl. unfold fails. rewrite no_newline_skipped by assumption.
  reflexivity.
Qed.

(** An entry starts with the number the block was given. *)
Lemma entry_shape idx block e :
  block_verdict idx block = Entry e ->
  exists start_srt end_srt text,
    e = str_of_nat idx ++ [nl]
        ++ start_srt ++ py " --> " ++ end_srt ++ [nl] ++ text ++ [nl].
Proof.
  unfold block_verdict.
  destruct (length (split1 nl block) <? 2)%nat; [discriminate|].
  destruct (unpack2 (split1 nl block)) as [[time_line text_lines]|x];
    [|discriminate].
  destruct (unpack2 (map strip (split (chr ",") time_line)))
    as [[start_time_str end_time_str]|x]; [|discriminate].
  destruct (format_time_str start_time_str); [|discriminate].
  destruct (format_time_str end_time_str); [|discriminate].
  intros [= <-]. unfold srt_block. eauto.
Qed.

Lemma numbered_lookup blocks : forall idx i (block : str),
  blocks !! i = Some block ->
  numbered idx blocks !! i = Some ((idx + i)%nat, block).
Proof.
  induction blocks as [|b rest IH]; intros idx i block Hi; [discriminate|].
  rewrite numbered_cons. destruct i as [|i].
  - injection Hi as ->. rewrite Nat.add_0_r. reflexivity.
  - change (numbered (S idx) rest !! i = Some ((idx + S i)%nat, block)).
    rewrite (IH (S idx) i block Hi).
    replace (S idx + i)%nat with (idx + S i)%nat by lia. reflexivity.
Qed.

Lemma lstrip_space s : forallb isspace s = true -> lstrip s = [].
Proof.
  induction s as [|c r IH]; [reflexivity|]. cbn [forallb lstrip].
  intros Hs. apply andb_true_iff in Hs as [Hc Hr]. rewrite Hc. auto.
Qed.

Lemma strip_space s : forallb isspace s = true -> strip s = [].
Proof. intros Hs. unfold strip. rewrite lstrip_space by assumption. reflexivity. Qed.

(** The pieces of a text made of whitespace are made of whitespace. *)
Lemma re_split_go_space s : forall skip piece,
  forallb isspace s = true -> forallb isspace piece = true ->
  Forall (fun p => forallb isspace p = true) (re_split_go skip piece s).
Proof.
  induction s as [|c r IH]; intros skip piece Hs Hp.
  - repeat constructor. exact Hp.
  - cbn [forallb] in Hs. apply andb_true_iff in Hs as [Hc Hr].
    assert (Hpc : forallb isspace (piece ++ [c]) = true).
    { rewrite forallb_app, Hp. cbn. rewrite Hc. reflexivity. }
    cbn [re_split_go]. destruct skip as [|k]; [|auto].
    destruct (c =? nl); [|auto].
    destruct (ws_star_nl r); [|auto].
    constructor; [exact Hp|]. apply IH; [exact Hr|reflexivity].
Qed.

(** A document of whitespace only (the empty one too) has no block. *)
Lemma blank_document content :
  forallb isspace content = true -> subtitle_blocks_of content = [].
Proof.
  intros Hs. unfold subtitle_blocks_of, re_split_blank.
  pose proof (re_split_go_space content 0 [] Hs eq_refl) as Hall.
  induction Hall as [|p ps Hp _ IH]; [reflexivity|].
  cbn [List.filter]. rewrite strip_space by assumption. exact IH.
Qed.

(** ** Directories and files *)

Lemma lookup_mkdirs (qs : list path) (m : gmap path node) (p : path) :
  foldr (fun q m => <[q := Dir]> m) m qs !! p
  = if decide (p ∈ qs) then Some Dir else m !! p.
Proof.
  induction qs as [|q qs IH]; cbn [foldr].
  - rewrite decide_False; [reflexivity|]. apply not_elem_of_nil.
  - destruct (decide (q = p)) as [->|Hne].
    + rewrite lookup_insert_eq, decide_True; [reflexivity|]. constructor.
    + rewrite lookup_insert_ne by assumption. rewrite IH.
      destruct (decide (p ∈ qs)) as [Hin|Hnin].
      * rewrite decide_True; [reflexivity|]. constructor; assumption.
      * rewrite decide_False; [reflexivity|].
        intros Hin. apply elem_of_cons in Hin as [->|Hin]; tauto.
Qed.

Lemma prefixes_self (d : path) : d ∈ prefixes d.
Proof.
  induction d as [|x r IH]; cbn [prefixes]; [constructor|].
  constructor. apply list_elem_of_fmap. exists r. split; [reflexivity|exact IH].
Qed.

(** Directories that are all there are left as they are. *)
Lemma mkdirs_present (qs : list path) (m : gmap path node) :
  Forall (fun q => m !! q = Some Dir) qs ->
  foldr (fun q m => <[q := Dir]> m) m qs = m.
Proof.
  intros Hall. apply map_eq. intros p. rewrite lookup_mkdirs.
  destruct (decide (p ∈ qs)) as [Hin|]; [|reflexivity].
  rewrite Forall_forall in Hall. symmetry. apply Hall. exact Hin.
Qed.

Section ConverterFacts.
Context {H : Host}.

Lemma makedirs_ok d w w0 :
  makedirs d w = (Ok tt, w0) ->
  stdout w0 = stdout w
  /\ Forall (fun q => fs w0 !! q = Some Dir) (prefixes d)
  /\ (forall p, is_dir (fs w) p = true -> is_dir (fs w0) p = true)
  /\ (forall p data, fs w0 !! p = Some (File data)
                     <-> fs w !! p = Some (File data)).
Proof.
  unfold makedirs. destruct (find (is_file (fs w)) (prefixes d)) eqn:Hfind;
    [discriminate|].
  intros [= <-]. cbn [fs stdout]. split; [reflexivity|].
  pose proof (find_none _ _ Hfind) as Hnone. split; [|split].
  - apply Forall_forall. intros q Hq. rewrite lookup_mkdirs.
    rewrite decide_True; [reflexivity|]. exact Hq.
  - intros p. unfold is_dir. rewrite lookup_mkdirs.
    destruct (decide (p ∈ prefixes d)); [reflexivity|tauto].
  - intros p data. rewrite lookup_mkdirs.
    destruct (decide (p ∈ prefixes d)) as [Hin|]; [|tauto].
    apply list_elem_of_In, Hnone in Hin. unfold is_file in Hin.
    split; [discriminate|]. intros E. rewrite E in Hin. discriminate.
Qed.

(** Once the directory is there, [makedirs] changes nothing. *)
Lemma makedirs_again d w :
  Forall (fun q => fs w !! q = Some Dir) (prefixes d) ->
  makedirs d w = (Ok tt, w).
Proof.
  intros Hall. unfold makedirs.
  destruct (find (is_file (fs w)) (prefixes d)) as [q|] eqn:Hfind.
  - apply find_some in Hfind as [Hin Hq]. rewrite Forall_forall in Hall.
    apply list_elem_of_In in Hin.
    unfold is_file in Hq. rewrite (Hall q Hin) in Hq. discriminate.
  - rewrite mkdirs_present by assumption. destruct w; reflexivity.
Qed.

Lemma makedirs_raise d w e w' :
  makedirs d w = (Raise e, w') ->
  w' = w /\ exists q, In q (prefixes d) /\ is_file (fs w) q = true.
Proof.
  unfold makedirs. destruct (find (is_file (fs w)) (prefixes d)) as [q|] eqn:Hfind;
    [|discriminate].
  intros [= _ <-]. split; [reflexivity|]. exists q. eapply find_some; eauto.
Qed.

Lemma decode_exn_caught c data :
  is_UnicodeDecodeError (decode_exn c data) = true.
Proof. unfold decode_exn. destruct (decode_error c data) as [[? ?] ?]. reflexivity. Qed.

Lemma read_text_world c p w : snd (read_text c p w) = w.
Proof.
  unfold read_text. destruct (fs w !! p) as [[|data]|]; try reflexivity.
  destruct (decode c data); reflexivity.
Qed.

Lemma read_sub_world p w : snd (read_sub p w) = w.
Proof.
  unfold read_sub, try_except.
  pose proof (read_text_world utf_8 p w) as E1.
  destruct (read_text utf_8 p w) as [[content|e] w1]; cbn [snd] in E1; subst w1;
    [reflexivity|].
  destruct (is_UnicodeDecodeError e); [|reflexivity].
  pose proof (read_text_world gbk p w) as E2.
  destruct (read_text gbk p w) as [r w2]. cbn [snd] in E2 |- *. exact E2.
Qed.

(** The converter once the output directory is settled: whatever the
    body raises is caught and reported. *)
Lemma convert_single_resolved sub out w d w0 :
  resolve_output_dir sub out w = (Ok d, w0) ->
  convert_single_sub_to_srt sub out w
  = match convert_body sub (srt_path sub d) w0 with
    | (Ok a, w') => (Ok a, w')
    | (Raise e, w') =>
      (Ok tt, World (fs w') (stdout w' ++ [failure_msg sub e]))
    end.
Proof.
  intros Hres. unfold convert_single_sub_to_srt, bind. rewrite Hres.
  unfold try_except.
  destruct (convert_body sub (srt_path sub d) w0) as [[a|e] w']; reflexivity.
Qed.

Lemma resolve_output_dir_ok sub out w d w0 :
  resolve_output_dir sub out w = (Ok d, w0) ->
  stdout w0 = stdout w
  /\ (forall p, is_dir (fs w) p = true -> is_dir (fs w0) p = true)
  /\ (forall p data, fs w0 !! p = Some (File data)
                     <-> fs w !! p = Some (File data))
  /\ match out with
     | None => d = parent sub /\ w0 = w
     | Some d' => d = d' /\ is_dir (fs w0) d = true
     end.
Proof.
  unfold resolve_output_dir. destruct out as [d'|].
  - unfold bind, ret. destruct (makedirs d' w) as [[[]|e] w1] eqn:Hmk;
      [|discriminate].
    intros [= <- <-]. destruct (makedirs_ok _ _ _ Hmk) as (Hout & Hdirs & Hd & Hf).
    repeat split; try assumption; try apply Hf.
    rewrite Forall_forall in Hdirs. unfold is_dir.
    rewrite (Hdirs d' (prefixes_self d')). reflexivity.
  - unfold ret. intros [= <- <-]. repeat split; tauto.
Qed.


Lemma convert_body_loop_fails sub o w content x warnings :
  fst (read_sub sub w) = Ok content ->
  for_blocks 1 (subtitle_blocks_of content) [] w
  = (Raise x, World (fs w) (stdout w ++ warnings)) ->
  convert_body sub o w = (Raise x, World (fs w) (stdout w ++ warnings)).
Proof.
  intros Hread Hloop. unfold convert_body, bind.
  pose proof (read_sub_world sub w) as Hw.
  destruct (read_sub sub w) as [r w1]. cbn in Hread, Hw. subst.
  rewrite Hloop. reflexivity.
Qed.

Lemma convert_body_writes sub o w content entries warnings :
  fst (read_sub sub w) = Ok content ->
  for_blocks 1 (subtitle_blocks_of content) [] w
  = (Ok entries, World (fs w) (stdout w ++ warnings)) ->
  is_dir (fs w) o = false -> is_dir (fs w) (parent o) = true ->
  convert_body sub o w
  = (Ok tt,
     World (<[o := File (encode (join [nl] entries))]> (fs w))
           (stdout w ++ warnings ++ [success_msg sub o])).
Proof.
  intros Hread Hloop Ho Hparent. unfold convert_body, bind.
  pose proof (read_sub_world sub w) as Hw.
  destruct (read_sub sub w) as [r w1]. cbn in Hread, Hw. subst.
  rewrite Hloop. unfold write_text, print, is_dir in *. cbn [fs stdout].
  destruct (fs w !! parent o) as [[|]|]; try discriminate.
  destruct (fs w !! o) as [[|]|]; try discriminate;
    cbn [fs stdout]; rewrite <- app_assoc; reflexivity.
Qed.

(** A time line that does not split on [,] into two tokens fails its
    block. *)
Lemma bad_time_line_fails block time_line text_lines :
  split1 nl block = [time_line; text_lines] ->
  length (split (chr ",") time_line) <> 2%nat ->
  fails block = true.
Proof.
  intros Hsplit Hlen. unfold fails, block_verdict. rewrite Hsplit.
  cbn [length Nat.ltb Nat.leb unpack2].
  assert (Hmap : length (map strip (split (chr ",") time_line)) <> 2%nat)
    by (rewrite length_map; exact Hlen).
  destruct (map strip (split (chr ",") time_line)) as [|a [|b [|c r]]];
    try reflexivity.
  exfalso. apply Hmap. reflexivity.
Qed.

(** The error of a time line that does not split into two tokens is
    that of the unpacking: expected 2, got the number of tokens. *)
Lemma bad_time_line_error idx block time_line text_lines :
  split1 nl block = [time_line; text_lines] ->
  length (split (chr ",") time_line) <> 2%nat ->
  block_verdict idx block
  = Failed (ValueError_unpack 2 (length (split (chr ",") time_line))).
Proof.
  intros Hsplit Hlen. unfold block_verdict. rewrite Hsplit.
  cbn [length Nat.ltb Nat.leb unpack2].
  rewrite <- (length_map strip) in Hlen |- *.
  destruct (map strip (split (chr ",") time_line)) as [|a [|b [|c r]]];
    try reflexivity.
  exfalso. apply Hlen. reflexivity.
Qed.

(** The converter raises only when the output directory cannot be made:
    everything after that is inside the [try]. *)
Lemma convert_single_raise_inv sub out w e w' :
  convert_single_sub_to_srt sub out w = (Raise e, w') ->
  w' = w
  /\ exists d q, out = Some d /\ In q (prefixes d) /\ is_file (fs w) q = true.
Proof.
  destruct (resolve_output_dir sub out w) as [[d|x] w0] eqn:Hres.
  - rewrite (convert_single_resolved _ _ _ _ _ Hres).
    destruct (convert_body sub (srt_path sub d) w0) as [[a|y] w1];
      discriminate.
  - unfold convert_single_sub_to_srt, bind. rewrite Hres. intros [= <- <-].
    unfold resolve_output_dir in Hres. destruct out as [d|]; [|discriminate].
    unfold bind in Hres. destruct (makedirs d w) as [[[]|y] w1] eqn:Hmk;
      [discriminate|].
    injection Hres as <- <-.
    destruct (makedirs_raise _ _ _ _ Hmk) as (-> & q & Hin & Hq). eauto 6.
Qed.

(** C7: when some block of the document has a time line that does not
    split on [,] into exactly two tokens, the conversion of the file fails
    as a whole: no file is written, the failure message is printed, and
    the batch goes on with the next file. The message is made of the input
    path and of the text of the error that stopped the loop, which is the
    error of the first block that fails; when no block fails before the
    one with the bad time line, it is the error of unpacking that line:
    two values expected, the number of its tokens found. Before the
    message only the warnings of the blocks skipped up to there are
    printed. *)
Theorem C7_bad_time_line_fails_file (sub_file_path : path)
    (output_dir : option path) (rest : list path) (w w0 : world) (d : path)
    (content : str) (i : nat) (block time_line text_lines : str) :
  resolve_output_dir sub_file_path output_dir w = (Ok d, w0) ->
  fst (read_sub sub_file_path w0) = Ok content ->
  subtitle_blocks_of content !! i = Some block ->
  split1 nl block = [time_line; text_lines] ->
  length (split (chr ",") time_line) <> 2%nat ->
  exists e w' j bad,
    convert_single_sub_to_srt sub_file_path output_dir w = (Ok tt, w')
    /\ fs w' = fs w0
    /\ (forall p data, fs w' !! p = Some (File data)
                       <-> fs w !! p = Some (File data))
    /\ stdout w'
       = stdout w
         ++ omap warning_of
              (numbered 1 (firstn j (subtitle_blocks_of content)))
         ++ [py "❌ 转换失败 " ++ path_str sub_file_path ++ py "："
             ++ exn_str e]
    /\ (j <= i)%nat
    /\ subtitle_blocks_of content !! j = Some bad
    /\ block_verdict (S j) bad = Failed e
    /\ Forall (fun b => fails b = false)
              (firstn j (subtitle_blocks_of content))
    /\ (j = i ->
        e = ValueError_unpack 2 (length (split (chr ",") time_line)))
    /\ for_files (sub_file_path :: rest) output_dir w
       = for_files rest output_dir w'.
Proof.
  intros Hres Hread Hblock Hsplit Hlen.
  pose proof (bad_time_line_fails _ _ _ Hsplit Hlen) as Hfails.
  assert (Hex : Exists (fun b => fails b = true) (subtitle_blocks_of content)).
  { apply Exists_exists. exists block. split.
    - eapply list_elem_of_lookup_2; eauto.
    - exact Hfails. }
  destruct (for_blocks_first_failure _ 1%nat [] w0 Hex)
    as (j & bad & x & Hj & Hx & Hbefore & Hloop).
  pose proof (convert_single_resolved _ _ _ _ _ Hres) as Hconv.
  rewrite (convert_body_loop_fails _ _ _ _ _ _ Hread Hloop) in Hconv.
  cbn [fs stdout] in Hconv.
  destruct (resolve_output_dir_ok _ _ _ _ _ Hres) as (Hout & _ & Hfiles & _).
  assert (Hji : (j <= i)%nat).
  { destruct (Nat.le_gt_cases j i) as [Hle|Hgt]; [exact Hle|]. exfalso.
    assert (Hin : firstn j (subtitle_blocks_of content) !! i = Some block)
      by (rewrite lookup_take_lt by exact Hgt; exact Hblock).
    rewrite Forall_lookup in Hbefore. specialize (Hbefore i block Hin).
    cbn beta in Hbefore. congruence. }
  eexists x, _, j, bad. split; [exact Hconv|]. cbn [fs stdout].
  repeat split; try apply Hfiles; try assumption.
  - rewrite Hout, <- app_assoc. reflexivity.
  - intros ->. rewrite Hblock in Hj. injection Hj as <-.
    rewrite (bad_time_line_error (1 + i) _ _ _ Hsplit Hlen) in Hx.
    injection Hx as <-. reflexivity.
  - cbn [for_files]. unfold bind at 1. rewrite Hconv. reflexivity.
Qed.

Lemma parent_srt_path sub d : parent (srt_path sub d) = d.
Proof. unfold parent, srt_path. apply removelast_last. Qed.

(** The converter on a readable document whose blocks all convert, with a
    writable output path. *)
Lemma convert_single_success sub out w d w0 content entries warnings :
  resolve_output_dir sub out w = (Ok d, w0) ->
  fst (read_sub sub w0) = Ok content ->
  for_blocks 1 (subtitle_blocks_of content) [] w0
  = (Ok entries, World (fs w0) (stdout w0 ++ warnings)) ->
  is_dir (fs w0) (srt_path sub d) = false -> is_dir (fs w0) d = true ->
  convert_single_sub_to_srt sub out w
  = (Ok tt,
     World (<[srt_path sub d := File (encode (join [nl] entries))]> (fs w0))
           (stdout w ++ warnings ++ [success_msg sub (srt_path sub d)])).
Proof.
  intros Hres Hread Hloop Ho Hd.
  rewrite (convert_single_resolved _ _ _ _ _ Hres).
  rewrite (convert_body_writes _ _ _ _ _ _ Hread Hloop Ho)
    by (rewrite parent_srt_path; exact Hd).
  destruct (resolve_output_dir_ok _ _ _ _ _ Hres) as (Hout & _).
  rewrite Hout. reflexivity.
Qed.

(** C1: on the end-to-end scenario document (with or without a final
    newline) the converter writes exactly the expected SRT text: for each
    block its number, the line [start --> end], the text, one newline
    after each block and one empty line between the two. *)
Theorem C1_end_to_end_scenario (sub_file_path : path)
    (output_dir : option path) (w w0 : world) (d : path) (content : str) :
  resolve_output_dir sub_file_path output_dir w = (Ok d, w0) ->
  fst (read_sub sub_file_path w0) = Ok content ->
  content = scenario_sub \/ content = scenario_sub ++ [nl] ->
  is_dir (fs w0) (srt_path sub_file_path d) = false ->
  is_dir (fs w0) d = true ->
  convert_single_sub_to_srt sub_file_path output_dir w
  = (Ok tt,
     World (<[srt_path sub_file_path d := File (encode scenario_srt)]> (fs w0))
           (stdout w ++ [success_msg sub_file_path (srt_path sub_file_path d)])).
Proof.
  intros Hres Hread Hcontent Ho Hd.
  assert (Hblocks : subtitle_blocks_of content
                    = [text ["00:00:01,00:00:03"; "Hello world"]%string;
                       text ["00:00:05,00:00:07.250"; "Second line"]%string]).
  { destruct Hcontent; subst content; vm_compute; reflexivity. }
  assert (Hok : Forall (fun b => fails b = false) (subtitle_blocks_of content))
    by (rewrite Hblocks; repeat constructor).
  pose proof (for_blocks_ok _ 1%nat [] w0 Hok) as Hloop.
  rewrite (convert_single_success _ _ _ _ _ _ _ _ Hres Hread Hloop Ho Hd).
  rewrite Hblocks.
  replace (join [nl] ([] ++ omap entry_of (numbered 1 _))) with scenario_srt
    by (vm_compute; reflexivity).
  replace (omap warning_of (numbered 1 _)) with (@nil (list N))
    by (vm_compute; reflexivity).
  reflexivity.
Qed.

Lemma no_entries blocks : forall idx,
  Forall (fun b => contains nl b = false) blocks ->
  omap entry_of (numbered idx blocks) = [].
Proof.
  induction blocks as [|b rest IH]; intros idx Hall; [reflexivity|].
  inversion Hall as [|? ? Hb Hrest]; subst.
  rewrite numbered_cons. cbn [omap list_omap]. unfold entry_of at 1.
  cbn [fst snd]. rewrite no_newline_skipped by assumption. auto.
Qed.

(** C10: a document without any block (empty or whitespace only), and
    likewise one whose blocks are all skipped for lack of a newline, is
    still converted: an output file holding the empty text is written and
    success is reported. *)
Theorem C10_empty_output_is_written (sub_file_path : path)
    (output_dir : option path) (w w0 : world) (d : path) (content : str) :
  resolve_output_dir sub_file_path output_dir w = (Ok d, w0) ->
  fst (read_sub sub_file_path w0) = Ok content ->
  forallb isspace content = true
  \/ Forall (fun b => contains nl b = false) (subtitle_blocks_of content) ->
  is_dir (fs w0) (srt_path sub_file_path d) = false ->
  is_dir (fs w0) d = true ->
  exists warnings,
    convert_single_sub_to_srt sub_file_path output_dir w
    = (Ok tt,
       World (<[srt_path sub_file_path d := File (encode [])]> (fs w0))
             (stdout w ++ warnings
              ++ [success_msg sub_file_path (srt_path sub_file_path d)])).
Proof.
  intros Hres Hread Hcase Ho Hd.
  assert (Hall : Forall (fun b => contains nl b = false)
                        (subtitle_blocks_of content)).
  { destruct Hcase as [Hblank|Hall]; [|exact Hall].
    rewrite blank_document by assumption. constructor. }
  assert (Hok : Forall (fun b => fails b = false) (subtitle_blocks_of content)).
  { eapply Forall_impl; [exact Hall|]. apply no_newline_not_fails. }
  pose proof (for_blocks_ok _ 1%nat [] w0 Hok) as Hloop.
  exists (omap warning_of (numbered 1 (subtitle_blocks_of content))).
  rewrite (convert_single_success _ _ _ _ _ _ _ _ Hres Hread Hloop Ho Hd).
  rewrite no_entries by assumption. reflexivity.
Qed.

(** C5, with the condition the code needs: in a document none of whose
    blocks fails, every block without a newline (fewer than two parts when
    split at the first newline) is skipped: the warning with its 1-based
    number and the first 50 characters of its content is printed, it gets
    no entry, the blocks with a newline all get theirs, and the output
    file is written from those entries. *)
Theorem C5_block_without_newline_skipped (sub_file_path : path)
    (output_dir : option path) (w w0 : world) (d : path) (content : str) :
  resolve_output_dir sub_file_path output_dir w = (Ok d, w0) ->
  fst (read_sub sub_file_path w0) = Ok content ->
  Forall (fun b => fails b = false) (subtitle_blocks_of content) ->
  is_dir (fs w0) (srt_path sub_file_path d) = false ->
  is_dir (fs w0) d = true ->
  let blocks := subtitle_blocks_of content in
  let entries := omap entry_of (numbered 1 blocks) in
  let warnings := omap warning_of (numbered 1 blocks) in
  convert_single_sub_to_srt sub_file_path output_dir w
  = (Ok tt,
     World (<[srt_path sub_file_path d := File (encode (join [nl] entries))]>
              (fs w0))
           (stdout w ++ warnings
            ++ [success_msg sub_file_path (srt_path sub_file_path d)]))
  /\ (forall i block,
        blocks !! i = Some block -> contains nl block = false ->
        (length (split1 nl block) < 2)%nat
        /\ entry_of (S i, block) = None
        /\ py "警告：第" ++ str_of_nat (S i) ++ py "个字幕块格式异常，跳过 → "
             ++ firstn 50 block ++ py "..." ∈ warnings)
  /\ (forall i block,
        blocks !! i = Some block -> contains nl block = true ->
        exists e, entry_of (S i, block) = Some e /\ e ∈ entries).
Proof.
  intros Hres Hread Hok Ho Hd blocks entries warnings.
  pose proof (for_blocks_ok _ 1%nat [] w0 Hok) as Hloop.
  split; [|split].
  - exact (convert_single_success _ _ _ _ _ _ _ _ Hres Hread Hloop Ho Hd).
  - intros i block Hi Hnl.
    pose proof (split1_parts nl block) as Hparts. rewrite Hnl in Hparts.
    split; [rewrite Hparts; cbn; lia|].
    split; [unfold entry_of; cbn [fst snd];
            rewrite no_newline_skipped by assumption; reflexivity|].
    apply list_elem_of_omap. exists (S i, block). split.
    + eapply list_elem_of_lookup_2. apply (numbered_lookup blocks 1 i block Hi).
    + unfold warning_of. cbn [fst snd].
      rewrite no_newline_skipped by assumption. reflexivity.
  - intros i block Hi Hnl.
    assert (Hin : block ∈ blocks) by (eapply list_elem_of_lookup_2; eauto).
    rewrite Forall_forall in Hok. specialize (Hok block Hin).
    pose proof (fails_false (S i) block Hok) as Hnf.
    pose proof (newline_not_skipped (S i) block Hnl) as Hns.
    destruct (block_verdict (S i) block) as [|e|x] eqn:Hv;
      [congruence| |exfalso; eapply Hnf; reflexivity].
    assert (He : entry_of (S i, block) = Some e)
      by (unfold entry_of; cbn [fst snd]; rewrite Hv; reflexivity).
    exists e. split; [exact He|].
    apply list_elem_of_omap. exists (S i, block). split; [|exact He].
    eapply list_elem_of_lookup_2. apply (numbered_lookup blocks 1 i block Hi).
Qed.

(** When the loop returns, no block failed. *)
Lemma for_blocks_Ok_inv blocks idx srt_content w entries w' :
  for_blocks idx blocks srt_content w = (Ok entries, w') ->
  Forall (fun b => fails b = false) blocks.
Proof.
  intros Hloop. apply Forall_forall. intros b Hb.
  destruct (fails b) eqn:Hf; [|reflexivity]. exfalso.
  assert (Hex : Exists (fun b => fails b = true) blocks)
    by (apply Exists_exists; eauto).
  destruct (for_blocks_raise blocks idx srt_content w Hex) as (x & ws & E).
  congruence.
Qed.

(** The entries of a list of blocks numbered from [idx]: each comes from
    the block at its number, and the numbers increase. *)
Lemma entries_numbered blocks : forall idx,
  exists idxs : list nat,
    Forall2 (fun i e =>
               exists block start_srt end_srt text,
                 (idx <= i)%nat
                 /\ blocks !! (i - idx)%nat = Some block
                 /\ block_verdict i block = Entry e
                 /\ e = str_of_nat i ++ [nl]
                        ++ start_srt ++ py " --> " ++ end_srt ++ [nl]
                        ++ text ++ [nl])
            idxs (omap entry_of (numbered idx blocks))
    /\ StronglySorted lt idxs
    /\ Forall (fun i => (idx <= i)%nat) idxs.
Proof.
  induction blocks as [|b rest IH]; intros idx.
  - exists []. repeat constructor.
  - destruct (IH (S idx)) as (idxs & Hall & Hsorted & Hbound).
    assert (Hall' :
      Forall2 (fun i e =>
                 exists block start_srt end_srt text,
                   (idx <= i)%nat
                   /\ (b :: rest) !! (i - idx)%nat = Some block
                   /\ block_verdict i block = Entry e
                   /\ e = str_of_nat i ++ [nl]
                        ++ start_srt ++ py " --> " ++ end_srt ++ [nl]
                        ++ text ++ [nl])
              idxs (omap entry_of (numbered (S idx) rest))).
    { eapply Forall2_impl; [exact Hall|]. cbn beta.
      intros i e (block & s & t & x & Hle & Hlk & Hv & He).
      exists block, s, t, x. repeat split; try assumption; [lia|].
      replace (i - idx)%nat with (S (i - S idx)) by lia. exact Hlk. }
    rewrite numbered_cons. cbn [omap list_omap]. unfold entry_of at 1.
    cbn [fst snd]. destruct (block_verdict idx b) as [|e|x] eqn:Hv.
    + exists idxs. repeat split; try assumption.
      eapply Forall_impl; [exact Hbound|]. cbn beta. lia.
    + destruct (entry_shape idx b e Hv) as (s & t & x & He).
      exists (idx :: idxs). split; [|split].
      * constructor; [|exact Hall'].
        exists b, s, t, x. rewrite Nat.sub_diag. repeat split; auto.
      * constructor; [exact Hsorted|].
        eapply Forall_impl; [exact Hbound|]. cbn beta. lia.
      * constructor; [lia|].
        eapply Forall_impl; [exact Hbound|]. cbn beta. lia.
    + exists idxs. repeat split; try assumption.
      eapply Forall_impl; [exact Hbound|]. cbn beta. lia.
Qed.

(** C6: every entry the loop emits carries the 1-based position of its
    block in the sequence of blocks split at blank lines: its text is that
    number in decimal on a line of its own, followed by the time line and
    the text; the numbers are those positions (not a recount after a
    skip), so they increase strictly along the output and follow the
    order of the input. *)
Theorem C6_index_is_original_position (content : str) (w w' : world)
    (entries : list str) :
  for_blocks 1 (subtitle_blocks_of content) [] w = (Ok entries, w') ->
  exists idxs : list nat,
    Forall2 (fun i e =>
               exists block start_srt end_srt text,
                 (1 <= i)%nat
                 /\ subtitle_blocks_of content !! (i - 1)%nat = Some block
                 /\ block_verdict i block = Entry e
                 /\ e = str_of_nat i ++ [nl]
                        ++ start_srt ++ py " --> " ++ end_srt ++ [nl]
                        ++ text ++ [nl])
            idxs entries
    /\ StronglySorted lt idxs.
Proof.
  intros Hloop. pose proof (for_blocks_Ok_inv _ _ _ _ _ _ Hloop) as Hok.
  rewrite (for_blocks_ok _ 1%nat [] w Hok) in Hloop.
  injection Hloop as <- _.
  destruct (entries_numbered (subtitle_blocks_of content) 1)
    as (idxs & Hall & Hsorted & _).
  exists idxs. split; assumption.
Qed.

(** C4, as the code has it: the formatter copies hour, minute and second
    as they are whenever it returns; it raises exactly when the string,
    with [".0000000"] appended if it holds no [.], does not split into
    three [:]-parts the last of which splits into two [.]-parts; the
    caller turns such an error into the failure of the whole file: the
    failure message is printed and no file is written. *)
Theorem C4_formatter_passes_components_through :
  (forall s r,
     format_time_str s = Ok r
     <-> exists hh mm ss ms,
           no_colon hh /\ no_colon mm /\ no_colon ss /\ no_colon ms
           /\ no_dot ss /\ no_dot ms
           /\ completed s = hh ++ py ":" ++ mm ++ py ":" ++ ss ++ py "." ++ ms
           /\ r = hh ++ py ":" ++ mm ++ py ":" ++ ss ++ py ","
                  ++ ljust 3 (chr "0") (firstn 3 ms))
  /\ (forall s,
        (exists e, format_time_str s = Raise e)
        <-> length (split (chr ":") (completed s)) <> 3%nat
            \/ exists hh mm ss_ms,
                 split (chr ":") (completed s) = [hh; mm; ss_ms]
                 /\ length (split (chr ".") ss_ms) <> 2%nat)
  /\ (forall (sub_file_path : path) (output_dir : option path)
             (w w0 : world) (d : path) (content : str) (i : nat)
             (block time_line text_lines a b : str) (e : exn),
        resolve_output_dir sub_file_path output_dir w = (Ok d, w0) ->
        fst (read_sub sub_file_path w0) = Ok content ->
        subtitle_blocks_of content !! i = Some block ->
        split1 nl block = [time_line; text_lines] ->
        map strip (split (chr ",") time_line) = [a; b] ->
        format_time_str a = Raise e \/ format_time_str b = Raise e ->
        exists e' warnings,
          convert_single_sub_to_srt sub_file_path output_dir w
          = (Ok tt,
             World (fs w0)
                   (stdout w ++ warnings ++ [failure_msg sub_file_path e']))).
Proof.
  split; [exact format_time_str_Ok_iff|]. split; [exact format_time_str_Raise_iff|].
  intros sub out w w0 d content i block time_line text_lines a b e
         Hres Hread Hblock Hsplit Htokens Hraise.
  assert (Hex : Exists (fun b => fails b = true) (subtitle_blocks_of content)).
  { apply Exists_exists. exists block. split.
    - eapply list_elem_of_lookup_2; eauto.
    - eapply bad_time_token_fails; eauto. }
  destruct (for_blocks_raise _ 1%nat [] w0 Hex) as (x & ws & Hloop).
  rewrite (convert_single_resolved _ _ _ _ _ Hres).
  rewrite (convert_body_loop_fails _ _ _ _ _ _ Hread Hloop).
  destruct (resolve_output_dir_ok _ _ _ _ _ Hres) as (Hout & _).
  exists x, ws. cbn [fs stdout]. rewrite Hout, <- app_assoc. reflexivity.
Qed.

End ConverterFacts.

(** ** Two runs of the batch *)

Lemma lookup_apply_writes ws : forall (m : gmap path node) (p : path),
  apply_writes ws m !! p
  = match last_write p ws with
    | Some data => Some (File data)
    | None => m !! p
    end.
Proof.
  induction ws as [|[o data] rest IH]; intros m p; [reflexivity|].
  cbn [apply_writes last_write]. rewrite IH.
  destruct (last_write p rest); [reflexivity|].
  destruct (decide (o = p)) as [->|Hne].
  - apply lookup_insert_eq.
  - apply lookup_insert_ne. exact Hne.
Qed.

(** Writing the same list of files a second time changes nothing. *)
Lemma apply_writes_idem (ws : list (path * list Byte.byte))
    (m : gmap path node) :
  apply_writes ws (apply_writes ws m) = apply_writes ws m.
Proof.
  apply map_eq. intros p. rewrite !lookup_apply_writes.
  destruct (last_write p ws); reflexivity.
Qed.

Lemma endswith_app (t x : str) : endswith t (x ++ t) = true.
Proof.
  unfold endswith, str_eqb. apply bool_decide_eq_true.
  rewrite length_app. replace (length x + length t - length t)%nat
    with (length x) by lia.
  apply drop_app_length.
Qed.

Lemma sub_not_srt (s : str) :
  endswith (py ".sub") s = true -> endswith (py ".srt") s = false.
Proof.
  unfold endswith, str_eqb. intros Hsub. apply bool_decide_eq_true in Hsub.
  apply bool_decide_eq_false. change (length (py ".srt")) with (length (py ".sub")).
  rewrite Hsub. discriminate.
Qed.

Lemma name_srt_path sub d : name (srt_path sub d) = stem sub ++ py ".srt".
Proof. unfold name, srt_path. apply last_last. Qed.

Lemma is_dir_true (m : gmap path node) p :
  is_dir m p = true <-> m !! p = Some Dir.
Proof.
  unfold is_dir. destruct (m !! p) as [[|]|]; split; congruence.
Qed.

Lemma same_inputs_refl m : same_inputs m m.
Proof. split; reflexivity. Qed.

Lemma same_inputs_insert m m0 o data :
  same_inputs m m0 -> endswith (py ".srt") (name o) = true ->
  is_dir m0 o = false -> same_inputs (<[o := File data]> m) m0.
Proof.
  intros [Hdirs Hrest] Hsrt Hnodir. split.
  - intros p. unfold is_dir at 1. destruct (decide (o = p)) as [<-|Hne].
    + rewrite lookup_insert_eq. symmetry. exact Hnodir.
    + rewrite lookup_insert_ne by assumption. apply Hdirs.
  - intros p Hp. rewrite lookup_insert_ne; [apply Hrest; exact Hp|].
    intros <-. congruence.
Qed.

Lemma ready_same_inputs out m m0 :
  ready out m0 -> same_inputs m m0 -> ready out m.
Proof.
  destruct out as [d|]; [|trivial]. cbn [ready]. intros Hready [Hdirs _].
  eapply Forall_impl; [exact Hready|]. cbn beta. intros q Hq.
  apply is_dir_true. rewrite Hdirs. apply is_dir_true. exact Hq.
Qed.

Section BatchFacts.
Context {H : Host}.

Lemma read_sub_node_text sub w :
  node_text (fs w !! sub)
  = match fst (read_sub sub w) with
    | Ok content => Some content
    | Raise _ => None
    end.
Proof.
  unfold read_sub, try_except, read_text, node_text.
  destruct (fs w !! sub) as [[|data]|] eqn:E; try reflexivity;
    [|destruct (existsb _ _); reflexivity].
  destruct (decode utf_8 data); [reflexivity|].
  rewrite decode_exn_caught. cbn. rewrite E.
  destruct (decode gbk data); reflexivity.
Qed.

Lemma srt_text_loop content w :
  exists warnings,
    snd (for_blocks 1 (subtitle_blocks_of content) [] w)
    = World (fs w) (stdout w ++ warnings)
    /\ srt_text content
       = match fst (for_blocks 1 (subtitle_blocks_of content) [] w) with
         | Ok srt_content => Some (join [nl] srt_content)
         | Raise _ => None
         end.
Proof.
  destruct (for_blocks_world (subtitle_blocks_of content) 1 [])
    as (r & ws & E).
  exists ws. unfold srt_text. rewrite !E. split; reflexivity.
Qed.

(** The files after the body of the [try], whether it raised or not. *)
Lemma convert_body_fs sub d w :
  fs (snd (convert_body sub (srt_path sub d) w))
  = apply_write (planned_write (fs w) sub d) (fs w).
Proof.
  unfold convert_body, bind, planned_write.
  rewrite read_sub_node_text. pose proof (read_sub_world sub w) as Hw.
  destruct (read_sub sub w) as [[content|e] w1]; cbn [fst snd] in Hw |- *;
    subst w1; [|reflexivity].
  destruct (srt_text_loop content w) as (ws & E & Htext).
  rewrite Htext.
  destruct (for_blocks 1 (subtitle_blocks_of content) [] w) as [[entries|x] w1].
  - cbn [fst snd] in E |- *. subst w1.
    unfold write_text, print, is_dir. cbn [fs stdout].
    rewrite parent_srt_path.
    destruct (fs w !! srt_path sub d) as [[|]|];
      destruct (fs w !! d) as [[|]|]; reflexivity.
  - cbn [fst snd] in E |- *. subst w1. reflexivity.
Qed.

Lemma convert_single_fs sub out w d w0 :
  resolve_output_dir sub out w = (Ok d, w0) ->
  fst (convert_single_sub_to_srt sub out w) = Ok tt
  /\ fs (snd (convert_single_sub_to_srt sub out w))
     = apply_write (planned_write (fs w0) sub d) (fs w0).
Proof.
  intros Hres. rewrite (convert_single_resolved _ _ _ _ _ Hres).
  rewrite <- convert_body_fs.
  destruct (convert_body sub (srt_path sub d) w0) as [[[]|e] w']; split;
    reflexivity.
Qed.

Lemma resolve_ready sub out w :
  ready out (fs w) ->
  resolve_output_dir sub out w = (Ok (out_dir out sub), w).
Proof.
  destruct out as [d|]; [|reflexivity]. cbn [ready]. intros Hready.
  unfold resolve_output_dir, bind. rewrite makedirs_again by assumption.
  reflexivity.
Qed.

Lemma planned_write_harmless m sub d o data :
  planned_write m sub d = Some (o, data) ->
  endswith (py ".srt") (name o) = true /\ is_dir m o = false.
Proof.
  unfold planned_write. destruct (node_text (m !! sub)); [|discriminate].
  destruct (srt_text l); [|discriminate].
  destruct (is_dir m (srt_path sub d)) eqn:Ho; [discriminate|].
  destruct (negb (is_dir m d)); [discriminate|]. intros [= <- _].
  split; [|exact Ho]. rewrite name_srt_path. apply endswith_app.
Qed.

Lemma planned_write_same m m' sub d :
  same_inputs m m' -> endswith (py ".srt") (name sub) = false ->
  planned_write m sub d = planned_write m' sub d.
Proof.
  intros [Hdirs Hrest] Hsub. unfold planned_write.
  rewrite (Hrest sub Hsub), !Hdirs. reflexivity.
Qed.

Lemma ready_apply_write out m sub d :
  ready out m -> ready out (apply_write (planned_write m sub d) m).
Proof.
  intros Hready. destruct (planned_write m sub d) as [[o data]|] eqn:Hw;
    [|exact Hready].
  destruct (planned_write_harmless _ _ _ _ _ Hw) as [Hsrt Hnodir].
  eapply ready_same_inputs; [exact Hready|].
  apply same_inputs_insert; [apply same_inputs_refl|assumption..].
Qed.

(** With the output directory in place the loop over the files never
    raises, and its effect on the files is [run_files]. *)
Lemma for_files_fs out files : forall w,
  ready out (fs w) ->
  fst (for_files files out w) = Ok tt
  /\ fs (snd (for_files files out w)) = run_files out files (fs w).
Proof.
  induction files as [|sub rest IH]; intros w Hready; [split; reflexivity|].
  cbn [for_files run_files]. unfold bind.
  destruct (convert_single_fs sub out w _ _ (resolve_ready sub out w Hready))
    as [Hok Hfs].
  destruct (convert_single_sub_to_srt sub out w) as [r w1].
  cbn [fst snd] in Hok, Hfs. subst r. rewrite <- Hfs. apply IH.
  rewrite Hfs. apply ready_apply_write. exact Hready.
Qed.

(** The writes of a run, computed on the file system it starts from. *)
Lemma run_files_writes out m0 files : forall m,
  same_inputs m m0 ->
  Forall (fun sub => endswith (py ".srt") (name sub) = false) files ->
  run_files out files m
  = apply_writes
      (omap (fun sub => planned_write m0 sub (out_dir out sub)) files) m
  /\ same_inputs (run_files out files m) m0.
Proof.
  induction files as [|sub rest IH]; intros m Hsame Hnames;
    [split; [reflexivity|exact Hsame]|].
  apply Forall_cons in Hnames as [Hsub Hrest].
  cbn [run_files omap list_omap].
  rewrite (planned_write_same m m0 sub _ Hsame Hsub).
  destruct (planned_write m0 sub (out_dir out sub)) as [[o data]|] eqn:Hw.
  - destruct (planned_write_harmless _ _ _ _ _ Hw) as [Hsrt Hnodir].
    cbn [apply_write apply_writes]. apply IH; [|exact Hrest].
    apply same_inputs_insert; assumption.
  - cbn [apply_write]. apply IH; assumption.
Qed.

Lemma run_files_idem out files m :
  Forall (fun sub => endswith (py ".srt") (name sub) = false) files ->
  run_files out files (run_files out files m) = run_files out files m
  /\ same_inputs (run_files out files m) m.
Proof.
  intros Hnames.
  destruct (run_files_writes out m files m (same_inputs_refl m) Hnames)
    as [E1 Hsame].
  destruct (run_files_writes out m files _ Hsame Hnames) as [E2 _].
  split; [|exact Hsame]. rewrite E2. rewrite E1 at 1 2.
  apply apply_writes_idem.
Qed.

Lemma glob_sub_names m input :
  Forall (fun sub => endswith (py ".srt") (name sub) = false)
         (glob_sub m input).
Proof.
  apply Forall_forall. intros sub Hin. unfold glob_sub in Hin.
  apply list_elem_of_In, filter_In in Hin as [_ Hsub].
  apply sub_not_srt. exact Hsub.
Qed.

Lemma is_dir_not_file (m : gmap path node) p :
  is_dir m p = true -> is_file m p = false.
Proof. unfold is_dir, is_file. destruct (m !! p) as [[|]|]; congruence. Qed.

(** The batch on a directory. *)
Lemma batch_on_directory input out w :
  is_dir (fs w) input = true ->
  batch_convert_sub_to_srt input out w
  = match glob_sub (fs w) input with
    | [] => print (py "⚠️ 未找到任何.sub文件：" ++ path_str input) w
    | sub_files =>
      for_files sub_files out
        (World (fs w)
               (stdout w
                ++ [py "📁 找到 " ++ str_of_nat (length sub_files)
                    ++ py " 个Sub文件，开始批量转换..."]))
    end.
Proof.
  intros Hdir. unfold batch_convert_sub_to_srt.
  rewrite (is_dir_not_file _ _ Hdir), Hdir. cbn [andb].
  destruct (glob_sub (fs w) input); reflexivity.
Qed.

Lemma for_files_raise sub rest out w e w1 :
  resolve_output_dir sub out w = (Raise e, w1) ->
  for_files (sub :: rest) out w = (Raise e, w1).
Proof.
  intros Hres. cbn [for_files]. unfold bind at 1.
  unfold convert_single_sub_to_srt, bind. rewrite Hres. reflexivity.
Qed.

Lemma resolve_raise sub out w e w1 :
  resolve_output_dir sub out w = (Raise e, w1) ->
  w1 = w
  /\ forall w', fs w' = fs w -> resolve_output_dir sub out w' = (Raise e, w').
Proof.
  unfold resolve_output_dir. destruct out as [d|]; [|discriminate].
  unfold bind, makedirs.
  destruct (find (is_file (fs w)) (prefixes d)) as [q|] eqn:Hfind;
    [|discriminate].
  intros [= <- <-]. split; [reflexivity|]. intros w' Hfs.
  rewrite Hfs, Hfind. reflexivity.
Qed.

(** The first conversion makes the output directory; from the world in
    which it is made the loop runs the same. *)
Lemma for_files_resolved sub rest out w d w0 :
  resolve_output_dir sub out w = (Ok d, w0) ->
  ready out (fs w0)
  /\ for_files (sub :: rest) out w = for_files (sub :: rest) out w0.
Proof.
  intros Hres.
  assert (Hready : ready out (fs w0)).
  { unfold resolve_output_dir in Hres. destruct out as [d'|]; [|exact I].
    unfold bind in Hres. destruct (makedirs d' w) as [[[]|e] w1] eqn:Hmk;
      [|discriminate].
    injection Hres as <- <-. apply (makedirs_ok _ _ _ Hmk). }
  split; [exact Hready|].
  assert (Hd : d = out_dir out sub).
  { destruct (resolve_output_dir_ok _ _ _ _ _ Hres) as (_ & _ & _ & Hout).
    destruct out; cbn [out_dir]; tauto. }
  assert (Hsame : convert_single_sub_to_srt sub out w
                  = convert_single_sub_to_srt sub out w0).
  { rewrite (convert_single_resolved _ _ _ _ _ Hres).
    rewrite (convert_single_resolved _ _ _ _ _
               (resolve_ready sub out w0 Hready)).
    rewrite Hd. reflexivity. }
  cbn [for_files]. unfold bind. rewrite Hsame. reflexivity.
Qed.

Lemma planned_write_no_file m sub d :
  is_file m sub = false -> planned_write m sub d = None.
Proof.
  unfold is_file, planned_write, node_text.
  destruct (m !! sub) as [[|data]|]; try reflexivity. discriminate.
Qed.

Lemma omap_planned_files (m0 : gmap path node) out files :
  omap (fun sub => planned_write m0 sub (out_dir out sub)) files
  = omap (fun sub => planned_write m0 sub (out_dir out sub))
         (List.filter (is_file m0) files).
Proof.
  induction files as [|sub rest IH]; [reflexivity|].
  cbn [omap list_omap List.filter].
  destruct (is_file m0 sub) eqn:Hf.
  - cbn [omap list_omap]. rewrite IH. reflexivity.
  - rewrite (planned_write_no_file _ _ _ Hf). exact IH.
Qed.

(** C9: on a directory, a second run of the batch with the same
    arguments leaves every file as the first run left it, and ends as the
    first did: each destination is written anew with the same bytes, the
    conversion being a function of the input files, which no run changes.
    The platform is taken to list the tree in a stable way; the second
    run may well find more than the first, such as an output directory
    named [*.sub] that the first run made. *)
Theorem C9_second_run_changes_nothing (input_path : path)
    (output_dir : option path) (w : world) :
  listing_stable input_path ->
  is_dir (fs w) input_path = true ->
  let first := batch_convert_sub_to_srt input_path output_dir w in
  let second := batch_convert_sub_to_srt input_path output_dir (snd first) in
  fs (snd second) = fs (snd first) /\ fst second = fst first.
Proof.
  intros Hstable Hdir first second. subst first second.
  rewrite (batch_on_directory _ _ _ Hdir).
  pose proof (glob_sub_names (fs w) input_path) as Hnames.
  destruct (glob_sub (fs w) input_path) as [|sub rest] eqn:Hfiles.
  - cbn [print snd fs].
    rewrite batch_on_directory by exact Hdir. cbn [fs]. rewrite Hfiles.
    split; reflexivity.
  - cbv zeta.
    set (w1 := World (fs w) (stdout w ++ [_])) in *.
    destruct (resolve_output_dir sub output_dir w1) as [[d|e] w0] eqn:Hres.
    + destruct (for_files_resolved sub rest output_dir w1 d w0 Hres)
        as [Hready Hrun].
      rewrite Hrun.
      destruct (for_files_fs output_dir (sub :: rest) w0 Hready) as [Hok Hfs].
      destruct (run_files_writes output_dir (fs w0) (sub :: rest) (fs w0)
                  (same_inputs_refl _) Hnames) as [Hwrites Hsame].
      destruct (resolve_output_dir_ok _ _ _ _ _ Hres)
        as (_ & Hdirs0 & Hfiles0 & _).
      unfold w1 in Hdirs0, Hfiles0. cbn [fs] in Hdirs0, Hfiles0.
      set (m1 := run_files output_dir (sub :: rest) (fs w0)) in *.
      assert (Hdir1 : is_dir m1 input_path = true).
      { destruct Hsame as [Hdirs _]. rewrite Hdirs. apply Hdirs0, Hdir. }
      assert (Hsources : same_sources (fs w) m1).
      { intros p Hp data. destruct Hsame as [_ Hrest].
        rewrite (Hrest p Hp). apply Hfiles0. }
      rewrite batch_on_directory by (rewrite Hfs; exact Hdir1).
      rewrite Hfs, Hok.
      pose proof (glob_sub_names m1 input_path) as Hnames2.
      pose proof (Hstable (fs w) m1 Hsources) as Hfound.
      rewrite Hfiles in Hfound.
      destruct (glob_sub m1 input_path) as [|sub2 rest2] eqn:Hfiles2;
        [cbn [print snd fst fs]; split; [exact Hfs|reflexivity]|].
      cbv zeta.
      match goal with
      | |- context [for_files (sub2 :: rest2) output_dir (World ?m ?o)] =>
        destruct (for_files_fs output_dir (sub2 :: rest2) (World m o))
          as [Hok2 Hfs2]
      end.
      { cbn [fs]. eapply ready_same_inputs; eassumption. }
      cbn [fs] in Hfs2. rewrite Hfs2, Hok2. split; [|reflexivity].
      destruct (run_files_writes output_dir (fs w0) (sub2 :: rest2) m1
                  Hsame Hnames2) as [Hwrites2 _].
      rewrite Hwrites2.
      assert (Hsamew :
        omap (fun s => planned_write (fs w0) s (out_dir output_dir s))
             (sub2 :: rest2)
        = omap (fun s => planned_write (fs w0) s (out_dir output_dir s))
               (sub :: rest)).
      { rewrite (omap_planned_files (fs w0) output_dir (sub2 :: rest2)).
        rewrite (omap_planned_files (fs w0) output_dir (sub :: rest)).
        f_equal.
        transitivity (List.filter (is_file m1) (sub2 :: rest2)).
        - apply List.filter_ext_in. intros p Hp.
          destruct Hsame as [_ Hrest]. unfold is_file.
          rewrite (Hrest p); [reflexivity|].
          rewrite List.Forall_forall in Hnames2. apply Hnames2, Hp.
        - rewrite Hfound. apply List.filter_ext_in. intros p Hp.
          unfold is_file.
          destruct (fs w !! p) as [[|data]|] eqn:E.
          + destruct (fs w0 !! p) as [[|data0]|] eqn:E0; try reflexivity.
            apply Hfiles0 in E0. congruence.
          + apply Hfiles0 in E. rewrite E. reflexivity.
          + destruct (fs w0 !! p) as [[|data0]|] eqn:E0; try reflexivity.
            apply Hfiles0 in E0. congruence. }
      rewrite Hsamew, Hwrites.
      apply apply_writes_idem.
    + destruct (resolve_raise _ _ _ _ _ Hres) as [-> Hagain].
      rewrite (for_files_raise _ _ _ _ _ _ Hres).
      cbn [snd fst]. subst w1.
      rewrite batch_on_directory by exact Hdir. cbn [fs]. rewrite Hfiles.
      cbv zeta.
      match goal with
      | |- context [for_files (sub :: rest) output_dir ?w2] =>
        rewrite (for_files_raise sub rest output_dir w2 e w2 (Hagain w2 eq_refl))
      end.
      split; reflexivity.
Qed.
End BatchFacts.

(** ** The theorems at work on the concrete platform *)

Lemma C1_end_to_end_scenario_witness :
  convert_single_sub_to_srt (H := Posix.host) [py "a.sub"] None scenario_world
  = (Ok tt,
     World (<[ [py "a.srt"] := File (Posix.encode scenario_srt) ]>
              (fs scenario_world))
           [py "✅ 转换成功：a.sub → a.srt"]).
Proof.
  apply (C1_end_to_end_scenario (H := Posix.host) [py "a.sub"] None
           scenario_world scenario_world [] scenario_sub);
    try reflexivity.
  left. reflexivity.
Defined.

Lemma C2_whole_seconds_witness :
  format_time_str (py "00:00:27") = Ok (py "00:00:27" ++ py ",000").
Proof. apply C2_whole_seconds; reflexivity. Defined.

Lemma C3_fraction_truncated_and_padded_witness :
  format_time_str (py "00:00:11" ++ py "." ++ py "5000000")
  = Ok (py "00:00:11,500")
  /\ format_time_str (py "00:00:11" ++ py "." ++ py "9")
     = Ok (py "00:00:11,900")
  /\ format_time_str (py "00:00:11" ++ py "." ++ py "12")
     = Ok (py "00:00:11,120").
Proof.
  split; [|split].
  - refine (proj1 (C3_fraction_truncated_and_padded
                     (py "00:00:11") (py "5000000") eq_refl eq_refl _ eq_refl));
      discriminate.
  - refine (proj1 (C3_fraction_truncated_and_padded
                     (py "00:00:11") (py "9") eq_refl eq_refl _ eq_refl));
      discriminate.
  - refine (proj1 (C3_fraction_truncated_and_padded
                     (py "00:00:11") (py "12") eq_refl eq_refl _ eq_refl));
      discriminate.
Defined.

Lemma C7_bad_time_line_fails_file_witness :
  convert_single_sub_to_srt (H := Posix.host) [py "in"; py "bad.sub"] None
    mixed_world
  = (Ok tt,
     World (fs mixed_world)
           [py "❌ 转换失败 in/bad.sub：not enough values to unpack (expected 2, got 1)"])
  /\ for_files (H := Posix.host)
       [[py "in"; py "bad.sub"]; [py "in"; py "good.sub"]] None mixed_world
     = for_files (H := Posix.host) [[py "in"; py "good.sub"]] None
         (World (fs mixed_world)
                [py "❌ 转换失败 in/bad.sub：not enough values to unpack (expected 2, got 1)"]).
Proof.
  destruct (C7_bad_time_line_fails_file (H := Posix.host)
              [py "in"; py "bad.sub"] None [[py "in"; py "good.sub"]]
              mixed_world mixed_world [py "in"] no_comma_sub 0 no_comma_sub
              (py "00:00:01 00:00:03") (py "Hello")
              eq_refl eq_refl eq_refl eq_refl
              ltac:(vm_compute; discriminate))
    as (e & w' & j & bad & Hrun & Hfs & _ & Hout & Hj & _ & _ & _ & He & Hnext).
  assert (j = 0%nat) as -> by (destruct j; [reflexivity|inversion Hj]).
  rewrite (He eq_refl) in Hout. destruct w' as [m out].
  cbn [fs stdout] in Hfs, Hout. subst m out.
  split; [exact Hrun|exact Hnext].
Defined.

(** C4 as stated fails: ["1:2:3.4.5"] splits into exactly three [:]-parts,
    yet the formatter raises on it; and in a document the error is not a
    matter of the block: the file fails, nothing is written, the first
    (sound) block is lost with it and no block warning is printed. *)
Lemma C4_counterexample :
  length (split (chr ":") (py "1:2:3.4.5")) = 3%nat
  /\ format_time_str (py "1:2:3.4.5") = Raise (ValueError_unpack 2 3)
  /\ convert_single_sub_to_srt (H := Posix.host) [py "t.sub"] None
       (sub_world "t.sub" two_dots_sub)
     = (Ok tt,
        World (fs (sub_world "t.sub" two_dots_sub))
              [py "❌ 转换失败 t.sub：too many values to unpack (expected 2)"]).
Proof. vm_compute. repeat split; reflexivity. Qed.

Lemma C4_formatter_passes_components_through_witness :
  (exists hh mm ss ms,
     no_colon hh /\ no_colon mm /\ no_colon ss /\ no_colon ms
     /\ no_dot ss /\ no_dot ms
     /\ completed (py "7:5:x.25")
        = hh ++ py ":" ++ mm ++ py ":" ++ ss ++ py "." ++ ms
     /\ py "7:5:x,250"
        = hh ++ py ":" ++ mm ++ py ":" ++ ss ++ py ","
          ++ ljust 3 (chr "0") (firstn 3 ms))
  /\ (exists e, format_time_str (py "a.b:c:d") = Raise e)
  /\ exists e' warnings,
       convert_single_sub_to_srt (H := Posix.host) [py "t.sub"] None
         (sub_world "t.sub" two_dots_sub)
       = (Ok tt,
          World (fs (sub_world "t.sub" two_dots_sub))
                (stdout (sub_world "t.sub" two_dots_sub) ++ warnings
                 ++ [failure_msg (H := Posix.host) [py "t.sub"] e'])).
Proof.
  destruct (C4_formatter_passes_components_through (H := Posix.host))
    as (Hok & Hraise & Hfile).
  split; [|split].
  - apply (Hok (py "7:5:x.25") (py "7:5:x,250")). reflexivity.
  - apply (Hraise (py "a.b:c:d")). right.
    exists (py "a.b"), (py "c"), (py "d"). split; [reflexivity|].
    vm_compute. lia.
  - apply (Hfile [py "t.sub"] None (sub_world "t.sub" two_dots_sub)
             (sub_world "t.sub" two_dots_sub) [] two_dots_sub 1%nat
             (text ["1:2:3.4.5,00:00:07"; "Second line"]%string)
             (py "1:2:3.4.5,00:00:07") (py "Second line")
             (py "1:2:3.4.5") (py "00:00:07") (ValueError_unpack 2 3));
      try reflexivity.
    left. reflexivity.
Defined.

(** C5 as stated fails: the first block of the document has no newline
    and is skipped with its warning, but the second has a time line
    without a comma, so no output file is produced. *)
Lemma C5_counterexample :
  subtitle_blocks_of skipped_then_bad_sub !! 0%nat = Some (py "oops")
  /\ contains nl (py "oops") = false
  /\ exists w',
       convert_single_sub_to_srt (H := Posix.host) [py "c.sub"] None
         (sub_world "c.sub" skipped_then_bad_sub) = (Ok tt, w')
       /\ fs w' !! [py "c.srt"] = None
       /\ fs w' = fs (sub_world "c.sub" skipped_then_bad_sub)
       /\ stdout w'
          = [py "警告：第1个字幕块格式异常，跳过 → oops...";
             py "❌ 转换失败 c.sub：not enough values to unpack (expected 2, got 1)"].
Proof.
  split; [vm_compute; reflexivity|]. split; [reflexivity|].
  eexists. split; [vm_compute; reflexivity|].
  vm_compute. repeat split; reflexivity.
Qed.

Lemma C5_block_without_newline_skipped_witness :
  convert_single_sub_to_srt (H := Posix.host) [py "g.sub"] None
    (sub_world "g.sub" gap_sub)
  = (Ok tt,
     World (<[ [py "g.srt"] := File (Posix.encode gap_srt) ]>
              (fs (sub_world "g.sub" gap_sub)))
           [py "警告：第2个字幕块格式异常，跳过 → orphan line...";
            py "✅ 转换成功：g.sub → g.srt"]).
Proof.
  refine (proj1 (C5_block_without_newline_skipped (H := Posix.host)
                   [py "g.sub"] None (sub_world "g.sub" gap_sub)
                   (sub_world "g.sub" gap_sub) [] gap_sub
                   eq_refl eq_refl _ eq_refl eq_refl)).
  vm_compute. repeat constructor.
Defined.

Lemma C6_index_is_original_position_witness :
  exists idxs : list nat,
    Forall2 (fun i e =>
               exists block start_srt end_srt text,
                 (1 <= i)%nat
                 /\ subtitle_blocks_of gap_sub !! (i - 1)%nat = Some block
                 /\ block_verdict i block = Entry e
                 /\ e = str_of_nat i ++ [nl]
                        ++ start_srt ++ py " --> " ++ end_srt ++ [nl]
                        ++ text ++ [nl])
            idxs
            [text ["1"; "00:00:01,000 --> 00:00:03,000"; "One"; ""]%string;
             text ["3"; "00:00:05,000 --> 00:00:07,000"; "Three"; ""]%string]
    /\ StronglySorted lt idxs.
Proof.
  apply (C6_index_is_original_position gap_sub (World ∅ [])
           (World ∅ [py "警告：第2个字幕块格式异常，跳过 → orphan line..."])).
  vm_compute. reflexivity.
Defined.

Lemma C10_empty_output_is_written_witness :
  (exists warnings,
     convert_single_sub_to_srt (H := Posix.host) [py "e.sub"] None
       (sub_world "e.sub" blank_sub)
     = (Ok tt,
        World (<[ [py "e.srt"] := File [] ]> (fs (sub_world "e.sub" blank_sub)))
              (stdout (sub_world "e.sub" blank_sub) ++ warnings
               ++ [py "✅ 转换成功：e.sub → e.srt"])))
  /\ exists warnings,
       convert_single_sub_to_srt (H := Posix.host) [py "o.sub"] None
         (sub_world "o.sub" one_line_sub)
       = (Ok tt,
          World (<[ [py "o.srt"] := File [] ]>
                   (fs (sub_world "o.sub" one_line_sub)))
                (stdout (sub_world "o.sub" one_line_sub) ++ warnings
                 ++ [py "✅ 转换成功：o.sub → o.srt"])).
Proof.
  split.
  - apply (C10_empty_output_is_written (H := Posix.host) [py "e.sub"] None
             (sub_world "e.sub" blank_sub) (sub_world "e.sub" blank_sub) []
             blank_sub); try reflexivity.
    left. reflexivity.
  - apply (C10_empty_output_is_written (H := Posix.host) [py "o.sub"] None
             (sub_world "o.sub" one_line_sub) (sub_world "o.sub" one_line_sub)
             [] one_line_sub); try reflexivity.
    right. vm_compute. repeat constructor.
Defined.

(** C8 fails on the code: [os.makedirs] runs before the [try], so when the
    output directory names a regular file its error leaves the converter,
    and the batch stops before any file is converted or reported. *)
Theorem C8_makedirs_error_escapes :
  convert_single_sub_to_srt (H := Posix.host) [py "in"; py "b.sub"]
    (Some [py "out"]) blocked_world
  = (Raise (FileExistsError [py "out"]), blocked_world)
  /\ glob_sub (H := Posix.host) (fs blocked_world) [py "in"]
     = [[py "in"; py "b.sub"]; [py "in"; py "a.sub"]]
  /\ batch_convert_sub_to_srt (H := Posix.host) [py "in"] (Some [py "out"])
       blocked_world
     = (Raise (FileExistsError [py "out"]),
        World (fs blocked_world)
              [py "📁 找到 2 个Sub文件，开始批量转换..."]).
Proof. vm_compute. repeat split; reflexivity. Qed.

(** The ordered platform lists in a stable way. *)
Lemma before_trans : Transitive Ordered.before.
Proof. intros p q r. unfold Ordered.before. lia. Qed.

Lemma before_total : Total Ordered.before.
Proof. intros p q. unfold Ordered.before. lia. Qed.

Lemma before_antisym : AntiSymm (=) Ordered.before.
Proof.
  intros p q Hpq Hqp. unfold Ordered.before in *.
  apply (inj countable.encode). lia.
Qed.

Lemma StronglySorted_List_filter {A} (R : relation A) (f : A -> bool) l :
  StronglySorted R l -> StronglySorted R (List.filter f l).
Proof.
  induction 1 as [|x l Hl IH Hx]; cbn [List.filter]; [constructor|].
  destruct (f x); [|exact IH]. constructor; [exact IH|].
  apply List.Forall_forall. intros y Hy. apply List.filter_In in Hy as [Hy _].
  rewrite List.Forall_forall in Hx. auto.
Qed.

Lemma same_sources_is_file m m' p :
  same_sources m m' -> endswith (py ".sub") (name p) = true ->
  is_file m' p = is_file m p.
Proof.
  intros Hsame Hsub. specialize (Hsame p (sub_not_srt _ Hsub)).
  unfold is_file.
  destruct (m' !! p) as [[|data']|] eqn:E';
    destruct (m !! p) as [[|data]|] eqn:E; try reflexivity;
    try (pose proof (proj2 (Hsame _) eq_refl) as X; discriminate X);
    try (pose proof (proj1 (Hsame _) eq_refl) as X; discriminate X).
Qed.

Lemma ordered_found_sorted m d :
  StronglySorted Ordered.before
    (List.filter (is_file m) (glob_sub (H := Ordered.host) m d))
  /\ NoDup (List.filter (is_file m) (glob_sub (H := Ordered.host) m d))
  /\ forall p, In p (List.filter (is_file m) (glob_sub (H := Ordered.host) m d))
               <-> is_file m p = true
                   /\ endswith (py ".sub") (name p) = true
                   /\ Posix.is_below d p = true.
Proof.
  unfold glob_sub. cbn [scan Ordered.host]. unfold Ordered.scan.
  pose proof before_trans. pose proof before_total.
  split; [|split].
  - do 2 apply StronglySorted_List_filter. apply StronglySorted_merge_sort; assumption.
  - apply NoDup_ListNoDup. do 2 apply List.NoDup_filter. apply NoDup_ListNoDup.
    rewrite merge_sort_Permutation. unfold Posix.scan.
    apply NoDup_ListNoDup. apply List.NoDup_filter. apply NoDup_ListNoDup.
    apply (NoDup_fst_map_to_list m).
  - intros p. rewrite !List.filter_In.
    rewrite <- list_elem_of_In, merge_sort_Permutation, list_elem_of_In.
    unfold Posix.scan. rewrite List.filter_In. split.
    + intros [[[_ Hb] Hs] Hf]. auto.
    + intros (Hf & Hs & Hb). repeat split; try assumption.
      unfold is_file in Hf. destruct (m !! p) as [[|data]|] eqn:E; try discriminate.
      apply list_elem_of_In. change (p ∈ (map_to_list m).*1).
      apply list_elem_of_fmap. exists (p, File data). split; [reflexivity|].
      apply elem_of_map_to_list. exact E.
Qed.

Lemma ordered_listing_stable input_path :
  listing_stable (H := Ordered.host) input_path.
Proof.
  intros m m' Hsame.
  destruct (ordered_found_sorted m input_path) as (Hs & Hn & He).
  destruct (ordered_found_sorted m' input_path) as (Hs' & Hn' & He').
  pose proof before_antisym.
  apply (StronglySorted_unique Ordered.before); try assumption.
  apply NoDup_Permutation; try assumption.
  intros p. rewrite !list_elem_of_In, He, He'. split.
  - intros (Hf & Hsub & Hb). rewrite (same_sources_is_file m m' p Hsame Hsub) in Hf. auto.
  - intros (Hf & Hsub & Hb). rewrite (same_sources_is_file m m' p Hsame Hsub). auto.
Qed.

Lemma C9_second_run_changes_nothing_witness :
  (fs (snd (batch_convert_sub_to_srt (H := Ordered.host) [py "in"]
              (Some [py "in"; py "out.sub"])
              (snd (batch_convert_sub_to_srt (H := Ordered.host) [py "in"]
                      (Some [py "in"; py "out.sub"]) twin_world))))
   = fs (snd (batch_convert_sub_to_srt (H := Ordered.host) [py "in"]
                (Some [py "in"; py "out.sub"]) twin_world))
   /\ fst (batch_convert_sub_to_srt (H := Ordered.host) [py "in"]
            (Some [py "in"; py "out.sub"])
            (snd (batch_convert_sub_to_srt (H := Ordered.host) [py "in"]
                    (Some [py "in"; py "out.sub"]) twin_world)))
      = fst (batch_convert_sub_to_srt (H := Ordered.host) [py "in"]
               (Some [py "in"; py "out.sub"]) twin_world))
  /\ length (glob_sub (H := Ordered.host) (fs twin_world) [py "in"]) = 2%nat
  /\ length (glob_sub (H := Ordered.host)
               (fs (snd (batch_convert_sub_to_srt (H := Ordered.host) [py "in"]
                           (Some [py "in"; py "out.sub"]) twin_world)))
               [py "in"]) = 3%nat.
Proof.
  split.
  - exact (C9_second_run_changes_nothing (H := Ordered.host) [py "in"] (Some [py "in"; py "out.sub"])
             twin_world (ordered_listing_stable _) eq_refl).
  - vm_compute. split; reflexivity.
Defined.

(** * Further properties of the code *)

(** ** The time formatter *)

Lemma contains_firstn c n (s : str) :
  contains c s = false -> contains c (firstn n s) = false.
Proof.
  revert n. induction s as [|x r IH]; intros [|n] Hc; try reflexivity.
  rewrite contains_cons in Hc. apply orb_false_iff in Hc as [Hx Hr].
  cbn [firstn]. rewrite contains_cons, Hx. cbn [orb]. auto.
Qed.

Lemma contains_repeat c x n :
  (c =? x) = false -> contains c (repeat x n) = false.
Proof.
  intros Hx. induction n as [|n IH]; [reflexivity|].
  cbn [repeat]. rewrite contains_cons, Hx. exact IH.
Qed.

Lemma contains_ljust c x n (s : str) :
  contains c s = false -> (c =? x) = false ->
  contains c (ljust n x s) = false.
Proof.
  intros Hs Hx. unfold ljust.
  rewrite contains_app, Hs, contains_repeat by assumption. reflexivity.
Qed.

Lemma length_ljust_firstn_3 (ms : str) :
  length (ljust 3 (chr "0") (firstn 3 ms)) = 3%nat.
Proof.
  unfold ljust. rewrite length_app, repeat_length, length_firstn. lia.
Qed.

Lemma format_time_str_three_fields (time_str r : str) :
  format_time_str time_str = Ok r -> length (split (chr ":") r) = 3%nat.
Proof.
  intros Hr. apply format_time_str_Ok_iff in Hr
    as (hh & mm & ss & ms & Hh & Hm & Hs & Hf & _ & _ & _ & Hr).
  subst r. change (py ":") with [chr ":"]. cbn [app].
  rewrite split_app_sep by exact Hh. rewrite split_app_sep by exact Hm.
  rewrite split_no_sep; [reflexivity|].
  rewrite !contains_app, Hs.
  rewrite contains_ljust; [reflexivity| |reflexivity].
  apply contains_firstn. exact Hf.
Qed.

(** X1. Whatever the formatter returns has three [:]-separated fields and
    ends with a comma followed by exactly three characters, none of them a
    [:] or a [.]. *)
Theorem format_time_str_result_shape (time_str r : str) :
  format_time_str time_str = Ok r ->
  exists body mmm,
    r = body ++ py "," ++ mmm
    /\ length mmm = 3%nat
    /\ no_colon mmm /\ no_dot mmm
    /\ length (split (chr ":") r) = 3%nat.
Proof.
  intros Hr. pose proof (format_time_str_three_fields _ _ Hr) as Hfields.
  apply format_time_str_Ok_iff in Hr
    as (hh & mm & ss & ms & Hh & Hm & Hs & Hf & Hsd & Hfd & _ & Hr).
  subst r. set (mmm := ljust 3 (chr "0") (firstn 3 ms)).
  assert (Hmc : no_colon mmm)
    by (apply contains_ljust; [apply contains_firstn; exact Hf|reflexivity]).
  assert (Hmd : no_dot mmm)
    by (apply contains_ljust; [apply contains_firstn; exact Hfd|reflexivity]).
  exists (hh ++ py ":" ++ mm ++ py ":" ++ ss), mmm.
  split; [rewrite <- !app_assoc; reflexivity|].
  split; [apply length_ljust_firstn_3|]. split; [exact Hmc|]. split; [exact Hmd|].
  exact Hfields.
Qed.

Lemma format_time_str_result_shape_witness :
  exists body mmm,
    py "7:5:x,250" = body ++ py "," ++ mmm
    /\ length mmm = 3%nat
    /\ no_colon mmm /\ no_dot mmm
    /\ length (split (chr ":") (py "7:5:x,250")) = 3%nat.
Proof.
  apply (format_time_str_result_shape (py "7:5:x.25")). reflexivity.
Defined.

(** The formatter on [HH:MM:SS.F], for any fraction without [:] and [.]. *)
Lemma format_time_str_fraction time_str F :
  length (split (chr ":") time_str) = 3%nat ->
  contains (chr ".") time_str = false ->
  no_colon F -> no_dot F ->
  format_time_str (time_str ++ py "." ++ F)
  = Ok (time_str ++ py "," ++ ljust 3 (chr "0") (firstn 3 F)).
Proof.
  intros Hlen Hdot HFc HFd.
  destruct (three_parts_inv _ Hlen) as (hh & mm & ss & E & Hh & Hm & Hs).
  subst time_str. apply no_dot_parts in Hdot. rewrite <- !app_assoc.
  apply format_time_str_shape; assumption.
Qed.

(** Text without the separator, appended to a string, goes to the last
    part. *)
Lemma split_app_tail sep (s G : str) :
  contains sep G = false ->
  exists init lst,
    split sep s = init ++ [lst] /\ split sep (s ++ G) = init ++ [lst ++ G].
Proof.
  intros HG. induction s as [|c r (init & lst & E & EG)].
  - exists [], []. split; [reflexivity|]. apply split_no_sep. exact HG.
  - cbn [app split]. rewrite E, EG. destruct (c =? sep).
    + exists ([] :: init), lst. split; reflexivity.
    + destruct init as [|i0 init].
      * exists [], (c :: lst). split; reflexivity.
      * exists ((c :: i0) :: init), lst. split; reflexivity.
Qed.

Lemma split_at_sep sep (a b : str) :
  split sep (a ++ sep :: b) = split sep a ++ split sep b.
Proof.
  induction a as [|c r IH]; cbn [app split].
  - rewrite N.eqb_refl. reflexivity.
  - rewrite IH. destruct (c =? sep); [reflexivity|].
    destruct (split sep r) as [|p0 ps] eqn:E; [|reflexivity].
    exfalso. exact (split_not_nil _ _ E).
Qed.

(** X2. Only the first three characters of the fraction count: when the
    text after the last [.] has at least three characters and neither a
    [:] nor a [.], whatever is appended to it, short of a [:] or a [.],
    never changes the outcome, be it a result or an error, whatever
    stands before that [.]. *)
Theorem fraction_beyond_third_ignored (time_str F G : str) :
  no_colon F -> no_dot F -> no_colon G -> no_dot G ->
  (3 <= length F)%nat ->
  format_time_str (time_str ++ py "." ++ F ++ G)
  = format_time_str (time_str ++ py "." ++ F).
Proof.
  intros HFc HFd HGc HGd Hlong. unfold format_time_str.
  assert (Hdot : forall X, contains (chr ".") (time_str ++ py "." ++ X) = true).
  { intros X. rewrite contains_app. change (py "." ++ X) with (chr "." :: X).
    rewrite contains_cons, N.eqb_refl. apply orb_true_r. }
  rewrite !Hdot. cbn [negb].
  destruct (split_app_tail (chr ":") time_str (py "." ++ F ++ G))
    as (init & lst & E & EG).
  { change (py "." ++ F ++ G) with (chr "." :: F ++ G).
    rewrite contains_cons, contains_app, HFc, HGc. reflexivity. }
  destruct (split_app_tail (chr ":") time_str (py "." ++ F))
    as (init' & lst' & E' & EF).
  { change (py "." ++ F) with (chr "." :: F).
    rewrite contains_cons, HFc. reflexivity. }
  rewrite E in E'. apply app_inj_tail in E' as [<- <-].
  rewrite EG, EF. clear E EG EF Hdot.
  destruct init as [|hh [|mm [|x init]]]; try reflexivity.
  - cbn [app]. change (py "." ++ F ++ G) with (chr "." :: F ++ G).
    change (py "." ++ F) with (chr "." :: F). rewrite !split_at_sep.
    rewrite (split_no_sep (chr ".") F HFd).
    rewrite (split_no_sep (chr ".") (F ++ G))
      by (rewrite contains_app, HFd, HGd; reflexivity).
    destruct (split (chr ".") lst) as [|ss [|y q]]; try reflexivity.
    + cbn [app]. rewrite firstn_app.
      replace (3 - length F)%nat with 0%nat by lia.
      cbn [firstn]. rewrite app_nil_r. reflexivity.
    + cbn [app]. destruct q; cbn [app length]; rewrite ?length_app;
        reflexivity.
  - cbn [app]. destruct init; cbn [app length]; rewrite ?length_app;
      reflexivity.
Qed.

Lemma fraction_beyond_third_ignored_witness :
  format_time_str (py "00:00:11" ++ py "." ++ py "123" ++ py "999")
  = format_time_str (py "00:00:11" ++ py "." ++ py "123")
  /\ format_time_str (py "00:11.5" ++ py "." ++ py "123" ++ py "999")
     = format_time_str (py "00:11.5" ++ py "." ++ py "123").
Proof.
  split; apply fraction_beyond_third_ignored; reflexivity.
Defined.

Lemma firstn_repeat_min (x : N) k n :
  firstn k (repeat x n) = repeat x (Nat.min k n).
Proof.
  revert n. induction k as [|k IH]; intros [|n]; try reflexivity.
  cbn [firstn repeat Nat.min]. rewrite IH. reflexivity.
Qed.

Lemma ljust_firstn_zeros (F : str) n :
  ljust 3 (chr "0") (firstn 3 (F ++ repeat (chr "0") n))
  = ljust 3 (chr "0") (firstn 3 F).
Proof.
  unfold ljust. rewrite firstn_app, firstn_repeat_min, !length_app.
  rewrite !length_firstn, repeat_length.
  rewrite <- app_assoc, <- repeat_app. do 2 f_equal. lia.
Qed.

(** X3. Zeros appended to the fraction never change the result, and a missing
    fraction is the same as an empty one. *)
Theorem fraction_trailing_zeros_ignored (time_str F : str) (n : nat) :
  length (split (chr ":") time_str) = 3%nat ->
  contains (chr ".") time_str = false ->
  no_colon F -> no_dot F ->
  format_time_str (time_str ++ py "." ++ F ++ repeat (chr "0") n)
  = format_time_str (time_str ++ py "." ++ F)
  /\ format_time_str (time_str ++ py ".") = format_time_str time_str.
Proof.
  intros Hlen Hdot HFc HFd. split.
  - rewrite !format_time_str_fraction; try assumption.
    + rewrite ljust_firstn_zeros. reflexivity.
    + unfold no_colon. rewrite contains_app, HFc.
      apply contains_repeat. reflexivity.
    + unfold no_dot. rewrite contains_app, HFd.
      apply contains_repeat. reflexivity.
  - rewrite (format_time_str_no_dot time_str) by assumption.
    rewrite <- (app_nil_r (time_str ++ py ".")), <- app_assoc.
    rewrite !format_time_str_fraction; try assumption; reflexivity.
Qed.

Lemma fraction_trailing_zeros_ignored_witness :
  format_time_str (py "00:00:11" ++ py "." ++ py "5" ++ repeat (chr "0") 6)
  = format_time_str (py "00:00:11" ++ py "." ++ py "5")
  /\ format_time_str (py "00:00:11" ++ py ".")
     = format_time_str (py "00:00:11").
Proof.
  apply (fraction_trailing_zeros_ignored (py "00:00:11") (py "5") 6);
    reflexivity.
Defined.

(** X4. The formatter is not idempotent: applied to a result of its own that
    holds no [.], it appends a second [,000]. *)
Theorem format_time_str_twice (time_str r : str) :
  format_time_str time_str = Ok r ->
  contains (chr ".") r = false ->
  format_time_str r = Ok (r ++ py ",000").
Proof.
  intros Hr Hdot.
  pose proof (format_time_str_three_fields _ _ Hr) as Hlen.
  destruct (three_parts_inv _ Hlen) as (hh & mm & ss & E & Hh & Hm & Hs).
  rewrite format_time_str_no_dot by assumption. subst r.
  apply no_dot_parts in Hdot. rewrite <- !app_assoc.
  rewrite format_time_str_shape; try assumption; reflexivity.
Qed.

Lemma format_time_str_twice_witness :
  format_time_str (py "00:00:27,000") = Ok (py "00:00:27,000" ++ py ",000").
Proof.
  apply (format_time_str_twice (py "00:00:27")); reflexivity.
Defined.

(** ** One file *)

(** The loop prints nothing but warnings. *)
Lemma for_blocks_warnings blocks : forall idx srt_content,
  exists r warnings,
    Forall is_warning warnings
    /\ forall w, for_blocks idx blocks srt_content w
                 = (r, World (fs w) (stdout w ++ warnings)).
Proof.
  induction blocks as [|b rest IH]; intros idx acc.
  - exists (Ok acc), []. split; [constructor|]. intros w. cbn.
    rewrite app_nil_r. destruct w; reflexivity.
  - destruct (block_verdict idx b) as [|e|x] eqn:Hv.
    + destruct (IH (S idx) acc) as (r & ws & Hws & E).
      exists r, (warning_msg idx b :: ws). split.
      * constructor; [exists idx, b; reflexivity|exact Hws].
      * intros w. rewrite for_blocks_cons, Hv, E. cbn [fs stdout].
        rewrite <- app_assoc. reflexivity.
    + destruct (IH (S idx) (acc ++ [e])) as (r & ws & Hws & E).
      exists r, ws. split; [exact Hws|].
      intros w. rewrite for_blocks_cons, Hv. apply E.
    + exists (Raise x), []. split; [constructor|].
      intros w. rewrite for_blocks_cons, Hv.
      rewrite app_nil_r. destruct w; reflexivity.
Qed.

Section OneFile.
Context {H : Host}.

(** The body of the [try] statement either runs to its end, having
    written the joined entries of the document to the destination and
    printed the success line, or raises having changed no file; either
    way it has printed block warnings only. *)
Lemma convert_body_cases sub o w0 :
  exists warnings,
    Forall is_warning warnings
    /\ ((exists content entries,
           fst (read_sub sub w0) = Ok content
           /\ for_blocks 1 (subtitle_blocks_of content) [] w0
              = (Ok entries, World (fs w0) (stdout w0 ++ warnings))
           /\ convert_body sub o w0
              = (Ok tt,
                 World (<[o := File (encode (join [nl] entries))]> (fs w0))
                       (stdout w0 ++ warnings ++ [success_msg sub o])))
        \/ (exists e,
              convert_body sub o w0
              = (Raise e, World (fs w0) (stdout w0 ++ warnings)))).
Proof.
  unfold convert_body, bind.
  pose proof (read_sub_world sub w0) as Hw.
  destruct (read_sub sub w0) as [[content|e] w1]; cbn [snd] in Hw; subst w1.
  - destruct (for_blocks_warnings (subtitle_blocks_of content) 1 [])
      as (r & ws & Hws & E).
    rewrite E. exists ws. split; [exact Hws|]. destruct r as [entries|x].
    + unfold write_text, print. cbn [fs stdout].
      destruct (fs w0 !! o) as [[|old]|];
        [ right; eexists; reflexivity | | ];
        (destruct (fs w0 !! parent o) as [[|]|];
         [ left; exists content, entries; cbn [fs stdout fst];
           rewrite <- app_assoc; repeat split; apply E
         | right; eexists; reflexivity
         | right; eexists; reflexivity ]).
    + right. eexists. reflexivity.
  - exists []. split; [constructor|]. right. exists e.
    rewrite app_nil_r. destruct w0. reflexivity.
Qed.

(** X5. Once the output directory is settled a conversion is all or nothing:
    it returns normally, and either the document was read, all its blocks
    gave their entries, the destination holds the encoding of these
    entries joined by newlines and the last line printed is the success
    line, with the two paths; or no file has changed and the last line is
    the failure line, with the input path and the text of the error that
    the body of the [try] raised. Before that line only block warnings are
    printed. *)
Theorem convert_single_all_or_nothing (sub_file_path : path)
    (output_dir : option path) (w w0 : world) (d : path) :
  resolve_output_dir sub_file_path output_dir w = (Ok d, w0) ->
  exists warnings w',
    convert_single_sub_to_srt sub_file_path output_dir w = (Ok tt, w')
    /\ Forall is_warning warnings
    /\ ((exists content entries,
           fst (read_sub sub_file_path w0) = Ok content
           /\ for_blocks 1 (subtitle_blocks_of content) [] w0
              = (Ok entries, World (fs w0) (stdout w0 ++ warnings))
           /\ fs w'
              = <[srt_path sub_file_path d
                  := File (encode (join [nl] entries))]> (fs w0)
           /\ stdout w'
              = stdout w ++ warnings
                ++ [py "✅ 转换成功：" ++ path_str sub_file_path ++ py " → "
                    ++ path_str (srt_path sub_file_path d)])
        \/ (exists e w1,
              convert_body sub_file_path (srt_path sub_file_path d) w0
              = (Raise e, w1)
              /\ fs w' = fs w0
              /\ stdout w'
                 = stdout w ++ warnings
                   ++ [py "❌ 转换失败 " ++ path_str sub_file_path ++ py "："
                       ++ exn_str e])).
Proof.
  intros Hres. rewrite (convert_single_resolved _ _ _ _ _ Hres).
  destruct (resolve_output_dir_ok _ _ _ _ _ Hres) as (Hout & _).
  destruct (convert_body_cases sub_file_path (srt_path sub_file_path d) w0)
    as (ws & Hws & [(content & entries & Hread & Hloop & E)|(e & E)]);
    rewrite E.
  - exists ws. eexists. split; [reflexivity|]. split; [exact Hws|].
    left. exists content, entries. cbn [fs stdout].
    repeat split; try assumption. rewrite Hout. reflexivity.
  - exists ws. eexists. split; [reflexivity|]. split; [exact Hws|].
    right. exists e. eexists. cbn [fs stdout]. rewrite Hout, <- app_assoc.
    repeat split; reflexivity.
Qed.

Lemma planned_write_path m sub d o data :
  planned_write m sub d = Some (o, data) -> o = srt_path sub d.
Proof.
  unfold planned_write. destruct (node_text (m !! sub)); [|discriminate].
  destruct (srt_text l); [|discriminate].
  destruct (is_dir m (srt_path sub d) || negb (is_dir m d)); [discriminate|].
  intros [= <- _]. reflexivity.
Qed.

(** The write of a conversion leaves every other path as it is, and
    keeps what is a directory a directory and what is a file a file. *)
Lemma apply_planned_write m sub d :
  let m' := apply_write (planned_write m sub d) m in
  (forall p, p <> srt_path sub d -> m' !! p = m !! p)
  /\ (forall p, is_dir m p = true -> is_dir m' p = true)
  /\ (forall p, is_file m p = true -> is_file m' p = true).
Proof.
  cbn zeta. destruct (planned_write m sub d) as [[o data]|] eqn:Hw;
    [|repeat split; auto].
  pose proof (planned_write_path _ _ _ _ _ Hw) as ->.
  destruct (planned_write_harmless _ _ _ _ _ Hw) as [_ Hnodir].
  cbn [apply_write]. split; [|split].
  - intros p Hp. apply lookup_insert_ne. congruence.
  - intros p Hp. destruct (decide (srt_path sub d = p)) as [<-|Hne];
      [congruence|].
    unfold is_dir. rewrite lookup_insert_ne by assumption. exact Hp.
  - intros p Hp. unfold is_file.
    destruct (decide (srt_path sub d = p)) as [<-|Hne].
    + rewrite lookup_insert_eq. reflexivity.
    + rewrite lookup_insert_ne by assumption. exact Hp.
Qed.

Lemma resolve_output_dir_dir sub out w d w0 :
  resolve_output_dir sub out w = (Ok d, w0) -> d = out_dir out sub.
Proof.
  intros Hres.
  destruct (resolve_output_dir_ok _ _ _ _ _ Hres) as (_ & _ & _ & Hout).
  destruct out; cbn [out_dir]; tauto.
Qed.

Lemma is_file_lookup (m : gmap path node) p :
  is_file m p = true <-> exists data, m !! p = Some (File data).
Proof.
  unfold is_file. destruct (m !! p) as [[|data]|]; split;
    try discriminate; try (intros [? [=]]); eauto.
Qed.

(** A conversion either resolves its output directory and then does the
    one write planned for it, or stops at the directory and leaves the
    world as it was. *)
Lemma convert_single_fs_cases sub out w :
  (exists w0,
      resolve_output_dir sub out w = (Ok (out_dir out sub), w0)
      /\ fs (snd (convert_single_sub_to_srt sub out w))
         = apply_write (planned_write (fs w0) sub (out_dir out sub)) (fs w0))
  \/ snd (convert_single_sub_to_srt sub out w) = w.
Proof.
  destruct (resolve_output_dir sub out w) as [[d|e] w0] eqn:Hres.
  - left. exists w0.
    destruct (convert_single_fs _ _ _ _ _ Hres) as [_ Hfs].
    pose proof (resolve_output_dir_dir _ _ _ _ _ Hres) as <-.
    split; [reflexivity|exact Hfs].
  - right. unfold convert_single_sub_to_srt, bind. rewrite Hres. cbn [snd].
    unfold resolve_output_dir in Hres. destruct out as [d|];
      [|discriminate].
    unfold bind in Hres. destruct (makedirs d w) as [[[]|x] w1] eqn:Hmk;
      [discriminate|].
    injection Hres as _ <-.
    destruct (makedirs_raise _ _ _ _ Hmk) as [-> _]. reflexivity.
Qed.

(** Making the output directory and then writing the destination keeps
    every other file, every directory and every file's kind. *)
Lemma resolved_write_frame sub out w w0 p :
  resolve_output_dir sub out w = (Ok (out_dir out sub), w0) ->
  let m' := apply_write (planned_write (fs w0) sub (out_dir out sub)) (fs w0) in
  (p <> srt_path sub (out_dir out sub) ->
   forall data, m' !! p = Some (File data) <-> fs w !! p = Some (File data))
  /\ (is_dir (fs w) p = true -> is_dir m' p = true)
  /\ (is_file (fs w) p = true -> is_file m' p = true).
Proof.
  intros Hres. cbn zeta.
  destruct (resolve_output_dir_ok _ _ _ _ _ Hres) as (_ & Hdirs & Hfiles & _).
  destruct (apply_planned_write (fs w0) sub (out_dir out sub))
    as (Hother & Hd & Hf).
  split; [|split].
  - intros Hp data. rewrite (Hother p Hp). apply Hfiles.
  - intros Hp. apply Hd, Hdirs, Hp.
  - intros Hp. apply Hf. apply is_file_lookup in Hp as [data Hp].
    apply is_file_lookup. exists data. apply Hfiles. exact Hp.
Qed.

(** X6. A conversion never changes, creates or removes a file other than its
    destination, and never removes a directory or turns one into a file:
    this holds whether it succeeds, fails or raises. *)
Theorem convert_single_touches_only_destination (sub_file_path : path)
    (output_dir : option path) (w : world) (p : path) :
  let w' := snd (convert_single_sub_to_srt sub_file_path output_dir w) in
  (p <> srt_path sub_file_path (out_dir output_dir sub_file_path) ->
   forall data, fs w' !! p = Some (File data) <-> fs w !! p = Some (File data))
  /\ (is_dir (fs w) p = true -> is_dir (fs w') p = true)
  /\ (is_file (fs w) p = true -> is_file (fs w') p = true).
Proof.
  cbn zeta.
  destruct (convert_single_fs_cases sub_file_path output_dir w)
    as [(w0 & Hres & ->)| ->].
  - exact (resolved_write_frame sub_file_path output_dir w w0 p Hres).
  - tauto.
Qed.

Lemma only_srt_written_refl m : only_srt_written m m.
Proof. intros p. tauto. Qed.

Lemma only_srt_written_trans m1 m2 m3 :
  only_srt_written m1 m2 -> only_srt_written m2 m3 ->
  only_srt_written m1 m3.
Proof.
  intros H12 H23 p. destruct (H12 p) as (Ha & Hb & Hc).
  destruct (H23 p) as (Ha' & Hb' & Hc'). split; [|split]; auto.
  intros Hp data. rewrite (Ha' Hp). apply Ha, Hp.
Qed.

Lemma convert_single_only_srt sub out w :
  only_srt_written (fs w) (fs (snd (convert_single_sub_to_srt sub out w))).
Proof.
  intros p.
  assert (Hframe :
    (p <> srt_path sub (out_dir out sub) ->
     forall data,
       fs (snd (convert_single_sub_to_srt sub out w)) !! p = Some (File data)
       <-> fs w !! p = Some (File data))
    /\ (is_dir (fs w) p = true ->
        is_dir (fs (snd (convert_single_sub_to_srt sub out w))) p = true)
    /\ (is_file (fs w) p = true ->
        is_file (fs (snd (convert_single_sub_to_srt sub out w))) p = true)).
  { destruct (convert_single_fs_cases sub out w) as [(w0 & Hres & ->)| ->].
    - exact (resolved_write_frame sub out w w0 p Hres).
    - tauto. }
  destruct Hframe as (Hother & Hd & Hf).
  split; [|split]; [|exact Hd|exact Hf].
  intros Hp. apply Hother. intros ->.
  rewrite name_srt_path, endswith_app in Hp. discriminate.
Qed.


(** X8. Encoding fallback: bytes that UTF-8 decodes are converted as that
    text, whatever GBK would make of them; bytes that only GBK decodes are
    converted as their GBK text; the output is written in UTF-8 either
    way. *)
Theorem gbk_is_read_when_utf8_fails (sub_file_path : path)
    (output_dir : option path) (w w0 : world) (d : path)
    (data : list Byte.byte) (content : str) (entries : list str) :
  resolve_output_dir sub_file_path output_dir w = (Ok d, w0) ->
  fs w0 !! sub_file_path = Some (File data) ->
  decode utf_8 data = Some content
  \/ (decode utf_8 data = None /\ decode gbk data = Some content) ->
  fst (for_blocks 1 (subtitle_blocks_of content) [] w0) = Ok entries ->
  is_dir (fs w0) (srt_path sub_file_path d) = false ->
  is_dir (fs w0) d = true ->
  fs (snd (convert_single_sub_to_srt sub_file_path output_dir w))
  = <[srt_path sub_file_path d := File (encode (join [nl] entries))]> (fs w0).
Proof.
  intros Hres Hnode Hdecode Hloop Ho Hd.
  assert (Hread : fst (read_sub sub_file_path w0) = Ok content).
  { unfold read_sub, try_except, read_text. rewrite Hnode.
    destruct Hdecode as [Hu|[Hu Hg]]; rewrite Hu; [reflexivity|].
    rewrite decode_exn_caught. cbn. rewrite Hnode, Hg. reflexivity. }
  destruct (for_blocks_world (subtitle_blocks_of content) 1 [])
    as (r & ws & E).
  rewrite E in Hloop. cbn [fst] in Hloop. subst r.
  rewrite (convert_single_success _ _ _ _ _ _ _ _ Hres Hread (E w0) Ho Hd).
  reflexivity.
Qed.

End OneFile.

(** ** The batch *)

Section Batch.
Context {H : Host}.

Lemma for_files_only_srt out files : forall w,
  only_srt_written (fs w) (fs (snd (for_files files out w))).
Proof.
  induction files as [|sub rest IH]; intros w; [apply only_srt_written_refl|].
  cbn [for_files]. unfold bind.
  pose proof (convert_single_only_srt sub out w) as Hstep.
  destruct (convert_single_sub_to_srt sub out w) as [[[]|e] w1];
    cbn [snd] in Hstep |- *; [|exact Hstep].
  eapply only_srt_written_trans; [exact Hstep|apply IH].
Qed.

(** X9. Whatever its arguments and however it ends, the batch writes files
    named [*.srt] only: every other file keeps its bytes, no other file
    appears, and nothing that was there is removed or changes kind. In
    particular no subtitle source is ever overwritten. *)
Theorem batch_only_writes_srt (input_path : path) (output_dir : option path)
    (w : world) :
  only_srt_written (fs w)
    (fs (snd (batch_convert_sub_to_srt input_path output_dir w))).
Proof.
  unfold batch_convert_sub_to_srt.
  destruct (is_file (fs w) input_path
            && str_eqb (lower (suffix input_path)) (py ".sub")).
  - apply convert_single_only_srt.
  - destruct (is_dir (fs w) input_path); [|apply only_srt_written_refl].
    cbv zeta. destruct (glob_sub (fs w) input_path) as [|sub rest];
      [apply only_srt_written_refl|].
    unfold bind at 1, print at 1.
    apply (for_files_only_srt output_dir (sub :: rest)
             (World (fs w) (stdout w ++ [_]))).
Qed.

Lemma resolve_raise_inv sub out w e w1 :
  resolve_output_dir sub out w = (Raise e, w1) ->
  w1 = w
  /\ exists d q,
       out = Some d /\ find (is_file (fs w)) (prefixes d) = Some q
       /\ e = (if bool_decide (q = d) then FileExistsError d
               else NotADirectoryError (firstn (S (length q)) d)).
Proof.
  unfold resolve_output_dir. destruct out as [d|]; [|discriminate].
  unfold bind, makedirs.
  destruct (find (is_file (fs w)) (prefixes d)) as [q|] eqn:Hfind;
    [|discriminate].
  intros [= <- <-]. split; [reflexivity|]. exists d, q. auto.
Qed.







Lemma makedirs_same_fs d w w2 :
  fs w2 = fs w ->
  fst (makedirs d w2) = fst (makedirs d w)
  /\ fs (snd (makedirs d w2)) = fs (snd (makedirs d w)).
Proof.
  intros Hfs. unfold makedirs. rewrite Hfs.
  destruct (find (is_file (fs w)) (prefixes d)); cbn [fst snd fs];
    auto.
Qed.

(** The bytes that a list of conversions leaves at a destination which
    only [sub] writes to. *)
Lemma last_write_unique out m sub files :
  (forall other, other ∈ files ->
     srt_path other (out_dir out other) = srt_path sub (out_dir out sub) ->
     other = sub) ->
  last_write (srt_path sub (out_dir out sub))
    (omap (fun f => planned_write m f (out_dir out f)) files)
  = if bool_decide (sub ∈ files)
    then snd <$> planned_write m sub (out_dir out sub)
    else None.
Proof.
  induction files as [|f rest IH]; intros Huniq; [reflexivity|].
  assert (Hrest : forall other, other ∈ rest ->
            srt_path other (out_dir out other)
            = srt_path sub (out_dir out sub) -> other = sub)
    by (intros other Hin; apply Huniq; right; exact Hin).
  specialize (IH Hrest). cbn [omap list_omap].
  destruct (decide (f = sub)) as [->|Hne].
  - rewrite (bool_decide_eq_true_2 (sub ∈ sub :: rest)) by left.
    destruct (planned_write m sub (out_dir out sub)) as [[o data]|] eqn:Hw.
    + pose proof (planned_write_path _ _ _ _ _ Hw) as ->.
      cbn [last_write]. rewrite IH.
      destruct (bool_decide (sub ∈ rest)); [reflexivity|].
      rewrite decide_True by reflexivity. reflexivity.
    + rewrite IH. destruct (bool_decide (sub ∈ rest)); reflexivity.
  - assert (Hmem : bool_decide (sub ∈ f :: rest) = bool_decide (sub ∈ rest)).
    { apply bool_decide_ext. rewrite elem_of_cons. split; [intros [?|?]|];
        [congruence|tauto|tauto]. }
    rewrite Hmem.
    destruct (planned_write m f (out_dir out f)) as [[o data]|] eqn:Hw;
      [|exact IH].
    pose proof (planned_write_path _ _ _ _ _ Hw) as ->.
    cbn [last_write]. rewrite IH. rewrite decide_False.
    + destruct (bool_decide (sub ∈ rest)); [|reflexivity].
      destruct (snd <$> planned_write m sub (out_dir out sub)); reflexivity.
    + intros Heq. apply Hne. apply Huniq; [left|exact Heq].
Qed.

Lemma run_files_destination out m sub files :
  Forall (fun f => endswith (py ".srt") (name f) = false) files ->
  In sub files ->
  (forall other, In other files ->
     srt_path other (out_dir out other) = srt_path sub (out_dir out sub) ->
     other = sub) ->
  run_files out files m !! srt_path sub (out_dir out sub)
  = apply_write (planned_write m sub (out_dir out sub)) m
      !! srt_path sub (out_dir out sub).
Proof.
  intros Hnames Hin Huniq.
  destruct (run_files_writes out m files m (same_inputs_refl m) Hnames)
    as [E _].
  rewrite E, lookup_apply_writes, (last_write_unique out m sub files).
  2:{ intros other Hother. apply Huniq, list_elem_of_In, Hother. }
  rewrite bool_decide_eq_true_2 by (apply list_elem_of_In; exact Hin).
  destruct (planned_write m sub (out_dir out sub)) as [[o data]|] eqn:Hw;
    [|reflexivity].
  pose proof (planned_write_path _ _ _ _ _ Hw) as ->.
  cbn [fmap option_fmap option_map snd apply_write].
  rewrite lookup_insert_eq. reflexivity.
Qed.

(** X13. Files of a batch do not influence one another: after the batch over
    a directory, a destination that only one of the files found maps to
    holds exactly what converting that file alone would have left there,
    whatever happened to the other files. *)
Theorem batch_destination_as_alone (input_path : path)
    (output_dir : option path) (w : world) (sub : path) :
  is_dir (fs w) input_path = true ->
  In sub (glob_sub (fs w) input_path) ->
  (forall other, In other (glob_sub (fs w) input_path) ->
     srt_path other (out_dir output_dir other)
     = srt_path sub (out_dir output_dir sub) -> other = sub) ->
  fs (snd (batch_convert_sub_to_srt input_path output_dir w))
    !! srt_path sub (out_dir output_dir sub)
  = fs (snd (convert_single_sub_to_srt sub output_dir w))
      !! srt_path sub (out_dir output_dir sub).
Proof.
  intros Hdir Hin Huniq. rewrite (batch_on_directory _ _ _ Hdir).
  pose proof (glob_sub_names (fs w) input_path) as Hnames.
  destruct (glob_sub (fs w) input_path) as [|first rest] eqn:Hfiles;
    [destruct Hin|].
  cbv zeta. set (w1 := World (fs w) (stdout w ++ [_])).
  destruct (resolve_output_dir first output_dir w1) as [[d|x] w0] eqn:Hres.
  - destruct (for_files_resolved first rest output_dir w1 d w0 Hres)
      as [Hready E].
    rewrite E.
    destruct (for_files_fs output_dir (first :: rest) w0 Hready) as [_ Hfs].
    rewrite Hfs, (run_files_destination _ _ sub _ Hnames Hin Huniq).
    assert (Hsub : exists w0',
               resolve_output_dir sub output_dir w
               = (Ok (out_dir output_dir sub), w0') /\ fs w0' = fs w0).
    { unfold resolve_output_dir in Hres |- *. destruct output_dir as [d'|].
      - unfold bind in Hres |- *.
        destruct (makedirs_same_fs d' w w1 eq_refl) as [Hr Hm].
        destruct (makedirs d' w1) as [[[]|y] w2]; [|discriminate].
        injection Hres as _ <-.
        destruct (makedirs d' w) as [r w3]. cbn [fst snd] in Hr, Hm.
        subst r. exists w3. split; [reflexivity|]. symmetry. exact Hm.
      - injection Hres as _ <-. exists w. split; reflexivity. }
    destruct Hsub as (w0' & Hres' & Hsame).
    destruct (convert_single_fs _ _ _ _ _ Hres') as [_ Hfs'].
    rewrite Hfs', Hsame. reflexivity.
  - rewrite (for_files_raise _ _ _ _ _ _ Hres). cbn [snd].
    destruct (resolve_raise_inv _ _ _ _ _ Hres) as (-> & d & q & -> & _).
    unfold resolve_output_dir, bind in Hres.
    destruct (makedirs_same_fs d w w1 eq_refl) as [Hr _].
    destruct (makedirs d w1) as [[[]|y] w2]; [discriminate|].
    unfold convert_single_sub_to_srt, resolve_output_dir, bind.
    destruct (makedirs d w) as [r w3] eqn:Hmk. cbn [fst] in Hr. subst r.
    destruct (makedirs_raise _ _ _ _ Hmk) as [-> _]. reflexivity.
Qed.

End Batch.


(** ** The further properties on the concrete platforms *)

Lemma convert_single_all_or_nothing_witness :
  convert_single_sub_to_srt (H := Posix.host) [py "g.sub"] None
    (sub_world "g.sub" gap_sub)
  = (Ok tt,
     World (<[ [py "g.srt"] := File (Posix.encode gap_srt) ]>
              (fs (sub_world "g.sub" gap_sub)))
           [py "警告：第2个字幕块格式异常，跳过 → orphan line...";
            py "✅ 转换成功：g.sub → g.srt"]).
Proof.
  destruct (convert_single_all_or_nothing (H := Posix.host) [py "g.sub"] None
              (sub_world "g.sub" gap_sub) (sub_world "g.sub" gap_sub) []
              eq_refl)
    as (ws & w' & Hrun
        & _ & [(content & entries & Hread & Hloop & Hfs & Hout)
              |(e & w1 & Hraise & _)]).
  - vm_compute in Hread. injection Hread as <-.
    vm_compute in Hloop. injection Hloop as <- <-.
    destruct w' as [m out]. cbn [fs stdout] in Hfs, Hout. subst m out.
    rewrite Hrun. vm_compute. reflexivity.
  - vm_compute in Hraise. discriminate Hraise.
Defined.

Lemma convert_single_touches_only_destination_witness :
  fs (snd (convert_single_sub_to_srt (H := Posix.host)
             [py "in"; py "good.sub"] None mixed_world))
    !! [py "in"; py "bad.sub"]
  = Some (File (Posix.encode no_comma_sub)).
Proof.
  apply (proj1 (convert_single_touches_only_destination (H := Posix.host)
                  [py "in"; py "good.sub"] None mixed_world
                  [py "in"; py "bad.sub"])).
  - vm_compute. discriminate.
  - reflexivity.
Defined.


Lemma gbk_is_read_when_utf8_fails_witness :
  fs (snd (convert_single_sub_to_srt (H := Legacy.host) [py "g.sub"] None
             Legacy.gbk_world))
  = <[ [py "g.srt"]
       := File (Posix.encode
                  (text ["1"; "00:00:01,000 --> 00:00:03,000"; "字幕"; ""]%string)) ]>
      (fs Legacy.gbk_world).
Proof.
  apply (gbk_is_read_when_utf8_fails (H := Legacy.host) [py "g.sub"] None
           Legacy.gbk_world Legacy.gbk_world [] Legacy.gbk_bytes
           (text ["00:00:01,00:00:03"; "字幕"; ""]%string)
           [srt_block 1 (py "00:00:01,000") (py "00:00:03,000") (py "字幕")]);
    try reflexivity.
  right. split; reflexivity.
Defined.

Lemma batch_only_writes_srt_witness :
  fs (snd (batch_convert_sub_to_srt (H := Posix.host) [py "in"] None
             mixed_world)) !! [py "in"; py "good.sub"]
  = Some (File (Posix.encode gap_sub))
  <-> fs mixed_world !! [py "in"; py "good.sub"]
      = Some (File (Posix.encode gap_sub)).
Proof.
  apply (proj1 (batch_only_writes_srt (H := Posix.host) [py "in"] None
                  mixed_world [py "in"; py "good.sub"]) eq_refl
           (Posix.encode gap_sub)).
Defined.


Lemma batch_destination_as_alone_witness :
  fs (snd (batch_convert_sub_to_srt (H := Posix.host) [py "in"] None
             mixed_world)) !! [py "in"; py "good.srt"]
  = fs (snd (convert_single_sub_to_srt (H := Posix.host)
               [py "in"; py "good.sub"] None mixed_world))
      !! [py "in"; py "good.srt"].
Proof.
  apply (batch_destination_as_alone (H := Posix.host) [py "in"] None
           mixed_world [py "in"; py "good.sub"]).
  - reflexivity.
  - vm_compute. auto.
  - vm_compute. intros other [<-|[<-|[]]] Hsame;
      [discriminate Hsame|reflexivity].
Defined.

(** ** The blocks of a document *)

Lemma nl_isspace : isspace nl = true.
Proof. reflexivity. Qed.

(** The separator pattern matches at the head of a text exactly when the
    text starts with whitespace followed by a newline. *)
Lemma blank_ahead_iff (q : str) :
  blank_ahead q = true
  <-> exists ws post, q = ws ++ nl :: post /\ forallb isspace ws = true.
Proof.
  unfold blank_ahead. split.
  - induction q as [|c r IH]; cbn [ws_star_nl]; [discriminate|].
    destruct (isspace c) eqn:Hc; [|discriminate].
    destruct (ws_star_nl r) as [n|].
    + intros _. destruct (IH eq_refl) as (ws & post & -> & Hws).
      exists (c :: ws), post. split; [reflexivity|]. cbn. rewrite Hc. exact Hws.
    + destruct (c =? nl) eqn:Hnl; [|discriminate]. intros _.
      apply N.eqb_eq in Hnl as ->. exists [], r. split; reflexivity.
  - intros (ws & post & -> & Hws). induction ws as [|c ws IH].
    + cbn [app ws_star_nl]. rewrite nl_isspace, N.eqb_refl.
      destruct (ws_star_nl post); reflexivity.
    + cbn [forallb] in Hws. apply andb_true_iff in Hws as [Hc Hws].
      cbn [app ws_star_nl]. rewrite Hc. specialize (IH Hws).
      destruct (ws_star_nl (ws ++ nl :: post)); [reflexivity|discriminate].
Qed.

Lemma blank_ahead_app (q t : str) :
  blank_ahead q = true -> blank_ahead (q ++ t) = true.
Proof.
  intros Hq. apply blank_ahead_iff in Hq as (ws & post & -> & Hws).
  apply blank_ahead_iff. exists ws, (post ++ t).
  split; [rewrite <- app_assoc; reflexivity|exact Hws].
Qed.

(** A match covers whitespace only. *)
Lemma ws_star_nl_spaces (r : str) : forall n,
  ws_star_nl r = Some n ->
  (n <= length r)%nat /\ forallb isspace (firstn n r) = true.
Proof.
  induction r as [|c r IH]; intros n; cbn [ws_star_nl]; [discriminate|].
  destruct (isspace c) eqn:Hc; [|discriminate].
  destruct (ws_star_nl r) as [k|].
  - intros [= <-]. destruct (IH k eq_refl) as [Hle Hsp]. split; [cbn; lia|].
    cbn [firstn forallb]. rewrite Hc. exact Hsp.
  - destruct (c =? nl); [|discriminate]. intros [= <-]. split; [cbn; lia|].
    cbn. rewrite Hc. reflexivity.
Qed.

Lemma scan_safe_app (a b t : str) :
  scan_safe (a ++ b) t = scan_safe a (b ++ t) && scan_safe b t.
Proof.
  induction a as [|c r IH]; [reflexivity|].
  cbn [app scan_safe]. rewrite IH, <- app_assoc, andb_assoc. reflexivity.
Qed.

Lemma scan_safe_weaken (b t : str) :
  scan_safe b t = true -> scan_safe b [] = true.
Proof.
  induction b as [|c r IH]; [reflexivity|]. cbn [scan_safe].
  intros Hs. apply andb_true_iff in Hs as [Hc Hr].
  rewrite (IH Hr), andb_true_r. rewrite app_nil_r.
  destruct (c =? nl); [|reflexivity]. cbn [andb negb] in Hc |- *.
  destruct (blank_ahead r) eqn:Hb; [|reflexivity].
  rewrite (blank_ahead_app r t Hb) in Hc. discriminate.
Qed.

(** The pieces cut by [re.split] hold no blank line. *)
Lemma re_split_go_safe (s : str) : forall skip piece,
  (skip = 0%nat -> scan_safe piece s = true) ->
  (skip <> 0%nat -> piece = []) ->
  Forall (fun p => no_blank_line p = true) (re_split_go skip piece s).
Proof.
  induction s as [|c r IH]; intros skip piece Hsafe Hskip.
  - constructor; [|constructor]. destruct skip as [|k].
    + apply (Hsafe eq_refl).
    + rewrite Hskip by discriminate. reflexivity.
  - cbn [re_split_go]. destruct skip as [|k].
    + specialize (Hsafe eq_refl).
      assert (Hext : blank_ahead r = false \/ (c =? nl) = false ->
                     scan_safe (piece ++ [c]) r = true).
      { intros Hno. rewrite scan_safe_app. cbn [app scan_safe].
        rewrite Hsafe. cbn [andb app]. rewrite andb_true_r.
        destruct Hno as [-> | ->]; [rewrite andb_false_r|]; reflexivity. }
      destruct (c =? nl) eqn:Hnl.
      * unfold blank_ahead in Hext.
        destruct (ws_star_nl r) as [n|] eqn:Hm.
        -- constructor; [eapply scan_safe_weaken; exact Hsafe|].
           apply IH; [intros _; reflexivity|reflexivity].
        -- apply IH; [intros _; apply Hext; left; reflexivity|congruence].
      * apply IH; [intros _; apply Hext; right; reflexivity|congruence].
    + rewrite Hskip by discriminate. apply IH.
      * intros _. reflexivity.
      * reflexivity.
Qed.

(** What [strip] removes is whitespace at the two ends. *)
Lemma lstrip_inv (s : str) :
  exists lead, s = lead ++ lstrip s /\ forallb isspace lead = true.
Proof.
  induction s as [|c r (lead & E & Hl)]; [exists []; split; reflexivity|].
  cbn [lstrip]. destruct (isspace c) eqn:Hc.
  - exists (c :: lead). split; [cbn; congruence|]. cbn. rewrite Hc. exact Hl.
  - exists []. split; reflexivity.
Qed.

Lemma forallb_rev (f : N -> bool) (s : str) :
  forallb f (rev s) = forallb f s.
Proof.
  induction s as [|c r IH]; [reflexivity|].
  cbn [rev forallb]. rewrite forallb_app, IH. cbn. rewrite andb_true_r.
  apply andb_comm.
Qed.

Lemma rstrip_inv (s : str) :
  exists trail, s = rstrip s ++ trail /\ forallb isspace trail = true.
Proof.
  unfold rstrip. destruct (lstrip_inv (rev s)) as (lead & E & Hl).
  exists (rev lead). split; [|rewrite forallb_rev; exact Hl].
  rewrite <- rev_app_distr, <- E, rev_involutive. reflexivity.
Qed.

Lemma strip_inv (s : str) :
  exists lead trail,
    s = lead ++ strip s ++ trail
    /\ forallb isspace lead = true /\ forallb isspace trail = true.
Proof.
  destruct (lstrip_inv s) as (lead & E & Hl).
  destruct (rstrip_inv (lstrip s)) as (trail & E' & Ht).
  exists lead, trail. unfold strip. rewrite <- E'. auto.
Qed.

Lemma lstrip_head (s : str) c r : lstrip s = c :: r -> isspace c = false.
Proof.
  induction s as [|x s IH]; cbn [lstrip]; [discriminate|].
  destruct (isspace x) eqn:Hx; [exact IH|]. intros [= <- _]. exact Hx.
Qed.

(** A non-empty result of [strip] starts and ends with a character that
    is not whitespace. *)
Lemma strip_ends (s : str) :
  strip s <> [] ->
  (exists c r, strip s = c :: r /\ isspace c = false)
  /\ (exists r c, strip s = r ++ [c] /\ isspace c = false).
Proof.
  intros Hne. unfold strip, rstrip in *.
  destruct (lstrip (rev (lstrip s))) as [|c r] eqn:E; [contradiction|].
  pose proof (lstrip_head _ _ _ E) as Hc. split.
  - destruct (rstrip_inv (lstrip s)) as (trail & E' & _).
    unfold rstrip in E'. rewrite E in E'.
    destruct (lstrip s) as [|x t] eqn:Ex.
    + destruct (rev (c :: r)); discriminate.
    + pose proof (lstrip_head _ _ _ Ex) as Hx.
      destruct (rev (c :: r)) as [|y u] eqn:Er.
      * apply (f_equal (@length N)) in Er. rewrite length_rev in Er.
        discriminate.
      * injection E' as -> _. eauto.
  - exists (rev r), c. split; [reflexivity|exact Hc].
Qed.

(** X14. Every block of a document is non-empty and neither starts nor ends
    with whitespace. *)
Theorem blocks_are_trimmed (content block : str) :
  In block (subtitle_blocks_of content) ->
  block <> []
  /\ (exists c r, block = c :: r /\ isspace c = false)
  /\ (exists r c, block = r ++ [c] /\ isspace c = false).
Proof.
  unfold subtitle_blocks_of. intros Hin.
  apply in_map_iff in Hin as (p & <- & Hp).
  apply filter_In in Hp as [_ Hne].
  assert (Hnonnil : strip p <> [])
    by (destruct (strip p); [discriminate|congruence]).
  split; [exact Hnonnil|]. apply strip_ends. exact Hnonnil.
Qed.

Lemma blocks_are_trimmed_witness :
  py "orphan line" <> []
  /\ (exists c r, py "orphan line" = c :: r /\ isspace c = false)
  /\ (exists r c, py "orphan line" = r ++ [c] /\ isspace c = false).
Proof.
  apply (blocks_are_trimmed gap_sub). vm_compute. auto.
Defined.

Lemma scan_safe_iff (b t : str) :
  scan_safe b t = true
  <-> forall pre q, b = pre ++ nl :: q -> blank_ahead (q ++ t) = false.
Proof.
  induction b as [|c r IH].
  - split; [|reflexivity]. intros _ pre q E. destruct pre; discriminate.
  - cbn [scan_safe]. rewrite andb_true_iff, IH. split.
    + intros [Hc Hr] pre q E. destruct pre as [|x pre].
      * injection E as -> ->. rewrite N.eqb_refl in Hc.
        destruct (blank_ahead (q ++ t)); [discriminate|reflexivity].
      * injection E as -> ->. eapply Hr. reflexivity.
    + intros Hall. split.
      * destruct (c =? nl) eqn:Hnl; [|reflexivity].
        apply N.eqb_eq in Hnl as ->. rewrite (Hall [] r eq_refl). reflexivity.
      * intros pre q E. apply (Hall (c :: pre) q). rewrite E. reflexivity.
Qed.

(** X15. No block of a document holds a blank line: between two newlines of a
    block there is always a character that is not whitespace. *)
Theorem blocks_hold_no_blank_line (content block pre ws post : str) :
  In block (subtitle_blocks_of content) ->
  block = pre ++ nl :: ws ++ nl :: post ->
  forallb isspace ws = false.
Proof.
  unfold subtitle_blocks_of, re_split_blank. intros Hin Hshape.
  apply in_map_iff in Hin as (p & Hstrip & Hp).
  apply filter_In in Hp as [Hp _].
  pose proof (re_split_go_safe content 0 [] (fun _ => eq_refl)
                (fun Hne => ltac:(congruence))) as Hsafe.
  rewrite Forall_forall in Hsafe. apply list_elem_of_In in Hp.
  specialize (Hsafe p Hp). unfold no_blank_line in Hsafe.
  destruct (strip_inv p) as (lead & trail & E & _ & _).
  rewrite E, !scan_safe_app in Hsafe.
  apply andb_true_iff in Hsafe as [_ Hsafe].
  apply andb_true_iff in Hsafe as [Hsafe _].
  rewrite Hstrip in Hsafe. apply scan_safe_weaken in Hsafe.
  destruct (forallb isspace ws) eqn:Hws; [|reflexivity].
  pose proof (proj1 (scan_safe_iff block []) Hsafe pre (ws ++ nl :: post)
                Hshape) as Hno.
  rewrite app_nil_r in Hno.
  assert (Hyes : blank_ahead (ws ++ nl :: post) = true)
    by (apply blank_ahead_iff; eauto).
  congruence.
Qed.

Lemma blocks_hold_no_blank_line_witness :
  forallb isspace (py "Hello world") = false.
Proof.
  apply (blocks_hold_no_blank_line
           (text ["00:00:01,00:00:03"; "Hello world"; "bye"; ""; "x"]%string)
           (text ["00:00:01,00:00:03"; "Hello world"; "bye"]%string)
           (py "00:00:01,00:00:03") (py "Hello world") (py "bye")).
  - vm_compute. auto.
  - reflexivity.
Defined.

Lemma nonws_app (a b : str) : nonws (a ++ b) = nonws a ++ nonws b.
Proof. apply List.filter_app. Qed.

Lemma nonws_space (s : str) : forallb isspace s = true -> nonws s = [].
Proof.
  induction s as [|c r IH]; [reflexivity|]. cbn [forallb].
  intros Hs. apply andb_true_iff in Hs as [Hc Hr].
  unfold nonws. cbn [List.filter]. rewrite Hc. cbn [negb]. exact (IH Hr).
Qed.

Lemma nonws_strip (s : str) : nonws (strip s) = nonws s.
Proof.
  destruct (strip_inv s) as (lead & trail & E & Hl & Ht).
  rewrite E at 2. rewrite !nonws_app, (nonws_space lead Hl),
    (nonws_space trail Ht), app_nil_r. reflexivity.
Qed.

Lemma re_split_go_nonws (s : str) : forall skip piece,
  (skip <= length s)%nat -> forallb isspace (firstn skip s) = true ->
  nonws (concat (re_split_go skip piece s)) = nonws piece ++ nonws s.
Proof.
  induction s as [|c r IH]; intros skip piece Hle Hsp.
  - cbn. rewrite !app_nil_r. reflexivity.
  - cbn [re_split_go]. destruct skip as [|k].
    + assert (Hkeep : nonws (concat (re_split_go 0 (piece ++ [c]) r))
                      = nonws piece ++ nonws (c :: r)).
      { rewrite IH by (cbn; first [lia|reflexivity]).
        rewrite nonws_app, <- app_assoc.
        change (c :: r) with ([c] ++ r). rewrite nonws_app. reflexivity. }
      destruct (c =? nl) eqn:Hnl; [|exact Hkeep].
      destruct (ws_star_nl r) as [n|] eqn:Hm; [|exact Hkeep].
      apply N.eqb_eq in Hnl as ->.
      destruct (ws_star_nl_spaces r n Hm) as [Hn Hs].
      cbn [concat]. rewrite nonws_app, (IH n [] Hn Hs). reflexivity.
    + cbn [firstn forallb] in Hsp. apply andb_true_iff in Hsp as [Hc Hsp].
      cbn [length] in Hle. rewrite (IH k piece) by (assumption || lia).
      change (c :: r) with ([c] ++ r). rewrite (nonws_app [c] r).
      rewrite (nonws_space [c]) by (cbn; rewrite Hc; reflexivity).
      reflexivity.
Qed.

(** X16. Splitting loses nothing but whitespace: the characters of the blocks
    that are not whitespace are those of the document, in the same
    order. *)
Theorem blocks_keep_all_text (content : str) :
  nonws (concat (subtitle_blocks_of content)) = nonws content.
Proof.
  unfold subtitle_blocks_of, re_split_blank.
  transitivity (nonws (concat (re_split_go 0 [] content)));
    [|rewrite re_split_go_nonws by (cbn; first [lia|reflexivity]);
      reflexivity].
  induction (re_split_go 0 [] content) as [|p ps IH]; [reflexivity|].
  cbn [List.filter concat]. rewrite nonws_app, <- IH.
  destruct (strip p) as [|c r] eqn:E; cbn [nonempty].
  - rewrite <- (nonws_strip p), E. reflexivity.
  - cbn [map concat]. rewrite nonws_app, nonws_strip. reflexivity.
Qed.

(** ** The loop accounts for every block *)

Lemma entry_of_eq i b :
  entry_of (i, b)
  = match block_verdict i b with Entry e => Some e | _ => None end.
Proof. reflexivity. Qed.

Lemma warning_of_eq i b :
  warning_of (i, b)
  = match block_verdict i b with
    | Skipped => Some (warning_msg i b)
    | _ => None
    end.
Proof. reflexivity. Qed.

Lemma entries_and_warnings_count blocks : forall idx,
  Forall (fun b => fails b = false) blocks ->
  (length (omap entry_of (numbered idx blocks))
   + length (omap warning_of (numbered idx blocks)))%nat
  = length blocks
  /\ Forall is_warning (omap warning_of (numbered idx blocks)).
Proof.
  induction blocks as [|b rest IH]; intros idx Hok;
    [split; [reflexivity|constructor]|].
  apply Forall_cons in Hok as [Hb Hrest].
  destruct (IH (S idx) Hrest) as [Hcount Hwarn].
  rewrite numbered_cons. cbn [omap list_omap].
  rewrite entry_of_eq, warning_of_eq.
  pose proof (fails_false idx b Hb) as Hne.
  destruct (block_verdict idx b) as [|e|x].
  - split; [cbn [length]; lia|].
    constructor; [exists idx, b; reflexivity|exact Hwarn].
  - split; [cbn [length]; lia|exact Hwarn].
  - exfalso. eapply Hne; reflexivity.
Qed.

(** X17. When the loop returns it has left the files alone and dealt with
    every block exactly once: the entries added and the warnings printed
    are together as many as the blocks, and nothing but warnings was
    printed. *)
Theorem for_blocks_accounts_for_every_block (idx : nat)
    (blocks srt_content entries : list str) (w w' : world) :
  for_blocks idx blocks srt_content w = (Ok entries, w') ->
  fs w' = fs w
  /\ exists added warnings,
       entries = srt_content ++ added
       /\ stdout w' = stdout w ++ warnings
       /\ Forall is_warning warnings
       /\ (length added + length warnings)%nat = length blocks.
Proof.
  intros Hloop. pose proof (for_blocks_Ok_inv _ _ _ _ _ _ Hloop) as Hok.
  rewrite (for_blocks_ok _ idx srt_content w Hok) in Hloop.
  injection Hloop as <- <-. split; [reflexivity|].
  destruct (entries_and_warnings_count blocks idx Hok) as [Hcount Hwarn].
  eauto 8.
Qed.

Lemma for_blocks_accounts_for_every_block_witness :
  fs (World ∅ [py "警告：第2个字幕块格式异常，跳过 → orphan line..."])
  = fs (World ∅ [])
  /\ exists added warnings,
       [srt_block 1 (py "00:00:01,000") (py "00:00:03,000") (py "One");
        srt_block 3 (py "00:00:05,000") (py "00:00:07,000") (py "Three")]
       = [] ++ added
       /\ stdout (World ∅ [py "警告：第2个字幕块格式异常，跳过 → orphan line..."])
          = stdout (World ∅ []) ++ warnings
       /\ Forall is_warning warnings
       /\ (length added + length warnings)%nat
          = length (subtitle_blocks_of gap_sub).
Proof.
  apply (for_blocks_accounts_for_every_block 1 (subtitle_blocks_of gap_sub)
           [] _ (World ∅ [])).
  vm_compute. reflexivity.
Defined.

(** ** The output splits back into its entries *)

Lemma blank_ahead_ink c (r : str) :
  isspace c = false -> blank_ahead (c :: r) = false.
Proof. intros Hc. unfold blank_ahead. cbn [ws_star_nl]. rewrite Hc. reflexivity. Qed.

Lemma blank_ahead_no_nl (u : str) :
  contains nl u = false -> blank_ahead u = false.
Proof.
  intros Hnl. destruct (blank_ahead u) eqn:Hb; [|reflexivity].
  apply blank_ahead_iff in Hb as (ws & post & -> & _).
  rewrite contains_app, contains_cons, N.eqb_refl, orb_true_r in Hnl.
  discriminate.
Qed.

(** A text with ink in front of which the pattern does not match keeps
    it from matching whatever follows. *)
Lemma blank_ahead_extend (q t : str) :
  blank_ahead q = false -> has_ink q = true -> blank_ahead (q ++ t) = false.
Proof.
  unfold blank_ahead, has_ink. induction q as [|c r IH]; [discriminate|].
  cbn [app ws_star_nl existsb]. destruct (isspace c) eqn:Hc; [|reflexivity].
  cbn [negb orb]. intros Hq Hink.
  destruct (ws_star_nl r) as [n|] eqn:Hr; [discriminate|].
  destruct (c =? nl); [discriminate|].
  specialize (IH eq_refl Hink).
  destruct (ws_star_nl (r ++ t)); [discriminate|reflexivity].
Qed.

Lemma scan_safe_no_nl (a t : str) :
  contains nl a = false -> scan_safe a t = true.
Proof.
  induction a as [|c r IH]; [reflexivity|]. rewrite contains_cons.
  intros Hc. apply orb_false_iff in Hc as [Hc Hr].
  cbn [scan_safe]. rewrite N.eqb_sym, Hc, (IH Hr). reflexivity.
Qed.

Lemma has_ink_rev (s : str) : has_ink (rev s) = has_ink s.
Proof.
  unfold has_ink. induction s as [|c r IH]; [reflexivity|].
  cbn [rev existsb]. rewrite existsb_app, IH. cbn [existsb].
  rewrite orb_false_r. apply orb_comm.
Qed.

Lemma starts_with_ink_has_ink (s : str) :
  starts_with_ink s = true -> has_ink s = true.
Proof.
  destruct s as [|c r]; [discriminate|]. cbn. intros ->. reflexivity.
Qed.

Lemma ends_with_ink_has_ink (s : str) :
  ends_with_ink s = true -> has_ink s = true.
Proof.
  intros Hs. rewrite <- has_ink_rev. apply starts_with_ink_has_ink. exact Hs.
Qed.

(** What follows a newline inside a text that ends with ink ends with
    ink as well. *)
Lemma ends_with_ink_after_nl (pre q : str) :
  ends_with_ink (pre ++ nl :: q) = true -> ends_with_ink q = true.
Proof.
  unfold ends_with_ink. rewrite rev_app_distr. cbn [rev].
  rewrite <- app_assoc. destruct (rev q) as [|c r]; [discriminate|].
  intros Hs. exact Hs.
Qed.

Lemma ends_with_ink_app (a b : str) :
  ends_with_ink b = true -> ends_with_ink (a ++ b) = true.
Proof.
  unfold ends_with_ink. rewrite rev_app_distr.
  destruct (rev b) as [|c r]; [discriminate|]. intros Hs. exact Hs.
Qed.

(** No separator starts inside a clean text, whatever follows it. *)
Lemma clean_safe (b t : str) : clean b = true -> scan_safe b t = true.
Proof.
  unfold clean, no_blank_line. intros Hc.
  apply andb_true_iff in Hc as [Hc Hsafe].
  apply andb_true_iff in Hc as [_ Hend].
  apply scan_safe_iff. intros pre q E.
  pose proof (proj1 (scan_safe_iff b []) Hsafe pre q E) as Hno.
  rewrite app_nil_r in Hno. apply blank_ahead_extend; [exact Hno|].
  apply ends_with_ink_has_ink. apply (ends_with_ink_after_nl pre).
  rewrite <- E. exact Hend.
Qed.

Lemma lstrip_ink (b : str) : starts_with_ink b = true -> lstrip b = b.
Proof.
  destruct b as [|c r]; [reflexivity|]. cbn [starts_with_ink lstrip].
  destruct (isspace c); [discriminate|reflexivity].
Qed.

Lemma strip_clean (b : str) :
  starts_with_ink b = true -> ends_with_ink b = true -> strip b = b.
Proof.
  intros Hs He. unfold strip, rstrip. rewrite (lstrip_ink b Hs).
  rewrite (lstrip_ink (rev b) He). apply rev_involutive.
Qed.

Lemma strip_snoc_nl (b : str) :
  starts_with_ink b = true -> ends_with_ink b = true ->
  strip (b ++ [nl]) = b.
Proof.
  intros Hs He. unfold strip, rstrip.
  rewrite (lstrip_ink (b ++ [nl])) by (destruct b; [discriminate|exact Hs]).
  rewrite rev_app_distr. cbn [rev app lstrip]. rewrite nl_isspace.
  rewrite (lstrip_ink (rev b) He). apply rev_involutive.
Qed.

(** The scan of [re.split] runs through a text in which no separator
    starts. *)
Lemma re_split_go_through (b : str) : forall piece t,
  scan_safe b t = true ->
  re_split_go 0 piece (b ++ t) = re_split_go 0 (piece ++ b) t.
Proof.
  induction b as [|c r IH]; intros piece t Hsafe;
    [rewrite app_nil_r; reflexivity|].
  cbn [scan_safe] in Hsafe. apply andb_true_iff in Hsafe as [Hc Hr].
  cbn [app re_split_go].
  replace (piece ++ c :: r) with ((piece ++ [c]) ++ r)
    by (rewrite <- app_assoc; reflexivity).
  destruct (c =? nl); [|apply IH; exact Hr].
  unfold blank_ahead in Hc. destruct (ws_star_nl (r ++ t));
    [discriminate|apply IH; exact Hr].
Qed.

(** A document made of clean texts, each followed by a newline and the
    next one after an empty line, splits back into these texts. *)
Lemma blocks_of_joined (bs : list str) : forall b,
  clean b = true -> Forall (fun x => clean x = true) bs ->
  subtitle_blocks_of (join [nl] (map (fun x => x ++ [nl]) (b :: bs)))
  = b :: bs.
Proof.
  unfold subtitle_blocks_of, re_split_blank.
  induction bs as [|b' rest IH]; intros b Hb Hall.
  - cbn [map join].
    pose proof Hb as Hparts. unfold clean in Hparts.
    apply andb_true_iff in Hparts as [Hparts _].
    apply andb_true_iff in Hparts as [Hs He].
    rewrite (re_split_go_through b [] [nl]) by (apply clean_safe; exact Hb).
    cbn [app re_split_go ws_star_nl]. rewrite N.eqb_refl.
    cbn [re_split_go List.filter]. rewrite (strip_snoc_nl b Hs He).
    assert (Hne : nonempty b = true) by (destruct b; [discriminate|reflexivity]).
    rewrite Hne. cbn [map]. rewrite (strip_snoc_nl b Hs He). reflexivity.
  - apply Forall_cons in Hall as [Hb' Hrest].
    pose proof Hb as Hparts. unfold clean in Hparts.
    apply andb_true_iff in Hparts as [Hparts _].
    apply andb_true_iff in Hparts as [Hs He].
    change (map (fun x => x ++ [nl]) (b :: b' :: rest))
      with ((b ++ [nl]) :: map (fun x => x ++ [nl]) (b' :: rest)).
    set (tail := map (fun x => x ++ [nl]) (b' :: rest)) in *.
    assert (Etail : exists c r,
               join [nl] tail = c :: r /\ isspace c = false).
    { unfold clean in Hb'. apply andb_true_iff in Hb' as [Hb' _].
      apply andb_true_iff in Hb' as [Hs' _].
      destruct b' as [|c r]; [discriminate|].
      subst tail. cbn [map]. destruct (map (fun x => x ++ [nl]) rest);
        cbn [join app]; eexists _, _; (split; [reflexivity|]);
        cbn in Hs'; destruct (isspace c); (discriminate || reflexivity). }
    destruct Etail as (c & r & Etail & Hc).
    assert (Ejoin : join [nl] ((b ++ [nl]) :: tail)
                    = b ++ nl :: nl :: join [nl] tail).
    { subst tail. cbn [map join]. rewrite <- app_assoc. reflexivity. }
    rewrite Ejoin.
    rewrite (re_split_go_through b [] _) by (apply clean_safe; exact Hb).
    cbn [app re_split_go]. rewrite N.eqb_refl.
    assert (Hm : ws_star_nl (nl :: join [nl] tail) = Some 1%nat).
    { rewrite Etail. cbn [ws_star_nl]. rewrite nl_isspace, Hc, N.eqb_refl.
      reflexivity. }
    rewrite Hm. cbn [re_split_go List.filter].
    rewrite (strip_clean b Hs He).
    assert (Hne : nonempty b = true) by (destruct b; [discriminate|reflexivity]).
    rewrite Hne. cbn [map]. rewrite (strip_clean b Hs He).
    specialize (IH b' Hb' Hrest). fold tail in IH.
    f_equal. exact IH.
Qed.

Lemma pieces_no_blank_line (content p : str) :
  In p (re_split_blank content) -> no_blank_line p = true.
Proof.
  intros Hp. unfold re_split_blank in Hp.
  pose proof (re_split_go_safe content 0 [] (fun _ => eq_refl)
                (fun Hne => ltac:(congruence))) as Hsafe.
  rewrite Forall_forall in Hsafe. apply Hsafe, list_elem_of_In, Hp.
Qed.

Lemma no_blank_line_strip (p : str) :
  no_blank_line p = true -> no_blank_line (strip p) = true.
Proof.
  unfold no_blank_line. intros Hsafe.
  destruct (strip_inv p) as (lead & trail & E & _ & _).
  rewrite E, !scan_safe_app in Hsafe.
  apply andb_true_iff in Hsafe as [_ Hsafe].
  apply andb_true_iff in Hsafe as [Hsafe _].
  eapply scan_safe_weaken. exact Hsafe.
Qed.

Lemma strip_ink (s : str) :
  strip s <> [] ->
  starts_with_ink (strip s) = true /\ ends_with_ink (strip s) = true.
Proof.
  intros Hne. destruct (strip_ends s Hne) as [(c & r & E & Hc) (r' & c' & E' & Hc')].
  split.
  - rewrite E. cbn. rewrite Hc. reflexivity.
  - unfold ends_with_ink. rewrite E', rev_app_distr. cbn. rewrite Hc'.
    reflexivity.
Qed.

Lemma has_ink_app (a b : str) : has_ink (a ++ b) = has_ink a || has_ink b.
Proof. unfold has_ink. apply existsb_app. Qed.

Lemma has_ink_space (s : str) : forallb isspace s = true -> has_ink s = false.
Proof.
  unfold has_ink. induction s as [|c r IH]; [reflexivity|]. cbn.
  intros Hs. apply andb_true_iff in Hs as [-> Hr]. exact (IH Hr).
Qed.

Lemma strip_has_ink (s : str) : has_ink s = true -> strip s <> [].
Proof.
  intros Hink Hnil. destruct (strip_inv s) as (lead & trail & E & Hl & Ht).
  rewrite Hnil in E. rewrite E, !has_ink_app in Hink.
  rewrite (has_ink_space lead Hl), (has_ink_space trail Ht) in Hink.
  discriminate.
Qed.

(** The blocks of a document are clean. *)
Lemma blocks_clean (content block : str) :
  In block (subtitle_blocks_of content) -> clean block = true.
Proof.
  unfold subtitle_blocks_of. intros Hin.
  apply in_map_iff in Hin as (p & <- & Hp).
  apply filter_In in Hp as [Hp Hne].
  assert (Hnonnil : strip p <> [])
    by (destruct (strip p); [discriminate|congruence]).
  destruct (strip_ink p Hnonnil) as [Hs He].
  unfold clean. rewrite Hs, He.
  rewrite (no_blank_line_strip p (pieces_no_blank_line content p Hp)).
  reflexivity.
Qed.

Lemma split1_inv sep (s a b : str) :
  split1 sep s = [a; b] -> s = a ++ sep :: b /\ contains sep a = false.
Proof.
  revert a. induction s as [|c r IH]; intros a; cbn [split1]; [discriminate|].
  destruct (c =? sep) eqn:Hc.
  - intros [= <- <-]. apply N.eqb_eq in Hc as ->. split; reflexivity.
  - destruct (split1 sep r) as [|p [|q [|]]] eqn:E; try discriminate.
    intros [= <- <-]. destruct (IH p eq_refl) as [-> Hp].
    split; [reflexivity|]. rewrite contains_cons, N.eqb_sym, Hc. exact Hp.
Qed.

Lemma contains_split c sep (s : str) :
  contains c s = false ->
  Forall (fun p => contains c p = false) (split sep s).
Proof.
  induction s as [|x r IH]; intros Hc; [repeat constructor|].
  rewrite contains_cons in Hc. apply orb_false_iff in Hc as [Hx Hr].
  specialize (IH Hr). cbn [split]. destruct (x =? sep).
  - constructor; [reflexivity|exact IH].
  - destruct (split sep r) as [|p ps]; [repeat constructor;
      rewrite contains_cons, Hx; reflexivity|].
    apply Forall_cons in IH as [Hp Hps]. constructor; [|exact Hps].
    rewrite contains_cons, Hx. exact Hp.
Qed.

Lemma contains_strip c (s : str) :
  contains c s = false -> contains c (strip s) = false.
Proof.
  intros Hc. destruct (strip_inv s) as (lead & trail & E & _ & _).
  rewrite E, !contains_app in Hc.
  apply orb_false_iff in Hc as [_ Hc]. apply orb_false_iff in Hc as [Hc _].
  exact Hc.
Qed.

(** The formatter brings no newline into its result. *)
Lemma format_time_str_no_nl (s r : str) :
  format_time_str s = Ok r -> contains nl s = false -> contains nl r = false.
Proof.
  intros Hr Hs. apply format_time_str_Ok_iff in Hr
    as (hh & mm & ss & ms & _ & _ & _ & _ & _ & _ & Hc & ->).
  assert (Hcs : contains nl (completed s) = false).
  { unfold completed. destruct (negb (contains (chr ".") s)); [|exact Hs].
    rewrite contains_app, Hs. reflexivity. }
  rewrite Hc, !contains_app in Hcs.
  apply orb_false_iff in Hcs as [Hh Hcs]. apply orb_false_iff in Hcs as [_ Hcs].
  apply orb_false_iff in Hcs as [Hm Hcs]. apply orb_false_iff in Hcs as [_ Hcs].
  apply orb_false_iff in Hcs as [Hss Hcs]. apply orb_false_iff in Hcs as [_ Hms].
  rewrite !contains_app, Hh, Hm, Hss.
  rewrite contains_ljust by (try apply contains_firstn; auto).
  reflexivity.
Qed.

Lemma is_digit_ink c : is_digit c = true -> isspace c = false.
Proof.
  unfold is_digit. intros Hd. apply andb_true_iff in Hd as [Hlo Hhi].
  apply N.leb_le in Hlo, Hhi. unfold isspace.
  replace (c <=? 13) with false by (symmetry; apply N.leb_gt; lia).
  replace (c <=? 32) with false by (symmetry; apply N.leb_gt; lia).
  replace (8192 <=? c) with false by (symmetry; apply N.leb_gt; lia).
  repeat match goal with
         | |- context [c =? ?k] =>
           replace (c =? k) with false by (symmetry; apply N.eqb_neq; lia)
         end.
  rewrite !andb_false_r. reflexivity.
Qed.

Lemma digits_are_digits d : forallb is_digit (digits d) = true.
Proof. induction d; cbn; auto. Qed.

(** The decimal writing of a number: digits, and at least one. *)
Lemma str_of_nat_digits n :
  forallb is_digit (str_of_nat n) = true /\ str_of_nat n <> [].
Proof.
  unfold str_of_nat. split; [apply digits_are_digits|].
  pose proof (Unsigned.to_of (Nat.to_uint n)) as E.
  rewrite Unsigned.of_to in E.
  pose proof (unorm_nonnil (Nat.to_uint n)) as Hne. rewrite <- E in Hne.
  destruct (Nat.to_uint n); [congruence| ..]; discriminate.
Qed.

Lemma digits_no_nl (s : str) : forallb is_digit s = true -> contains nl s = false.
Proof.
  induction s as [|c r IH]; [reflexivity|]. cbn [forallb].
  intros Hd. apply andb_true_iff in Hd as [Hc Hr].
  rewrite contains_cons, (IH Hr), orb_false_r.
  unfold is_digit in Hc. apply andb_true_iff in Hc as [Hlo _].
  apply N.leb_le in Hlo. apply N.eqb_neq. unfold nl. lia.
Qed.

(** The entry of a clean block is a clean text followed by a newline. *)
Lemma entry_clean idx (block e : str) :
  clean block = true -> block_verdict idx block = Entry e ->
  exists b, e = b ++ [nl] /\ clean b = true.
Proof.
  intros Hclean. unfold block_verdict.
  destruct (length (split1 nl block) <? 2)%nat; [discriminate|].
  destruct (split1 nl block) as [|time_line [|text_lines [|]]] eqn:Hsplit;
    try discriminate.
  cbn [unpack2].
  destruct (map strip (split (chr ",") time_line)) as [|s [|t [|]]] eqn:Htok;
    try discriminate.
  cbn [unpack2].
  destruct (format_time_str s) as [start_srt|] eqn:Hs; [|discriminate].
  destruct (format_time_str t) as [end_srt|] eqn:Ht; [|discriminate].
  intros [= <-].
  destruct (split1_inv _ _ _ _ Hsplit) as [-> Htl].
  unfold clean in Hclean. apply andb_true_iff in Hclean as [Hclean Hnb].
  apply andb_true_iff in Hclean as [_ Hend].
  (* the text *)
  pose proof (ends_with_ink_after_nl _ _ Hend) as Htxt.
  pose proof (strip_has_ink _ (ends_with_ink_has_ink _ Htxt)) as Hnonnil.
  destruct (strip_ink text_lines Hnonnil) as [Hts Hte].
  assert (Htn : no_blank_line (strip text_lines) = true).
  { apply no_blank_line_strip. unfold no_blank_line in Hnb |- *.
    rewrite scan_safe_app in Hnb. apply andb_true_iff in Hnb as [_ Hnb].
    cbn [scan_safe] in Hnb. apply andb_true_iff in Hnb as [_ Hnb]. exact Hnb. }
  (* the two times *)
  pose proof (contains_split nl (chr ",") time_line Htl) as Hparts.
  assert (Hsn : contains nl s = false /\ contains nl t = false).
  { destruct (split (chr ",") time_line) as [|s0 [|t0 [|]]]; try discriminate.
    injection Htok as <- <-.
    apply Forall_cons in Hparts as [H0 Hparts].
    apply Forall_cons in Hparts as [H1 _].
    split; apply contains_strip; assumption. }
  destruct Hsn as [Hsn Htn'].
  pose proof (format_time_str_no_nl _ _ Hs Hsn) as Hstart.
  pose proof (format_time_str_no_nl _ _ Ht Htn') as Hstop.
  set (line2 := start_srt ++ py " --> " ++ end_srt).
  assert (Hl2 : contains nl line2 = false).
  { unfold line2. rewrite !contains_app, Hstart, Hstop. reflexivity. }
  assert (Hl2ink : has_ink line2 = true).
  { unfold line2. rewrite !has_ink_app.
    change (has_ink (py " --> ")) with true. rewrite orb_true_r.
    reflexivity. }
  (* the number *)
  destruct (str_of_nat_digits idx) as [Hdig Hnum].
  pose proof (digits_no_nl _ Hdig) as Hnumnl.
  exists (str_of_nat idx ++ [nl] ++ line2 ++ [nl] ++ strip text_lines).
  split; [unfold srt_block, line2; rewrite <- !app_assoc; reflexivity|].
  unfold clean. apply andb_true_iff. split; [apply andb_true_iff; split|].
  - destruct (str_of_nat idx) as [|c r]; [congruence|].
    cbn [forallb] in Hdig. apply andb_true_iff in Hdig as [Hc _].
    cbn. rewrite (is_digit_ink c Hc). reflexivity.
  - rewrite !app_assoc. apply ends_with_ink_app. exact Hte.
  - unfold no_blank_line in *. rewrite scan_safe_app.
    rewrite (scan_safe_no_nl _ _ Hnumnl). cbn [andb app scan_safe].
    rewrite N.eqb_refl. cbn [andb]. rewrite app_nil_r.
    rewrite (blank_ahead_extend line2 _ (blank_ahead_no_nl _ Hl2) Hl2ink).
    cbn [negb andb]. rewrite scan_safe_app.
    rewrite (scan_safe_no_nl _ _ Hl2). cbn [andb scan_safe].
    rewrite N.eqb_refl, app_nil_r. cbn [andb].
    destruct (strip text_lines) as [|c r] eqn:Etext; [congruence|].
    cbn [starts_with_ink] in Hts.
    rewrite blank_ahead_ink by (destruct (isspace c); [discriminate|reflexivity]).
    exact Htn.
Qed.

Lemma entries_clean blocks : forall idx,
  Forall (fun b => clean b = true) blocks ->
  Forall (fun e => exists b, e = b ++ [nl] /\ clean b = true)
         (omap entry_of (numbered idx blocks)).
Proof.
  induction blocks as [|b rest IH]; intros idx Hall; [constructor|].
  apply Forall_cons in Hall as [Hb Hrest].
  rewrite numbered_cons. cbn [omap list_omap]. rewrite entry_of_eq.
  destruct (block_verdict idx b) as [|e|x] eqn:Hv; auto.
  constructor; [|auto]. eapply entry_clean; eauto.
Qed.

Lemma clean_entries_texts (es : list str) :
  Forall (fun e => exists b, e = b ++ [nl] /\ clean b = true) es ->
  exists texts,
    es = map (fun b => b ++ [nl]) texts
    /\ Forall (fun b => clean b = true) texts.
Proof.
  induction 1 as [|e es (b & -> & Hb) _ (texts & -> & Htexts)].
  - exists []. split; [reflexivity|constructor].
  - exists (b :: texts). split; [reflexivity|constructor; assumption].
Qed.

(** X18. The SRT text the converter builds is well formed: split again at
    blank lines it gives back its entries, one block per entry, each entry
    being that block followed by a newline. *)
Theorem output_splits_back_into_entries (content : str) (w w' : world)
    (entries : list str) :
  for_blocks 1 (subtitle_blocks_of content) [] w = (Ok entries, w') ->
  exists texts,
    entries = map (fun b => b ++ [nl]) texts
    /\ subtitle_blocks_of (join [nl] entries) = texts.
Proof.
  intros Hloop. pose proof (for_blocks_Ok_inv _ _ _ _ _ _ Hloop) as Hok.
  rewrite (for_blocks_ok _ 1%nat [] w Hok) in Hloop.
  injection Hloop as <- _. cbn [app].
  assert (Hclean : Forall (fun b => clean b = true) (subtitle_blocks_of content)).
  { apply Forall_forall. intros b Hb. eapply blocks_clean.
    apply list_elem_of_In. exact Hb. }
  destruct (clean_entries_texts _ (entries_clean _ 1%nat Hclean))
    as (texts & -> & Htexts).
  exists texts. split; [reflexivity|].
  destruct texts as [|b bs]; [reflexivity|].
  apply Forall_cons in Htexts as [Hb Hbs].
  apply (blocks_of_joined bs b Hb Hbs).
Qed.

Lemma output_splits_back_into_entries_witness :
  exists texts,
    [srt_block 1 (py "00:00:01,000") (py "00:00:03,000") (py "One");
     srt_block 3 (py "00:00:05,000") (py "00:00:07,000") (py "Three")]
    = map (fun b => b ++ [nl]) texts
    /\ subtitle_blocks_of
         (join [nl]
            [srt_block 1 (py "00:00:01,000") (py "00:00:03,000") (py "One");
             srt_block 3 (py "00:00:05,000") (py "00:00:07,000") (py "Three")])
       = texts.
Proof.
  apply (output_splits_back_into_entries gap_sub (World ∅ [])
           (World ∅ [py "警告：第2个字幕块格式异常，跳过 → orphan line..."])).
  vm_compute. reflexivity.
Defined.

(** ** The name of the output file *)

Lemma rfind_absent c (s : str) : contains c s = false -> rfind c s = None.
Proof.
  induction s as [|x r IH]; [reflexivity|].
  rewrite contains_cons. intros Hc. apply orb_false_iff in Hc as [Hx Hr].
  cbn [rfind]. rewrite (IH Hr), N.eqb_sym, Hx. reflexivity.
Qed.

Lemma rfind_last c (x y : str) :
  contains c y = false -> rfind c (x ++ c :: y) = Some (length x).
Proof.
  intros Hy. induction x as [|a x IH]; cbn [app rfind length].
  - rewrite (rfind_absent c y Hy), N.eqb_refl. reflexivity.
  - rewrite IH. reflexivity.
Qed.

(** X19. The output file is named after the input with its last extension
    replaced by [.srt]; a name that only starts or only ends with its last
    dot has no extension and keeps all of it, so the hidden file [.sub] is
    written to [.sub.srt]. *)
Theorem output_name_replaces_last_extension (sub_path output_dir : path)
    (base ext : str) :
  name sub_path = base ++ chr "." :: ext ->
  contains (chr ".") ext = false ->
  srt_path sub_path output_dir
  = output_dir
    ++ [(match base, ext with
         | _ :: _, _ :: _ => base
         | _, _ => name sub_path
         end) ++ py ".srt"].
Proof.
  intros Hname Hext. unfold srt_path, stem.
  rewrite Hname. rewrite (rfind_last _ base ext Hext).
  rewrite length_app. cbn [length].
  destruct base as [|a base]; [reflexivity|].
  destruct ext as [|e ext]; cbn [length].
  - destruct (Nat.ltb_spec (S (length base)) (S (length base) + 1 - 1));
      [lia|]. rewrite andb_false_r. reflexivity.
  - destruct (Nat.ltb_spec (S (length base))
                (S (length base) + S (S (length ext)) - 1)); [|lia].
    cbn [Nat.ltb Nat.leb andb].
    change (S (length base)) with (length (a :: base)).
    rewrite firstn_app, Nat.sub_diag, firstn_all. cbn [firstn].
    rewrite app_nil_r. reflexivity.
Qed.

Lemma output_name_replaces_last_extension_witness :
  srt_path [py "in"; py "movie.en.sub"] [py "out"]
  = [py "out"; py "movie.en.srt"].
Proof.
  exact (output_name_replaces_last_extension
           [py "in"; py "movie.en.sub"] [py "out"] (py "movie.en") (py "sub")
           eq_refl eq_refl).
Defined.

(** ** White space around the two times *)

Lemma split1_at sep (a b : str) :
  contains sep a = false -> split1 sep (a ++ sep :: b) = [a; b].
Proof.
  induction a as [|c r IH]; cbn [app split1].
  - rewrite N.eqb_refl. reflexivity.
  - rewrite contains_cons. intros Hc. apply orb_false_iff in Hc as [Hx Hr].
    rewrite N.eqb_sym, Hx, (IH Hr). reflexivity.
Qed.

Lemma split_absent sep (a : str) : contains sep a = false -> split sep a = [a].
Proof.
  induction a as [|c r IH]; [reflexivity|].
  rewrite contains_cons. intros Hc. apply orb_false_iff in Hc as [Hx Hr].
  cbn [split]. rewrite N.eqb_sym, Hx, (IH Hr). reflexivity.
Qed.

Lemma split_at sep (a b : str) :
  contains sep a = false -> contains sep b = false ->
  split sep (a ++ sep :: b) = [a; b].
Proof.
  intros Ha Hb. induction a as [|c r IH]; cbn [app split].
  - rewrite N.eqb_refl, (split_absent sep b Hb). reflexivity.
  - rewrite contains_cons in Ha. apply orb_false_iff in Ha as [Hx Hr].
    rewrite N.eqb_sym, Hx, (IH Hr). reflexivity.
Qed.

Lemma lstrip_app_space (a s : str) :
  forallb isspace a = true -> lstrip (a ++ s) = lstrip s.
Proof.
  induction a as [|c r IH]; [reflexivity|]. cbn [forallb lstrip app].
  intros Ha. apply andb_true_iff in Ha as [-> Hr]. exact (IH Hr).
Qed.

Lemma rstrip_app_space (s b : str) :
  forallb isspace b = true -> rstrip (s ++ b) = rstrip s.
Proof.
  intros Hb. unfold rstrip. rewrite rev_app_distr, lstrip_app_space;
    [reflexivity|]. rewrite forallb_rev. exact Hb.
Qed.

(** [strip] does not see white space added on either side. *)
Lemma strip_padded (a s b : str) :
  forallb isspace a = true -> forallb isspace b = true ->
  strip (a ++ s ++ b) = strip s.
Proof.
  intros Ha Hb. unfold strip. rewrite (lstrip_app_space a _ Ha).
  clear a Ha. induction s as [|c r IH]; cbn [app].
  - rewrite (lstrip_space b Hb). reflexivity.
  - cbn [lstrip]. destruct (isspace c); [exact IH|].
    apply (rstrip_app_space (c :: r) b Hb).
Qed.

Lemma space_no_comma (a : str) :
  forallb isspace a = true -> contains (chr ",") a = false.
Proof.
  induction a as [|c r IH]; [reflexivity|]. cbn [forallb].
  intros Ha. apply andb_true_iff in Ha as [Hc Hr].
  rewrite contains_cons, (IH Hr), orb_false_r.
  apply N.eqb_neq. intros <-. discriminate Hc.
Qed.

(** X20. White space on the time line around either time (but no newline, which
    would end the time line) is ignored: the block gives the same entry,
    warning or failure as without it. *)
Theorem space_around_times_ignored (idx : nat)
    (start stop text a b c d : str) :
  forallb isspace (a ++ b ++ c ++ d) = true ->
  contains nl (a ++ b ++ c ++ d) = false ->
  contains (chr ",") (start ++ stop) = false ->
  contains nl (start ++ stop) = false ->
  block_verdict idx
    ((a ++ start ++ b) ++ chr "," :: (c ++ stop ++ d) ++ nl :: text)
  = block_verdict idx (start ++ chr "," :: stop ++ nl :: text).
Proof.
  rewrite !forallb_app, !contains_app.
  intros Hsp Hnl Hcomma Hnl'.
  apply andb_true_iff in Hsp as [Ha Hsp]. apply andb_true_iff in Hsp as [Hb Hsp].
  apply andb_true_iff in Hsp as [Hc Hd].
  apply orb_false_iff in Hnl as [Hna Hnl]. apply orb_false_iff in Hnl as [Hnb Hnl].
  apply orb_false_iff in Hnl as [Hnc Hnd].
  apply orb_false_iff in Hcomma as [Hs Ht].
  apply orb_false_iff in Hnl' as [Hns Hnt].
  assert (Hnlcomma : contains nl [chr ","] = false) by reflexivity.
  unfold block_verdict.
  replace ((a ++ start ++ b) ++ chr "," :: (c ++ stop ++ d) ++ nl :: text)
    with (((a ++ start ++ b) ++ chr "," :: c ++ stop ++ d) ++ nl :: text)
    by (repeat (rewrite <- app_assoc || rewrite <- app_comm_cons);
        reflexivity).
  replace (start ++ chr "," :: stop ++ nl :: text)
    with ((start ++ chr "," :: stop) ++ nl :: text)
    by (repeat (rewrite <- app_assoc || rewrite <- app_comm_cons);
        reflexivity).
  rewrite !split1_at
    by (rewrite ?contains_app, ?contains_cons, ?contains_app,
          ?Hna, ?Hnb, ?Hnc, ?Hnd, ?Hns, ?Hnt; reflexivity).
  cbn [length Nat.ltb Nat.leb unpack2].
  rewrite !split_at
    by (rewrite ?contains_app, ?Hs, ?Ht, ?(space_no_comma a Ha),
          ?(space_no_comma b Hb), ?(space_no_comma c Hc),
          ?(space_no_comma d Hd); reflexivity).
  cbn [map]. rewrite (strip_padded a start b Ha Hb).
  rewrite (strip_padded c stop d Hc Hd). reflexivity.
Qed.

Lemma space_around_times_ignored_witness :
  block_verdict 1 (py " 00:00:01.5  ,  00:00:03 " ++ nl :: py "One")
  = block_verdict 1 (py "00:00:01.5,00:00:03" ++ nl :: py "One").
Proof.
  exact (space_around_times_ignored 1 (py "00:00:01.5") (py "00:00:03")
           (py "One") (py " ") (py "  ") (py "  ") (py " ")
           eq_refl eq_refl eq_refl eq_refl).
Defined.
